(** * tinystan Python client: the binding layer of [model.py]

    A shallow embedding of [clients/python/tinystan/model.py].  The native
    library loaded with [ctypes.CDLL] and the Python helpers imported from
    other modules are external collaborators: their answers are the fields
    of one record, [Env], which describes the world during one invocation.
    Every call that crosses the native boundary is
    logged as an [Event], Python exceptions are the [Raise] results of a
    small writer/exception monad, and the [with self._get_model(...)] block
    is a bracket over that monad. *)

From Stdlib Require Import ZArith List String Ascii Bool Lia Floats DecimalString.
Import ListNotations.
Open Scope string_scope.
Open Scope list_scope.
Open Scope Z_scope.

(** ** Python values *)

(** Exception classes raised by the module ([IndexError], [TypeError] and
    [UnicodeDecodeError] come from list indexing, [len] and [bytes.decode];
    the others are named in the source). *)
Inductive ExnType :=
| RuntimeError | ValueError | KeyboardInterrupt
| IndexError | TypeError | OtherError | UnicodeDecodeError.

Record PyExn := mkExn { exn_type : ExnType; exn_msg : string }.

(** [str(n)] of a Python integer. *)
Definition str_int (z : Z) : string := NilZero.string_of_int (Z.to_int z).

(** [repr] of a tuple of integers: [(3,)], [(4, 3)], [(4, 3, 3)]. *)
Fixpoint join (sep : string) (l : list string) : string :=
  match l with
  | [] => ""
  | [x] => x
  | x :: rest => (x ++ sep ++ join sep rest)%string
  end.

Definition repr_tuple (t : list Z) : string :=
  match t with
  | [x] => ("(" ++ str_int x ++ ",)")%string
  | _ => ("(" ++ join ", " (map str_int t) ++ ")")%string
  end.

(** The value bound to [rc] in [_raise_for_error]: the [c_int] a native
    call returned, or the [bool] computed by [not model]. *)
Inductive rc_value := RcInt (z : Z) | RcBool (b : bool).

(** [rc != 0]; a Python [bool] compares as the integer 0 or 1. *)
Definition rc_nonzero (rc : rc_value) : bool :=
  match rc with
  | RcInt z => negb (z =? 0)
  | RcBool b => b
  end.

(** [f"{rc}"]. *)
Definition rc_str (rc : rc_value) : string :=
  match rc with
  | RcInt z => str_int z
  | RcBool true => "True"
  | RcBool false => "False"
  end.

(** [l[i]] on a Python list: negative indices count from the end, anything
    outside [-len, len) raises [IndexError] (here [None]). *)
Definition py_index {A} (l : list A) (i : Z) : option A :=
  let n := Z.of_nat (List.length l) in
  if (0 <=? i) && (i <? n) then nth_error l (Z.to_nat i)
  else if (- n <=? i) && (i <? 0) then nth_error l (Z.to_nat (i + n))
  else None.

(** ** Strings

    A Python [str] or [bytes] is a [string]; [encode]/[decode] are the
    identity, so a character stands for a code point below 256.  The one
    place where decoding is not taken to succeed is the native error
    message, which is kept as its bytes and must be well-formed UTF-8
    ([utf8_valid]) to decode at all. *)

(** The value of a byte. *)
Definition byte_value (c : ascii) : Z := Z.of_nat (nat_of_ascii c).

(** A continuation byte, [0x80 .. 0xBF]. *)
Definition utf8_cont (b : Z) : bool := (128 <=? b) && (b <=? 191).

(** Does [b.decode("utf-8")] succeed?  The strict decoder accepts the
    well-formed sequences only: no stray continuation byte, no overlong
    form, no surrogate, nothing above U+10FFFF, no truncated sequence. *)
Fixpoint utf8_valid (s : string) : bool :=
  match s with
  | EmptyString => true
  | String c0 r0 =>
      let b0 := byte_value c0 in
      if b0 <=? 127 then utf8_valid r0
      else
        match r0 with
        | EmptyString => false
        | String c1 r1 =>
            let b1 := byte_value c1 in
            if (194 <=? b0) && (b0 <=? 223) then utf8_cont b1 && utf8_valid r1
            else
              match r1 with
              | EmptyString => false
              | String c2 r2 =>
                  let b2 := byte_value c2 in
                  if (224 <=? b0) && (b0 <=? 239) then
                    (if b0 =? 224 then (160 <=? b1) && (b1 <=? 191)
                     else if b0 =? 237 then (128 <=? b1) && (b1 <=? 159)
                     else utf8_cont b1)
                    && utf8_cont b2 && utf8_valid r2
                  else
                    match r2 with
                    | EmptyString => false
                    | String c3 r3 =>
                        let b3 := byte_value c3 in
                        if (240 <=? b0) && (b0 <=? 244) then
                          (if b0 =? 240 then (144 <=? b1) && (b1 <=? 191)
                           else if b0 =? 244
                                then (128 <=? b1) && (b1 <=? 143)
                                else utf8_cont b1)
                          && utf8_cont b2 && utf8_cont b3 && utf8_valid r3
                        else false
                    end
              end
        end
  end.

(** [c.isspace()] for a code point below 256. *)
Definition is_space (c : ascii) : bool :=
  let n := Z.of_nat (nat_of_ascii c) in
  ((9 <=? n) && (n <=? 13)) || ((28 <=? n) && (n <=? 32))
  || (n =? 133) || (n =? 160).

Fixpoint lstrip (s : string) : string :=
  match s with
  | EmptyString => EmptyString
  | String c r => if is_space c then lstrip r else s
  end.

Fixpoint rstrip (s : string) : string :=
  match s with
  | EmptyString => EmptyString
  | String c r =>
      match rstrip r with
      | EmptyString => if is_space c then EmptyString else String c EmptyString
      | r' => String c r'
      end
  end.

(** [s.strip()]. *)
Definition strip (s : string) : string := rstrip (lstrip s).

(** [s.split(c)] for a one-character separator: never returns the empty
    list, ["".split(",") == [""]]. *)
Fixpoint split (c : ascii) (s : string) : list string :=
  match s with
  | EmptyString => [EmptyString]
  | String x r =>
      if Ascii.eqb x c then EmptyString :: split c r
      else match split c r with
           | h :: t => String x h :: t
           | [] => [String x EmptyString]
           end
  end.

(** Does the character occur in the string? *)
Fixpoint contains (c : ascii) (s : string) : bool :=
  match s with
  | EmptyString => false
  | String x r => Ascii.eqb x c || contains c r
  end.

(** ** Arrays *)

(** A C-contiguous [np.ndarray] of [float64]: its shape and its flat data. *)
Record ndarray := mkArray { shape : list Z; flat : list float }.

(** [a.size]. *)
Definition size (a : ndarray) : Z := fold_right Z.mul 1 (shape a).

(** [np.zeros(shape, dtype=np.float64)]. *)
Definition np_zeros (sh : list Z) : ndarray :=
  mkArray sh (repeat 0%float (Z.to_nat (fold_right Z.mul 1 sh))).

(** [np.repeat(a[np.newaxis], n, axis=0)]: [n] copies of [a] stacked along a
    new leading axis. *)
Definition np_repeat_newaxis (a : ndarray) (n : Z) : ndarray :=
  mkArray (n :: shape a) (List.concat (repeat (flat a) (Z.to_nat n))).

(** [len(a)]: the first dimension, [TypeError] for a 0-d array. *)
Definition np_len (a : ndarray) : option Z :=
  match shape a with
  | [] => None
  | n :: _ => Some n
  end.

(** [a[1:]] on a one-dimensional array. *)
Definition np_tail (a : ndarray) : ndarray :=
  match shape a with
  | [n] => mkArray [Z.max 0 (n - 1)] (tl (flat a))
  | sh => mkArray sh (flat a)
  end.

(** The contents of a buffer after the native call wrote into it: the
    memory is caller-supplied, so the shape cannot change. *)
Definition written (a : ndarray) (w : nat -> float) : ndarray :=
  mkArray (shape a) (map w (seq 0 (List.length (flat a)))).

Definition shape_eqb (s t : list Z) : bool :=
  if list_eq_dec Z.eq_dec s t then true else false.

(** ** Arguments of the module's functions *)

(** Structured Stan data, the input of [stanio.dump_stan_json]. *)
Inductive StanValue :=
| SVInt (z : Z)
| SVReal (x : float)
| SVArray (l : list float).

Definition Dict := list (string * StanValue).

(** [data: Union[str, PathLike, Dict[str, Any]]]. *)
Inductive StanData :=
| DataStr (s : string)
| DataPath (p : string)
| DataDict (d : Dict).

(** Modelled from the spec: the class [StanOutput] of [output.py], which is
    not part of this module, "a result pairing parameter names with the
    populated buffer, attaching any optional secondary outputs" (the
    attributes [metric] and [hessian], set after construction). *)
Record StanOutput := mkOutput {
  out_parameters : list string;
  out_data : ndarray;
  out_metric : option ndarray;
  out_hessian : option ndarray
}.

Definition new_StanOutput (names : list string) (a : ndarray) : StanOutput :=
  mkOutput names a None None.

(** [inits]: one value, a list of values, or an earlier result.  (The
    Python [None] is the [None] of [option Inits].) *)
Inductive PlainInits :=
| InitsOne (d : StanData)
| InitsList (l : list StanData).

Inductive Inits :=
| InitsPlain (p : PlainInits)
| InitsOutput (o : StanOutput).

(** [mode] of [laplace_sample]. *)
Inductive Mode :=
| ModeOutput (o : StanOutput)
| ModeArray (a : ndarray)
| ModeData (d : StanData).

Inductive HMCMetric := UNIT | DENSE | DIAGONAL.

Definition HMCMetric_value (m : HMCMetric) : Z :=
  match m with UNIT => 0 | DENSE => 1 | DIAGONAL => 2 end.

Definition HMCMetric_eqb (a b : HMCMetric) : bool :=
  HMCMetric_value a =? HMCMetric_value b.

Inductive OptimizationAlgorithm := NEWTON | BFGS | LBFGS.

Definition OptimizationAlgorithm_value (a : OptimizationAlgorithm) : Z :=
  match a with NEWTON => 0 | BFGS => 1 | LBFGS => 2 end.

(** Keyword arguments that [sample] forwards to the native call untouched. *)
Record HmcTuning := mkHmcTuning {
  hmc_id : Z; hmc_init_radius : float;
  hmc_adapt : bool; hmc_delta : float; hmc_gamma : float; hmc_kappa : float;
  hmc_t0 : float; hmc_init_buffer : Z; hmc_term_buffer : Z; hmc_window : Z;
  hmc_stepsize : float; hmc_stepsize_jitter : float; hmc_max_depth : Z;
  hmc_refresh : Z; hmc_num_threads : Z
}.

Record SampleArgs := mkSampleArgs {
  sa_data : StanData;
  sa_num_chains : Z;
  sa_inits : option Inits;
  sa_seed : option Z;
  sa_num_warmup : Z;
  sa_num_samples : Z;
  sa_metric : HMCMetric;
  sa_init_inv_metric : option ndarray;
  sa_save_metric : bool;
  sa_save_warmup : bool;
  sa_tuning : HmcTuning
}.

(** Keyword arguments that [pathfinder] forwards untouched. *)
Record PathfinderTuning := mkPathfinderTuning {
  pft_id : Z; pft_init_radius : float; pft_max_history_size : Z;
  pft_init_alpha : float; pft_tol_obj : float; pft_tol_rel_obj : float;
  pft_tol_grad : float; pft_tol_rel_grad : float; pft_tol_param : float;
  pft_num_iterations : Z; pft_num_elbo_draws : Z;
  pft_refresh : Z; pft_num_threads : Z
}.

Record PathfinderArgs := mkPathfinderArgs {
  pa_data : StanData;
  pa_num_paths : Z;
  pa_inits : option Inits;
  pa_seed : option Z;
  pa_num_draws : Z;
  pa_num_multi_draws : Z;
  pa_calculate_lp : bool;
  pa_psis_resample : bool;
  pa_tuning : PathfinderTuning
}.

(** Keyword arguments that [optimize] forwards untouched. *)
Record OptimizeTuning := mkOptimizeTuning {
  opt_id : Z; opt_init_radius : float; opt_num_iterations : Z;
  opt_jacobian : bool; opt_max_history_size : Z; opt_init_alpha : float;
  opt_tol_obj : float; opt_tol_rel_obj : float; opt_tol_grad : float;
  opt_tol_rel_grad : float; opt_tol_param : float;
  opt_refresh : Z; opt_num_threads : Z
}.

Record OptimizeArgs := mkOptimizeArgs {
  oa_data : StanData;
  oa_init : option Inits;
  oa_seed : option Z;
  oa_algorithm : OptimizationAlgorithm;
  oa_tuning : OptimizeTuning
}.

Record LaplaceArgs := mkLaplaceArgs {
  la_mode : Mode;
  la_data : StanData;
  la_num_draws : Z;
  la_jacobian : bool;
  la_calculate_lp : bool;
  la_save_hessian : bool;
  la_seed : option Z;
  la_refresh : Z;
  la_num_threads : Z
}.

(** ** The native boundary *)

(** Pointers are integers, 0 is [NULL]. *)
Definition NULL : Z := 0.

(** How [ctypes] turns a Python integer into an argument of the C type
    named in [argtypes]: without overflow check, by keeping the low bits. *)
Definition c_uint (z : Z) : Z := z mod 2 ^ 32.

Definition c_int (z : Z) : Z := (z + 2 ^ 31) mod 2 ^ 32 - 2 ^ 31.

Definition c_size_t (z : Z) : Z := z mod 2 ^ 64.

(** The positional arguments of [tinystan_sample], in the order of the
    call, as Python hands them to the foreign function; what the C function
    gets after the conversions of [argtypes] is [received_sample]. *)
Record SampleCall := mkSampleCall {
  sc_model : Z;
  sc_num_chains : Z;
  sc_inits : option string;
  sc_seed : Z;
  sc_tuning : HmcTuning;
  sc_num_warmup : Z;
  sc_num_samples : Z;
  sc_metric : Z;
  sc_init_inv_metric : option ndarray;
  sc_save_warmup : bool;
  sc_out : ndarray;
  sc_out_size : Z;
  sc_metric_out : option ndarray
}.

Record PathfinderCall := mkPathfinderCall {
  pc_model : Z;
  pc_num_paths : Z;
  pc_inits : option string;
  pc_seed : Z;
  pc_tuning : PathfinderTuning;
  pc_num_draws : Z;
  pc_num_multi_draws : Z;
  pc_calculate_lp : bool;
  pc_psis_resample : bool;
  pc_out : ndarray;
  pc_out_size : Z
}.

Record OptimizeCall := mkOptimizeCall {
  oc_model : Z;
  oc_inits : option string;
  oc_seed : Z;
  oc_algorithm : Z;
  oc_tuning : OptimizeTuning;
  oc_out : ndarray;
  oc_out_size : Z
}.

Record LaplaceCall := mkLaplaceCall {
  lc_model : Z;
  lc_mode_array : option ndarray;
  lc_mode_json : option string;
  lc_seed : Z;
  lc_num_draws : Z;
  lc_jacobian : bool;
  lc_calculate_lp : bool;
  lc_refresh : Z;
  lc_num_threads : Z;
  lc_out : ndarray;
  lc_out_size : Z;
  lc_hessian_out : option ndarray
}.

(** What an inference entry point hands back: the status code, the value it
    left in the error slot, and what it wrote into the two buffers. *)
Record NativeReturn := mkNativeReturn {
  nr_rc : Z;
  nr_err : Z;
  nr_out : nat -> float;
  nr_aux : nat -> float
}.

(** Everything outside [model.py], during one invocation of a method: the
    entry points of the shared object (each given the arguments as Python
    passes them; the library itself sees them through the conversions of
    [argtypes]), the helpers imported from [stanio], [.util] and [.output],
    and [entropy], the state of NumPy's random generator when the invocation
    starts.  A method draws at most once, so one value is enough; a second
    invocation meets another state and is described by another [Env]. *)
Record Env := mkEnv {
  sep : ascii;
  tinystan_create_model : string -> Z -> Z * Z;
  tinystan_model_param_names : Z -> string;
  tinystan_model_num_free_params : Z -> Z;
  tinystan_get_error_message : Z -> string;
  tinystan_get_error_type : Z -> Z;
  tinystan_sample : SampleCall -> NativeReturn;
  tinystan_pathfinder : PathfinderCall -> NativeReturn;
  tinystan_optimize : OptimizeCall -> NativeReturn;
  tinystan_laplace_sample : LaplaceCall -> NativeReturn;
  dump_stan_json : Dict -> string;
  validate_readable : string -> option PyExn;
  create_inits : StanOutput -> Z -> Z -> PlainInits;
  entropy : Z
}.

(** One entry per call made through [self._lib], with the arguments as
    Python passes them, plus the draw from the random generator. *)
Inductive Event :=
| EvRandU32
| EvCreateModel (payload : string) (seed : Z)
| EvDestroyModel (model : Z)
| EvParamNames (model : Z)
| EvNumFreeParams (model : Z)
| EvGetErrorMsg (err : Z)
| EvGetErrorType (err : Z)
| EvFreeError (err : Z)
| EvSample (c : SampleCall)
| EvPathfinder (c : PathfinderCall)
| EvOptimize (c : OptimizeCall)
| EvLaplace (c : LaplaceCall).

(** Calls into the shared object (everything but the random draw). *)
Definition is_native (e : Event) : bool :=
  match e with EvRandU32 => false | _ => true end.

Definition is_destroy (e : Event) : bool :=
  match e with EvDestroyModel _ => true | _ => false end.

Definition is_create (e : Event) : bool :=
  match e with EvCreateModel _ _ => true | _ => false end.

Definition is_free_error (e : Event) : bool :=
  match e with EvFreeError _ => true | _ => false end.

(** The four inference entry points. *)
Definition is_inference (e : Event) : bool :=
  match e with
  | EvSample _ | EvPathfinder _ | EvOptimize _ | EvLaplace _ => true
  | _ => false
  end.

(** What the tuning arguments of [tinystan_sample] are on the C side:
    [id], [init_buffer], [term_buffer] and [window] are [c_uint],
    [max_depth], [refresh] and [num_threads] are [c_int]. *)
Definition received_hmc (t : HmcTuning) : HmcTuning :=
  mkHmcTuning (c_uint (hmc_id t)) (hmc_init_radius t) (hmc_adapt t)
    (hmc_delta t) (hmc_gamma t) (hmc_kappa t) (hmc_t0 t)
    (c_uint (hmc_init_buffer t)) (c_uint (hmc_term_buffer t))
    (c_uint (hmc_window t)) (hmc_stepsize t) (hmc_stepsize_jitter t)
    (c_int (hmc_max_depth t)) (c_int (hmc_refresh t))
    (c_int (hmc_num_threads t)).

(** What [tinystan_sample] receives: [num_chains] and the buffer size as
    [c_size_t], the seed as [c_uint], [num_warmup], [num_samples] and the
    metric as [c_int]. *)
Definition received_sample (c : SampleCall) : SampleCall :=
  mkSampleCall (sc_model c) (c_size_t (sc_num_chains c)) (sc_inits c)
    (c_uint (sc_seed c)) (received_hmc (sc_tuning c))
    (c_int (sc_num_warmup c)) (c_int (sc_num_samples c))
    (c_int (sc_metric c)) (sc_init_inv_metric c) (sc_save_warmup c)
    (sc_out c) (c_size_t (sc_out_size c)) (sc_metric_out c).

(** The seed [tinystan_create_model] receives, a [c_uint]. *)
Definition received_seed (seed : Z) : Z := c_uint seed.

(** ** Effects: a trace of events and a result or a raised exception *)

Inductive Result (A : Type) :=
| Ok (a : A)
| Raise (e : PyExn).
Arguments Ok {A} a.
Arguments Raise {A} e.

Definition M (A : Type) : Type := list Event * Result A.

Definition ret {A} (a : A) : M A := ([], Ok a).

Definition raise {A} (ty : ExnType) (msg : string) : M A :=
  ([], Raise (mkExn ty msg)).

Definition emit (e : Event) : M unit := ([e], Ok tt).

Definition bind {A B} (m : M A) (f : A -> M B) : M B :=
  match m with
  | (t, Ok a) => let (t', r) := f a in (t ++ t', r)
  | (t, Raise e) => (t, Raise e)
  end.

(** [try: m finally: fin]: [fin] runs whatever [m] did. *)
Definition finally {A} (m : M A) (fin : M unit) : M A :=
  match fin with
  | (tf, Ok _) => (fst m ++ tf, snd m)
  | (tf, Raise e) => (fst m ++ tf, Raise e)
  end.

Notation "x <- m ;; k" := (bind m (fun x => k))
  (at level 61, m at next level, right associativity).
Notation "m ;;; k" := (bind m (fun _ => k))
  (at level 61, right associativity).

Fixpoint mapM {A B} (f : A -> M B) (l : list A) : M (list B) :=
  match l with
  | [] => ret []
  | x :: rest => y <- f x ;; ys <- mapM f rest ;; ret (y :: ys)
  end.

Definition trace {A} (m : M A) : list Event := fst m.
Definition result {A} (m : M A) : Result A := snd m.

(** ** The module *)

Definition HMC_SAMPLER_VARIABLES : list string :=
  ["lp__"; "accept_stat__"; "stepsize__"; "treedepth__"; "n_leapfrog__";
   "divergent__"; "energy__"].

Definition PATHFINDER_VARIABLES : list string := ["lp_approx__"; "lp__"].

Definition OPTIMIZE_VARIABLES : list string := ["lp__"].

Definition LAPLACE_VARIABLES : list string := ["log_p__"; "log_q__"].

Definition FIXED_SAMPLER_VARIABLES : list string := ["lp__"; "accept_stat__"].

Definition _exception_types : list ExnType :=
  [RuntimeError; ValueError; KeyboardInterrupt].

(** [len(l)] as a Python integer. *)
Definition len {A} (l : list A) : Z := Z.of_nat (List.length l).

(** [n * b] with [b] a Python [bool]. *)
Definition bool_int (b : bool) : Z := if b then 1 else 0.

(** [metric_size] in [sample]: [(p, p)] for the dense metric, [(p,)]
    otherwise. *)
Definition metric_shape (metric : HMCMetric) (p : Z) : list Z :=
  if HMCMetric_eqb metric DENSE then [p; p] else [p].

Section Model.

Variable env : Env.

(** [encode_stan_json]. *)
Definition encode_stan_json (d : StanData) : M string :=
  match d with
  | DataPath p =>
      match validate_readable env p with
      | Some e => ([], Raise e)
      | None => ret p
      end
  | DataStr s => ret s
  | DataDict d => ret (dump_stan_json env d)
  end.

(** [rand_u32]: [np.random.randint(0, 2**32 - 1, dtype=np.uint32)], a draw
    from the half-open interval [[0, 2**32 - 1)]. *)
Definition rand_u32 : M Z :=
  emit EvRandU32 ;;; ret (entropy env mod (2 ^ 32 - 1)).

(** The expression [seed or rand_u32()]: [None] and [0] are both falsy. *)
Definition seed_or_rand_u32 (seed : option Z) : M Z :=
  match seed with
  | None => rand_u32
  | Some s => if s =? 0 then rand_u32 else ret s
  end.

(** [preprocess_laplace_inputs]. *)
Definition preprocess_laplace_inputs (mode : Mode)
  : M (option ndarray * option string) :=
  mode' <- match mode with
           | ModeOutput o =>
               (* handle case of passing optimization output directly *)
               if len (shape (out_data o)) =? 1
               then ret (inl (np_tail (out_data o)))
               else raise ValueError
                      "Laplace can only be used with Optimization output"
           | ModeArray m => ret (inl m)
           | ModeData d => ret (inr d)
           end ;;
  match mode' with
  | inl mode_array => ret (Some mode_array, None)
  | inr d => mode_json <- encode_stan_json d ;; ret (None, Some mode_json)
  end.

(** [b.decode("utf-8")] of the native error message.  A message that
    decodes is represented by its UTF-8 bytes.  (The real
    [UnicodeDecodeError] goes on to name the offending byte and its
    position; only the codec is kept here.) *)
Definition decode_utf8 (b : string) : M string :=
  if utf8_valid b then ret b
  else raise UnicodeDecodeError "'utf-8' codec can't decode bytes".

(** [Model._raise_for_error]. *)
Definition _raise_for_error (rc : rc_value) (err : Z) : M unit :=
  if rc_nonzero rc then
    if negb (err =? NULL) then
      emit (EvGetErrorMsg err) ;;;
      msg <- decode_utf8 (tinystan_get_error_message env err) ;;
      emit (EvGetErrorType err) ;;;
      let exception_type := tinystan_get_error_type env err in
      emit (EvFreeError err) ;;;
      match py_index _exception_types exception_type with
      | Some exn => raise exn msg
      | None => raise IndexError "list index out of range"
      end
    else
      raise RuntimeError
        ("Unknown error, function returned code " ++ rc_str rc)%string
  else ret tt.

(** [Model._get_model], with the body of the [with] block as [body]: the
    code before [yield], then [body] inside [try], then [finally]. *)
Definition _get_model {A} (data : StanData) (seed : Z) (body : Z -> M A)
  : M A :=
  payload <- encode_stan_json data ;;
  emit (EvCreateModel payload seed) ;;;
  let (model, err) := tinystan_create_model env payload seed in
  _raise_for_error (RcBool (model =? NULL)) err ;;;
  finally (body model) (emit (EvDestroyModel model)).

(** [Model._encode_inits]. *)
Definition _encode_inits (inits : option Inits) (chains seed : Z)
  : M (option string) :=
  match inits with
  | None => ret None
  | Some i =>
      let i' := match i with
                | InitsOutput o => create_inits env o chains seed
                | InitsPlain p => p
                end in
      match i' with
      | InitsList l =>
          segs <- mapM encode_stan_json l ;;
          ret (Some (join (String (sep env) EmptyString) segs))
      | InitsOne d => s <- encode_stan_json d ;; ret (Some s)
      end
  end.

(** [Model._get_parameter_names].  The names are Stan identifiers with
    indices, which are ASCII, so the string is taken as decoded. *)
Definition _get_parameter_names (model : Z) : M (list string) :=
  emit (EvParamNames model) ;;;
  let comma_separated := strip (tinystan_model_param_names env model) in
  if String.eqb comma_separated "" then ret []
  else ret (split "," comma_separated).

(** [self._num_free_params(model)]. *)
Definition _num_free_params (model : Z) : M Z :=
  emit (EvNumFreeParams model) ;;;
  ret (tinystan_model_num_free_params env model).

(** The metric block of [sample] (the [if init_inv_metric is not None]
    statement). *)
Definition check_init_inv_metric (init_inv_metric : option ndarray)
    (num_chains : Z) (metric_size : list Z) : M (option ndarray) :=
  match init_inv_metric with
  | None => ret None
  | Some m =>
      if shape_eqb (shape m) metric_size then
        ret (Some (np_repeat_newaxis m num_chains))
      else if shape_eqb (shape m) (num_chains :: metric_size) then
        ret (Some m)
      else
        raise ValueError
          ("Invalid initial metric size. Expected a "
           ++ repr_tuple metric_size ++ " or "
           ++ repr_tuple (num_chains :: metric_size) ++ " matrix.")%string
  end.

(** The body of the [with] block of [sample]. *)
Definition sample_body (a : SampleArgs) (seed model : Z)
  : M (list string * ndarray * option ndarray) :=
  let num_chains := sa_num_chains a in
  model_params <- _num_free_params model ;;
  (if model_params =? 0
   then raise ValueError "Model has no parameters to sample."
   else ret tt) ;;;
  names <- _get_parameter_names model ;;
  let param_names := HMC_SAMPLER_VARIABLES ++ names in
  let num_params := len param_names in
  let num_draws :=
    sa_num_samples a + sa_num_warmup a * bool_int (sa_save_warmup a) in
  let out := np_zeros [num_chains; num_draws; num_params] in
  let metric_size := metric_shape (sa_metric a) model_params in
  init_inv_metric <-
    check_init_inv_metric (sa_init_inv_metric a) num_chains metric_size ;;
  let metric_out :=
    if sa_save_metric a
    then Some (np_zeros (num_chains :: metric_size)) else None in
  inits <- _encode_inits (sa_inits a) num_chains seed ;;
  let call :=
    mkSampleCall model num_chains inits seed (sa_tuning a)
      (sa_num_warmup a) (sa_num_samples a) (HMCMetric_value (sa_metric a))
      init_inv_metric (sa_save_warmup a) out (size out) metric_out in
  emit (EvSample call) ;;;
  let r := tinystan_sample env call in
  _raise_for_error (RcInt (nr_rc r)) (nr_err r) ;;;
  ret (param_names, written out (nr_out r),
       option_map (fun m => written m (nr_aux r)) metric_out).

(** [Model.sample]. *)
Definition sample (a : SampleArgs) : M StanOutput :=
  if sa_num_chains a <? 1 then
    raise ValueError "num_chains must be at least 1"
  else if sa_num_warmup a <? 0 then
    raise ValueError "num_warmup must be non-negative"
  else if sa_num_samples a <? 1 then
    raise ValueError "num_samples must be at least 1"
  else
    seed <- seed_or_rand_u32 (sa_seed a) ;;
    r <- _get_model (sa_data a) seed (sample_body a seed) ;;
    let '(param_names, out, metric_out) := r in
    let output := new_StanOutput param_names out in
    ret (if sa_save_metric a
         then mkOutput (out_parameters output) (out_data output)
                metric_out (out_hessian output)
         else output).

(** The body of the [with] block of [pathfinder]. *)
Definition pathfinder_body (a : PathfinderArgs) (output_size seed model : Z)
  : M (list string * ndarray) :=
  model_params <- _num_free_params model ;;
  (if model_params =? 0
   then raise ValueError "Model has no parameters."
   else ret tt) ;;;
  names <- _get_parameter_names model ;;
  let param_names := PATHFINDER_VARIABLES ++ names in
  let num_params := len param_names in
  let out := np_zeros [output_size; num_params] in
  inits <- _encode_inits (pa_inits a) (pa_num_paths a) seed ;;
  let call :=
    mkPathfinderCall model (pa_num_paths a) inits seed (pa_tuning a)
      (pa_num_draws a) (pa_num_multi_draws a) (pa_calculate_lp a)
      (pa_psis_resample a) out (size out) in
  emit (EvPathfinder call) ;;;
  let r := tinystan_pathfinder env call in
  _raise_for_error (RcInt (nr_rc r)) (nr_err r) ;;;
  ret (param_names, written out (nr_out r)).

(** [Model.pathfinder]. *)
Definition pathfinder (a : PathfinderArgs) : M StanOutput :=
  if pa_num_draws a <? 1 then
    raise ValueError "num_draws must be at least 1"
  else if pa_num_paths a <? 1 then
    raise ValueError "num_paths must be at least 1"
  else if pa_num_multi_draws a <? 1 then
    raise ValueError "num_multi_draws must be at least 1"
  else
    let output_size :=
      if pa_calculate_lp a && pa_psis_resample a
      then pa_num_multi_draws a
      else pa_num_draws a * pa_num_paths a in
    seed <- seed_or_rand_u32 (pa_seed a) ;;
    r <- _get_model (pa_data a) seed (pathfinder_body a output_size seed) ;;
    ret (new_StanOutput (fst r) (snd r)).

(** The body of the [with] block of [optimize]. *)
Definition optimize_body (a : OptimizeArgs) (seed model : Z)
  : M (list string * ndarray) :=
  names <- _get_parameter_names model ;;
  let param_names := OPTIMIZE_VARIABLES ++ names in
  let num_params := len param_names in
  let out := np_zeros [num_params] in
  inits <- _encode_inits (oa_init a) 1 seed ;;
  let call :=
    mkOptimizeCall model inits seed
      (OptimizationAlgorithm_value (oa_algorithm a)) (oa_tuning a)
      out (size out) in
  emit (EvOptimize call) ;;;
  let r := tinystan_optimize env call in
  _raise_for_error (RcInt (nr_rc r)) (nr_err r) ;;;
  ret (param_names, written out (nr_out r)).

(** [Model.optimize]. *)
Definition optimize (a : OptimizeArgs) : M StanOutput :=
  seed <- seed_or_rand_u32 (oa_seed a) ;;
  r <- _get_model (oa_data a) seed (optimize_body a seed) ;;
  ret (new_StanOutput (fst r) (snd r)).

(** The body of the [with] block of [laplace_sample]. *)
Definition laplace_body (a : LaplaceArgs) (mode_array : option ndarray)
    (mode_json : option string) (seed model : Z)
  : M (list string * ndarray * option ndarray) :=
  names <- _get_parameter_names model ;;
  let param_names := LAPLACE_VARIABLES ++ names in
  let num_params := len param_names in
  match mode_array with
  | None => ret tt
  | Some m =>
      match np_len m with
      | None => raise TypeError "len() of unsized object"
      | Some n =>
          if negb (n =? num_params - len LAPLACE_VARIABLES) then
            raise ValueError
              ("Mode array has incorrect length. Expected "
               ++ str_int (num_params - len LAPLACE_VARIABLES)
               ++ " but got " ++ str_int n)%string
          else ret tt
      end
  end ;;;
  let out := np_zeros [la_num_draws a; num_params] in
  model_params <- _num_free_params model ;;
  let hessian_out :=
    if la_save_hessian a
    then Some (np_zeros [model_params; model_params]) else None in
  let call :=
    mkLaplaceCall model mode_array mode_json seed (la_num_draws a)
      (la_jacobian a) (la_calculate_lp a) (la_refresh a)
      (la_num_threads a) out (size out) hessian_out in
  emit (EvLaplace call) ;;;
  let r := tinystan_laplace_sample env call in
  _raise_for_error (RcInt (nr_rc r)) (nr_err r) ;;;
  ret (param_names, written out (nr_out r),
       option_map (fun h => written h (nr_aux r)) hessian_out).

(** [Model.laplace_sample]. *)
Definition laplace_sample (a : LaplaceArgs) : M StanOutput :=
  if la_num_draws a <? 1 then
    raise ValueError "num_draws must be at least 1"
  else
    seed <- seed_or_rand_u32 (la_seed a) ;;
    mode <- preprocess_laplace_inputs (la_mode a) ;;
    let (mode_array, mode_json) := mode in
    r <- _get_model (la_data a) seed
           (laplace_body a mode_array mode_json seed) ;;
    let '(param_names, out, hessian_out) := r in
    let output := new_StanOutput param_names out in
    ret (if la_save_hessian a
         then mkOutput (out_parameters output) (out_data output)
                (out_metric output) hessian_out
         else output).

End Model.

(** ** Sample environments and calls *)

Definition quiet_return : NativeReturn :=
  mkNativeReturn 0 NULL (fun _ => 1%float) (fun _ => 2%float).

(** A library whose model reports the parameter names [names] and [free]
    free parameters, whose constructor returns [handle], and whose inference
    entry points all succeed. *)
Definition demo_env (names : string) (free handle : Z) : Env :=
  mkEnv "028"%char
    (fun _ _ => (handle, if handle =? NULL then 77 else NULL))
    (fun _ => names) (fun _ => free)
    (fun _ => "bad data") (fun _ => 1)
    (fun _ => quiet_return) (fun _ => quiet_return)
    (fun _ => quiet_return) (fun _ => quiet_return)
    (fun _ => "{}") (fun _ => None)
    (fun _ _ _ => InitsOne (DataStr "{}"))
    12345.

(** A library whose error message is the single byte 255, which is not
    UTF-8, with category code 1. *)
Definition undecodable_env : Env :=
  mkEnv "028"%char (fun _ _ => (5, NULL)) (fun _ => "a,b") (fun _ => 2)
    (fun _ => String "255" "") (fun _ => 1)
    (fun _ => quiet_return) (fun _ => quiet_return)
    (fun _ => quiet_return) (fun _ => quiet_return)
    (fun _ => "{}") (fun _ => None)
    (fun _ _ _ => InitsOne (DataStr "{}")) 0.

Definition demo_tuning : HmcTuning :=
  mkHmcTuning 1 2%float true 0.75%float 0.0625%float 0.75%float 10%float
    75 50 25 1%float 0%float 10 0 (-1).

Definition demo_sample_args (chains warmup samples : Z) (seed : option Z)
    (metric : HMCMetric) (init_inv_metric : option ndarray) : SampleArgs :=
  mkSampleArgs (DataStr "") chains None seed warmup samples metric
    init_inv_metric false false demo_tuning.

Definition demo_pathfinder_args : PathfinderArgs :=
  mkPathfinderArgs (DataStr "") 4 None (Some 7) 1000 1000 true true
    (mkPathfinderTuning 1 2%float 5 0.125%float 0.25%float 1e4%float
       0.5%float 1e7%float 0.5%float 1000 100 0 (-1)).

Definition demo_laplace_args (mode : Mode) (draws : Z) : LaplaceArgs :=
  mkLaplaceArgs mode (DataStr "") draws true true false (Some 7) 0 (-1).

(** ** Statements of the specification, word for word *)

(** "An empty string yields an empty sequence; otherwise splits on comma",
    read on the string the library returned. *)
Definition names_as_specified (env : Env) (model : Z) : Prop :=
  let s := tinystan_model_param_names env model in
  result (_get_parameter_names env model)
  = Ok (if String.eqb s "" then [] else split "," s).

(** "Re-splitting on that delimiter must recover [k] segments", for every
    sequence of length [k]. *)
Definition resplit_recovers (env : Env) (l : list StanData) : Prop :=
  forall chains seed payload,
    result (_encode_inits env (Some (InitsPlain (InitsList l))) chains seed)
    = Ok (Some payload) ->
    len (split (sep env) payload) = len l.

(** Modelled from the spec: the native enumeration of error categories
    (declared in the library's C header, which is not part of this module),
    "{recoverable-runtime, invalid-argument, user-interrupt}, mapped 1:1
    from a native integer code", numbered in the order listed. *)
Inductive ErrorCategory := RecoverableRuntime | InvalidArgument | UserInterrupt.

Definition category_code (c : ErrorCategory) : Z :=
  match c with
  | RecoverableRuntime => 0
  | InvalidArgument => 1
  | UserInterrupt => 2
  end.

(** The failure kind the specification assigns to each category. *)
Definition category_exception (c : ErrorCategory) : ExnType :=
  match c with
  | RecoverableRuntime => RuntimeError
  | InvalidArgument => ValueError
  | UserInterrupt => KeyboardInterrupt
  end.

(** How many events of a kind a trace holds. *)
Definition count (p : Event -> bool) (tr : list Event) : nat :=
  List.length (filter p tr).

(** A computation that fails with a [ValueError] without having called
    into the library at all. *)
Definition fails_before_any_native_call {A} (m : M A) : Prop :=
  (exists msg, result m = Raise (mkExn ValueError msg))
  /\ filter is_native (trace m) = [].

(** One call of one of the four inference methods. *)
Inductive Invocation :=
| CallSample (a : SampleArgs)
| CallPathfinder (a : PathfinderArgs)
| CallOptimize (a : OptimizeArgs)
| CallLaplace (a : LaplaceArgs).

(** The events of an invocation, in order. *)
Definition invocation_trace (env : Env) (i : Invocation) : list Event :=
  match i with
  | CallSample a => trace (sample env a)
  | CallPathfinder a => trace (pathfinder env a)
  | CallOptimize a => trace (optimize env a)
  | CallLaplace a => trace (laplace_sample env a)
  end.

(** Did the invocation end by raising? *)
Definition invocation_raised (env : Env) (i : Invocation) : bool :=
  match i with
  | CallSample a => match result (sample env a) with Ok _ => false | _ => true end
  | CallPathfinder a =>
      match result (pathfinder env a) with Ok _ => false | _ => true end
  | CallOptimize a =>
      match result (optimize env a) with Ok _ => false | _ => true end
  | CallLaplace a =>
      match result (laplace_sample env a) with Ok _ => false | _ => true end
  end.

(** A stretch of trace in which no session is created or destroyed. *)
Definition session_free (tr : list Event) : Prop :=
  Forall (fun e => is_create e = false /\ is_destroy e = false) tr.

(** The shapes a trace can take around one session: no constructor call
    at all; a constructor call that returned [NULL]; or a constructor call
    that returned a handle, followed by the work on it and closed by the
    destructor call on that handle. *)
Inductive Bracket (env : Env) : list Event -> Prop :=
| Bracket_none (pre : list Event) :
    session_free pre -> Bracket env pre
| Bracket_failed (pre : list Event) (payload : string) (seed : Z)
    (post : list Event) :
    session_free pre -> session_free post ->
    fst (tinystan_create_model env payload seed) = NULL ->
    Bracket env (pre ++ EvCreateModel payload seed :: post)
| Bracket_held (pre : list Event) (payload : string) (seed : Z)
    (mid : list Event) :
    session_free pre -> session_free mid ->
    fst (tinystan_create_model env payload seed) <> NULL ->
    Bracket env
      (pre ++ EvCreateModel payload seed
           :: mid
           ++ [EvDestroyModel (fst (tinystan_create_model env payload seed))]).

(** "Exactly [7 + numFreeParams] named columns", with the free-parameter
    count the session reports. *)
Definition columns_by_free_parameter_count (env : Env) (a : SampleArgs)
  : Prop :=
  forall out model,
    result (sample env a) = Ok out ->
    In (EvNumFreeParams model) (trace (sample env a)) ->
    nth_error (shape (out_data out)) 2
    = Some (7 + tinystan_model_num_free_params env model).

(** A stretch of trace without events of the kind [p]. *)
Definition avoids (p : Event -> bool) (tr : list Event) : Prop :=
  Forall (fun e => p e = false) tr.

(** A computation that calls an inference entry point at most once, and
    exactly once, without freeing an error object, when it returns. *)
Definition one_call {A} (m : M A) : Prop :=
  (count is_inference (trace m) <= 1)%nat
  /\ forall b, result m = Ok b ->
     count is_inference (trace m) = 1%nat
     /\ count is_free_error (trace m) = 0%nat.

(** Neither an inference call nor the release of an error object. *)
Definition is_call_or_free (e : Event) : bool :=
  is_inference e || is_free_error e.

(** The [seed] argument of an invocation. *)
Definition invocation_seed (i : Invocation) : option Z :=
  match i with
  | CallSample a => sa_seed a
  | CallPathfinder a => pa_seed a
  | CallOptimize a => oa_seed a
  | CallLaplace a => la_seed a
  end.

(** The draw from the random generator. *)
Definition is_rand (e : Event) : bool := negb (is_native e).

Definition demo_optimize_args (seed : option Z) : OptimizeArgs :=
  mkOptimizeArgs (DataStr "") None seed LBFGS
    (mkOptimizeTuning 1 2%float 2000 false 5 0.125%float 0.25%float 1e4%float
       0.5%float 1e7%float 0.5%float 0 (-1)).

(** * Strings: splitting and joining *)

Section SplitJoin.

Variable c : ascii.

Let sepstr : string := String c EmptyString.

Lemma split_not_nil (s : string) : split c s <> [].
Proof.
  induction s as [|x r IH]; simpl; [discriminate|].
  destruct (Ascii.eqb x c); [discriminate|].
  destruct (split c r); discriminate.
Qed.

Lemma join_cons2 (sep x y : string) (l : list string) :
  join sep (x :: y :: l) = (x ++ sep ++ join sep (y :: l))%string.
Proof. reflexivity. Qed.

Lemma join_cons_nonnil (sep x : string) (l : list string) :
  l <> [] -> join sep (x :: l) = (x ++ sep ++ join sep l)%string.
Proof. destruct l; [congruence | reflexivity]. Qed.

(** Joining what [split] returned gives the string back. *)
Lemma join_split (s : string) : join sepstr (split c s) = s.
Proof.
  induction s as [|x r IH]; [reflexivity|].
  simpl split. destruct (Ascii.eqb x c) eqn:E.
  - apply Ascii.eqb_eq in E. subst x.
    rewrite join_cons_nonnil by apply split_not_nil.
    rewrite IH. reflexivity.
  - destruct (split c r) as [|h t] eqn:S; [now apply split_not_nil in S|].
    destruct t as [|h' t'].
    + simpl in *. now rewrite IH.
    + rewrite <- IH, !join_cons2. reflexivity.
Qed.

Lemma split_pieces_clean (s : string) :
  Forall (fun n => contains c n = false) (split c s).
Proof.
  induction s as [|x r IH]; simpl.
  - repeat constructor.
  - destruct (Ascii.eqb x c) eqn:E.
    + constructor; [reflexivity | exact IH].
    + destruct (split c r) as [|h t]; [now repeat constructor; simpl; rewrite E|].
      inversion IH; subst. constructor; [simpl; now rewrite E | assumption].
Qed.

Lemma split_clean (s : string) : contains c s = false -> split c s = [s].
Proof.
  induction s as [|x r IH]; simpl; [reflexivity|].
  intros H. apply orb_false_iff in H as [E H]. rewrite E, (IH H). reflexivity.
Qed.

Lemma split_app_sep (x r : string) :
  contains c x = false ->
  split c (x ++ String c r) = x :: split c r.
Proof.
  induction x as [|y x IH]; simpl; intros H.
  - now rewrite Ascii.eqb_refl.
  - apply orb_false_iff in H as [E H]. rewrite E, (IH H). reflexivity.
Qed.

(** Splitting a join of at least one delimiter-free piece gives the pieces
    back. *)
Lemma split_join (l : list string) :
  l <> [] ->
  Forall (fun n => contains c n = false) l ->
  split c (join sepstr l) = l.
Proof.
  induction l as [|x l IH]; [congruence|]. intros _ H.
  inversion H as [|? ? Hx Hl]; subst.
  destruct l as [|y l].
  - simpl. now apply split_clean.
  - rewrite join_cons2.
    change (split c (x ++ String c (join sepstr (y :: l))) = x :: y :: l).
    rewrite split_app_sep by assumption.
    f_equal. apply IH; [discriminate | assumption].
Qed.

Lemma split_singleton_empty (s : string) :
  split c s = [EmptyString] -> s = EmptyString.
Proof.
  intros H. rewrite <- (join_split s), H. reflexivity.
Qed.

End SplitJoin.

Lemma strip_empty : strip "" = "".
Proof. reflexivity. Qed.


(** * The error bridge *)

(** Byte strings of code points below 128 decode. *)
Lemma utf8_valid_demo : utf8_valid "bad data" = true.
Proof. reflexivity. Qed.

(** With a message that decodes, the three native calls are made in order
    and the exception class is looked up in the table. *)
Lemma raise_for_error_decoded (env : Env) (rc : rc_value) (err : Z) :
  rc_nonzero rc = true -> err <> NULL ->
  utf8_valid (tinystan_get_error_message env err) = true ->
  _raise_for_error env rc err
  = ([EvGetErrorMsg err; EvGetErrorType err; EvFreeError err],
     Raise (match py_index _exception_types
                    (tinystan_get_error_type env err) with
            | Some exn => mkExn exn (tinystan_get_error_message env err)
            | None => mkExn IndexError "list index out of range"
            end)).
Proof.
  intros Hrc Hne Hv. unfold _raise_for_error, decode_utf8.
  destruct (err =? NULL) eqn:E; [apply Z.eqb_eq in E; congruence|].
  rewrite Hrc, Hv. simpl. destruct (py_index _ _); reflexivity.
Qed.

(** With a message that does not decode, the exception of the decoder
    leaves the function after the first native call. *)
Lemma raise_for_error_undecoded (env : Env) (rc : rc_value) (err : Z) :
  rc_nonzero rc = true -> err <> NULL ->
  utf8_valid (tinystan_get_error_message env err) = false ->
  _raise_for_error env rc err
  = ([EvGetErrorMsg err],
     Raise (mkExn UnicodeDecodeError "'utf-8' codec can't decode bytes")).
Proof.
  intros Hrc Hne Hv. unfold _raise_for_error, decode_utf8.
  destruct (err =? NULL) eqn:E; [apply Z.eqb_eq in E; congruence|].
  rewrite Hrc, Hv. reflexivity.
Qed.

(** What holds of the bridge when the native message decodes: a zero return
    code is a no-op; a non-zero code with an error object reads message and
    category, frees the object exactly once and raises the exception class
    of the category with that message; a non-zero code with a null error
    object raises the unknown-error exception carrying the code.  The three
    categories map to three distinct classes. *)
Lemma raise_for_error_taxonomy (env : Env) (rc : rc_value) (err : Z) :
  let m := _raise_for_error env rc err in
  (rc_nonzero rc = false -> m = ([], Ok tt))
  /\ (rc_nonzero rc = true -> err <> NULL ->
      utf8_valid (tinystan_get_error_message env err) = true ->
      trace m = [EvGetErrorMsg err; EvGetErrorType err; EvFreeError err]
      /\ count is_free_error (trace m) = 1%nat
      /\ forall cat,
           tinystan_get_error_type env err = category_code cat ->
           result m
           = Raise (mkExn (category_exception cat)
                      (tinystan_get_error_message env err)))
  /\ (rc_nonzero rc = true -> err = NULL ->
      m = ([], Raise (mkExn RuntimeError
                        ("Unknown error, function returned code "
                         ++ rc_str rc)%string)))
  /\ (forall c1 c2, category_code c1 = category_code c2 -> c1 = c2)
  /\ (forall c1 c2, category_exception c1 = category_exception c2 -> c1 = c2).
Proof.
  intros m. subst m.
  split; [|split; [|split; [|split]]].
  - unfold _raise_for_error. intros ->. reflexivity.
  - intros H Hne Hv. rewrite (raise_for_error_decoded env rc err H Hne Hv).
    split; [reflexivity|]. split; [reflexivity|].
    intros cat Hc. rewrite Hc. destruct cat; reflexivity.
  - unfold _raise_for_error. intros -> ->. reflexivity.
  - intros [] []; simpl; intros; congruence.
  - intros [] []; simpl; intros; congruence.
Qed.

Lemma raise_for_error_taxonomy_witness :
  let env := demo_env "a,b" 2 NULL in
  rc_nonzero (RcBool true) = true /\ 77 <> NULL
  /\ result (_raise_for_error env (RcBool true) 77)
     = Raise (mkExn ValueError "bad data")
  /\ _raise_for_error env (RcInt 0) 77 = ([], Ok tt)
  /\ _raise_for_error env (RcInt 3) NULL
     = ([], Raise (mkExn RuntimeError
                     "Unknown error, function returned code 3")).
Proof.
  intros env.
  destruct (raise_for_error_taxonomy env (RcBool true) 77)
    as (_ & Hobj & _).
  destruct (raise_for_error_taxonomy env (RcInt 0) 77) as (Hzero & _).
  destruct (raise_for_error_taxonomy env (RcInt 3) NULL)
    as (_ & _ & Hnull & _).
  split; [reflexivity|]. split; [discriminate|].
  split; [|split].
  - apply (proj2 (proj2 (Hobj eq_refl ltac:(discriminate) eq_refl))
             InvalidArgument).
    reflexivity.
  - apply Hzero. reflexivity.
  - apply Hnull; reflexivity.
Defined.

(** C3, at the failing input: the message is decoded before the category is
    read and the error object freed, so a non-zero return code whose error
    object carries a message that is not UTF-8 ends in [UnicodeDecodeError]
    after the single call that fetched the message: the category is never
    read, the error object is never freed, and the exception is not the one
    of the reported category.  An instance: return code 1, an error object
    whose message is the single byte 255 and whose category is
    invalid-argument. *)
Theorem raise_for_error_leaks_undecodable :
  (forall env rc err,
      rc_nonzero rc = true -> err <> NULL ->
      utf8_valid (tinystan_get_error_message env err) = false ->
      trace (_raise_for_error env rc err) = [EvGetErrorMsg err]
      /\ count is_free_error (trace (_raise_for_error env rc err)) = 0%nat
      /\ (exists text,
            result (_raise_for_error env rc err)
            = Raise (mkExn UnicodeDecodeError text))
      /\ forall cat,
           result (_raise_for_error env rc err)
           <> Raise (mkExn (category_exception cat)
                       (tinystan_get_error_message env err)))
  /\ (let env := undecodable_env in
      rc_nonzero (RcInt 1) = true
      /\ 9 <> NULL
      /\ tinystan_get_error_type env 9 = category_code InvalidArgument
      /\ trace (_raise_for_error env (RcInt 1) 9) = [EvGetErrorMsg 9]
      /\ count is_free_error (trace (_raise_for_error env (RcInt 1) 9))
         = 0%nat
      /\ exn_type
           match result (_raise_for_error env (RcInt 1) 9) with
           | Raise e => e
           | Ok _ => mkExn OtherError ""
           end = UnicodeDecodeError).
Proof.
  split.
  - intros env rc err Hrc Hne Hv.
    rewrite (raise_for_error_undecoded env rc err Hrc Hne Hv).
    split; [reflexivity|]. split; [reflexivity|].
    split; [eexists; reflexivity|].
    intros cat H. cbn [result snd] in H. destruct cat; discriminate.
  - repeat split. discriminate.
Qed.

Lemma raise_for_error_leaks_undecodable_witness :
  rc_nonzero (RcBool true) = true /\ 9 <> NULL
  /\ utf8_valid (tinystan_get_error_message undecodable_env 9) = false
  /\ count is_free_error
       (trace (_raise_for_error undecodable_env (RcBool true) 9)) = 0%nat.
Proof.
  split; [reflexivity|]. split; [discriminate|]. split; [reflexivity|].
  destruct raise_for_error_leaks_undecodable as [H _].
  destruct (H undecodable_env (RcBool true) 9 eq_refl ltac:(discriminate)
              eq_refl) as (_ & Hc & _).
  exact Hc.
Defined.

(** A category code outside the enumeration: the error object is still
    freed, then indexing the table of exception classes fails. *)
Remark raise_for_error_unlisted_code (env : Env) (rc : rc_value) (err : Z) :
  rc_nonzero rc = true -> err <> NULL ->
  utf8_valid (tinystan_get_error_message env err) = true ->
  py_index _exception_types (tinystan_get_error_type env err) = None ->
  _raise_for_error env rc err
  = ([EvGetErrorMsg err; EvGetErrorType err; EvFreeError err],
     Raise (mkExn IndexError "list index out of range")).
Proof.
  intros H E V I. rewrite (raise_for_error_decoded env rc err H E V), I.
  reflexivity.
Qed.

(** Whatever the inputs, the bridge never touches a model session. *)
Lemma raise_for_error_cases (env : Env) (rc : rc_value) (err : Z) :
  _raise_for_error env rc err = ([], Ok tt)
  \/ (exists e, _raise_for_error env rc err = ([], Raise e))
  \/ (exists e, _raise_for_error env rc err = ([EvGetErrorMsg err], Raise e))
  \/ (exists e, _raise_for_error env rc err
               = ([EvGetErrorMsg err; EvGetErrorType err; EvFreeError err],
                  Raise e)).
Proof.
  destruct (rc_nonzero rc) eqn:Hrc;
    [|left; unfold _raise_for_error; now rewrite Hrc].
  destruct (Z.eq_dec err NULL) as [->|Hne].
  - right; left. unfold _raise_for_error. rewrite Hrc. eexists. reflexivity.
  - destruct (utf8_valid (tinystan_get_error_message env err)) eqn:Hv.
    + right; right; right. eexists.
      apply (raise_for_error_decoded env rc err Hrc Hne Hv).
    + right; right; left. eexists.
      apply (raise_for_error_undecoded env rc err Hrc Hne Hv).
Qed.

Lemma raise_for_error_events (env : Env) (rc : rc_value) (err : Z)
    (e : Event) :
  In e (trace (_raise_for_error env rc err)) -> is_inference e = false.
Proof.
  destruct (raise_for_error_cases env rc err) as [H|[[x H]|[[x H]|[x H]]]];
    rewrite H; simpl; intros Hin;
    repeat (destruct Hin as [<-|Hin]; [reflexivity|]); contradiction.
Qed.

Lemma raise_for_error_true (env : Env) (err : Z) :
  exists t e, _raise_for_error env (RcBool true) err = (t, Raise e).
Proof.
  destruct (raise_for_error_cases env (RcBool true) err)
    as [H|[[x H]|[[x H]|[x H]]]]; [|eauto..].
  unfold _raise_for_error in H. simpl in H.
  destruct (err =? NULL); simpl in H; [discriminate|].
  unfold decode_utf8 in H.
  destruct (utf8_valid _); simpl in H; [|discriminate].
  destruct (py_index _ _); discriminate.
Qed.

(** * Parameter names *)

(** C8 (amended): the names are read off the string the library returned
    after its surrounding whitespace is stripped: none when nothing is left
    (so in particular for the empty string, and never the one-element list
    holding an empty name), otherwise the pieces between the commas, in
    their order. *)
Theorem get_parameter_names_stripped (env : Env) (model : Z) :
  let raw := tinystan_model_param_names env model in
  exists names,
    _get_parameter_names env model = ([EvParamNames model], Ok names)
    /\ (strip raw = "" <-> names = [])
    /\ (raw = "" -> names = [])
    /\ names <> [""]
    /\ (strip raw <> "" ->
        names = split "," (strip raw)
        /\ join "," names = strip raw
        /\ Forall (fun n => contains "," n = false) names).
Proof.
  intros raw. unfold _get_parameter_names. fold raw.
  destruct (String.eqb (strip raw) "") eqn:E.
  - apply String.eqb_eq in E. exists []. simpl.
    repeat split; try congruence; try discriminate.
  - apply String.eqb_neq in E. exists (split "," (strip raw)). simpl.
    split; [reflexivity|]. split; [|split; [|split]].
    + split; [congruence|]. intros H. now apply split_not_nil in H.
    + intros H. rewrite H in E. now rewrite strip_empty in E.
    + intros H. now apply split_singleton_empty in H.
    + intros _. split; [reflexivity|]. split.
      * apply join_split.
      * apply split_pieces_clean.
Qed.

(** C8, as worded: a string holding only a blank is not empty, yet it
    resolves to no names rather than to its comma-split. *)
Lemma names_blank_string_counterexample :
  ~ names_as_specified (demo_env " " 1 5) 5.
Proof.
  unfold names_as_specified. vm_compute. discriminate.
Qed.

Lemma get_parameter_names_total (env : Env) (model : Z) :
  exists names,
    _get_parameter_names env model = ([EvParamNames model], Ok names).
Proof.
  unfold _get_parameter_names.
  destruct (String.eqb _ _); eexists; reflexivity.
Qed.

(** * Initial values *)

Lemma encode_stan_json_trace (env : Env) (d : StanData) :
  trace (encode_stan_json env d) = [].
Proof.
  destruct d; simpl; try reflexivity.
  destruct (validate_readable env p); reflexivity.
Qed.

Lemma mapM_encode_trace (env : Env) (l : list StanData) :
  trace (mapM (encode_stan_json env) l) = [].
Proof.
  induction l as [|d l IH]; [reflexivity|].
  simpl. pose proof (encode_stan_json_trace env d) as Hd.
  destruct (encode_stan_json env d) as [t [s|e]]; simpl in *; subst;
    [|reflexivity].
  destruct (mapM (encode_stan_json env) l) as [t' [ss|e]]; simpl in *; subst;
    reflexivity.
Qed.

Lemma mapM_encode_all (env : Env) (l : list StanData) (segs : list string) :
  Forall2 (fun d s => encode_stan_json env d = ret s) l segs ->
  mapM (encode_stan_json env) l = ret segs.
Proof.
  induction 1 as [|d s l segs Hd _ IH]; [reflexivity|].
  simpl. rewrite Hd, IH. reflexivity.
Qed.

Lemma encode_inits_trace (env : Env) (inits : option Inits) (chains seed : Z) :
  trace (_encode_inits env inits chains seed) = [].
Proof.
  unfold _encode_inits. destruct inits as [i|]; [|reflexivity].
  destruct (match i with
            | InitsPlain p => p
            | InitsOutput o => create_inits env o chains seed
            end) as [d|l].
  - pose proof (encode_stan_json_trace env d) as Hd.
    destruct (encode_stan_json env d) as [t [s|e]]; simpl in *; subst;
      reflexivity.
  - pose proof (mapM_encode_trace env l) as Hl.
    destruct (mapM (encode_stan_json env) l) as [t [s|e]]; simpl in *; subst;
      reflexivity.
Qed.

(** C7 (amended): a sequence of [k] initial values, each of which
    serializes, is encoded as the [k] serialized segments joined by the
    library's delimiter, whatever the chain count; splitting the payload on
    the delimiter gives the [k] segments back when [k >= 1] and no segment
    contains the delimiter; a null [inits] encodes to null. *)
Theorem encode_inits_sequence (env : Env) (l : list StanData)
    (segs : list string) (chains seed : Z) :
  Forall2 (fun d s => encode_stan_json env d = ret s) l segs ->
  _encode_inits env (Some (InitsPlain (InitsList l))) chains seed
  = ret (Some (join (String (sep env) "") segs))
  /\ len segs = len l
  /\ (l <> [] ->
      Forall (fun s => contains (sep env) s = false) segs ->
      split (sep env) (join (String (sep env) "") segs) = segs)
  /\ _encode_inits env None chains seed = ret None.
Proof.
  intros H. split; [|split; [|split]].
  - simpl. rewrite (mapM_encode_all _ _ _ H). reflexivity.
  - unfold len. f_equal. symmetry. eapply Forall2_length; eassumption.
  - intros Hl Hs. apply split_join; [|assumption].
    intros ->. inversion H; subst. congruence.
  - reflexivity.
Qed.

Lemma encode_inits_sequence_witness :
  let env := demo_env "a,b" 2 5 in
  let l := [DataStr "{}"; DataDict []; DataPath "init.json"] in
  let segs := ["{}"; "{}"; "init.json"] in
  _encode_inits env (Some (InitsPlain (InitsList l))) 4 1
  = ret (Some (join (String (sep env) "") segs))
  /\ split (sep env) (join (String (sep env) "") segs) = segs.
Proof.
  intros env l segs.
  assert (H : Forall2 (fun d s => encode_stan_json env d = ret s) l segs)
    by (repeat constructor).
  destruct (encode_inits_sequence env l segs 4 1 H) as (He & _ & Hs & _).
  split; [exact He|].
  apply Hs; [discriminate | repeat constructor].
Defined.

(** C7, as worded: the empty sequence joins to the empty payload, which
    splits into one (empty) segment, not zero; and a segment that contains
    the delimiter splits in two. *)
Lemma resplit_counterexample :
  ~ resplit_recovers (demo_env "a,b" 2 5) []
  /\ ~ resplit_recovers (demo_env "a,b" 2 5)
        [DataStr (String "a" (String "028" "b"))].
Proof.
  split; intros H.
  - specialize (H 4 1 "" eq_refl). vm_compute in H. discriminate.
  - specialize (H 4 1 (String "a" (String "028" "b")) eq_refl).
    vm_compute in H. discriminate.
Qed.

(** * Seeds *)

Lemma rand_u32_range (env : Env) :
  exists r, rand_u32 env = ([EvRandU32], Ok r) /\ 0 <= r < 2 ^ 32 - 1.
Proof.
  eexists. split; [reflexivity|]. apply Z.mod_pos_bound. reflexivity.
Qed.

(** A supplied seed other than zero is used as it is, without a draw; no
    seed means one draw. *)
Lemma seed_or_rand_u32_supplied (env : Env) (s : Z) :
  s <> 0 -> seed_or_rand_u32 env (Some s) = ([], Ok s).
Proof.
  intros H. simpl. apply Z.eqb_neq in H. rewrite H. reflexivity.
Qed.

Lemma seed_or_rand_u32_absent (env : Env) :
  seed_or_rand_u32 env None = rand_u32 env.
Proof. reflexivity. Qed.

Lemma seed_or_rand_u32_total (env : Env) (seed : option Z) :
  exists t s, seed_or_rand_u32 env seed = (t, Ok s)
              /\ Forall (fun e => is_native e = false) t.
Proof.
  destruct seed as [s|]; simpl.
  - destruct (s =? 0); do 2 eexists; (split; [reflexivity|]);
      repeat constructor.
  - do 2 eexists; (split; [reflexivity|]); repeat constructor.
Qed.

Lemma filter_native_seed (env : Env) (seed_arg : option Z)
    (t0 : list Event) (seed : Z) :
  seed_or_rand_u32 env seed_arg = (t0, Ok seed) -> filter is_native t0 = [].
Proof.
  intros Hs.
  destruct (seed_or_rand_u32_total env seed_arg) as (t & s & Hs' & Hq).
  rewrite Hs in Hs'. injection Hs' as <- <-. clear Hs.
  induction Hq as [|e l He _ IH]; simpl; [reflexivity|]. now rewrite He.
Qed.

(** C9, at the failing input: a caller who supplies the seed 0 gets a
    random draw instead, and the drawn value is what the native constructor
    and the native sampler receive. *)
Theorem seed_zero_is_redrawn :
  (forall env, seed_or_rand_u32 env (Some 0) = rand_u32 env)
  /\ (let m := sample (demo_env "a,b" 2 5)
                 (demo_sample_args 1 0 1 (Some 0) DIAGONAL None) in
      hd_error (trace m) = Some EvRandU32
      /\ In (EvCreateModel "" 12345) (trace m)
      /\ ~ In (EvCreateModel "" 0) (trace m)
      /\ map sc_seed
           (flat_map (fun e => match e with EvSample c => [c] | _ => [] end)
              (trace m)) = [12345]).
Proof.
  split; [reflexivity|].
  vm_compute. repeat split; auto.
  intros H. repeat (destruct H as [H|H]; [discriminate|]). exact H.
Qed.

(** * Size checks of [sample] *)

(** C6: with fewer than one chain, [sample] raises the invalid-argument
    error at once: the trace is empty, so no seed was drawn, no session
    acquired and no native function called. *)
Theorem sample_rejects_chains (env : Env) (a : SampleArgs) :
  sa_num_chains a < 1 ->
  sample env a = ([], Raise (mkExn ValueError "num_chains must be at least 1"))
  /\ fails_before_any_native_call (sample env a)
  /\ count is_create (trace (sample env a)) = 0%nat.
Proof.
  intros H. apply Z.ltb_lt in H.
  assert (E : sample env a
              = ([], Raise (mkExn ValueError "num_chains must be at least 1")))
    by (unfold sample; rewrite H; reflexivity).
  rewrite E. split; [reflexivity|]. split; [|reflexivity].
  split; [eexists; reflexivity | reflexivity].
Qed.

Lemma sample_rejects_chains_witness :
  sample (demo_env "a,b" 2 5) (demo_sample_args 0 100 100 None DIAGONAL None)
  = ([], Raise (mkExn ValueError "num_chains must be at least 1")).
Proof.
  apply (sample_rejects_chains (demo_env "a,b" 2 5)
           (demo_sample_args 0 100 100 None DIAGONAL None)).
  simpl. lia.
Defined.

(** * Traces of monadic code *)

Section Traces.

Context {A B : Type}.

Lemma bind_ok (m : M A) (f : A -> M B) (t : list Event) (a : A) :
  m = (t, Ok a) -> bind m f = (t ++ trace (f a), result (f a)).
Proof. intros ->. simpl. now destruct (f a). Qed.

Lemma bind_raise (m : M A) (f : A -> M B) (t : list Event) (e : PyExn) :
  m = (t, Raise e) -> bind m f = (t, Raise e).
Proof. now intros ->. Qed.

Lemma bind_ok_inv (m : M A) (f : A -> M B) (t : list Event) (b : B) :
  bind m f = (t, Ok b) ->
  exists t1 a t2, m = (t1, Ok a) /\ f a = (t2, Ok b) /\ t = t1 ++ t2.
Proof.
  destruct m as [t1 [a|e]]; simpl; [|discriminate].
  destruct (f a) as [t2 r] eqn:E. intros [= <- ->]. eauto 6.
Qed.

Lemma trace_bind (m : M A) (f : A -> M B) :
  trace (bind m f)
  = trace m ++ match result m with Ok a => trace (f a) | Raise _ => [] end.
Proof.
  destruct m as [t [a|e]]; simpl; [now destruct (f a)|].
  now rewrite app_nil_r.
Qed.

Lemma trace_bind_silent (m : M A) (f : A -> M B) :
  (forall a, trace (f a) = []) -> trace (bind m f) = trace m.
Proof.
  intros H. rewrite trace_bind. destruct (result m); [rewrite H|];
    apply app_nil_r.
Qed.

Lemma in_trace_bind (m : M A) (f : A -> M B) (e : Event) :
  In e (trace (bind m f)) ->
  In e (trace m) \/ exists t a, m = (t, Ok a) /\ In e (trace (f a)).
Proof.
  rewrite trace_bind. intros H. apply in_app_or in H as [H|H]; [now left|].
  destruct m as [t [a|x]]; simpl in *; [right; eauto | contradiction].
Qed.

Lemma session_free_bind (m : M A) (f : A -> M B) :
  session_free (trace m) ->
  (forall a, session_free (trace (f a))) ->
  session_free (trace (bind m f)).
Proof.
  intros Hm Hf. rewrite trace_bind. apply Forall_app. split; [assumption|].
  destruct (result m); [apply Hf | constructor].
Qed.

End Traces.

Lemma session_free_nil : session_free [].
Proof. constructor. Qed.

Lemma session_free_emit (e : Event) :
  is_create e = false -> is_destroy e = false -> session_free (trace (emit e)).
Proof. intros. repeat constructor; assumption. Qed.

Lemma session_free_silent {A} (m : M A) :
  trace m = [] -> session_free (trace m).
Proof. intros ->. constructor. Qed.

Lemma session_free_raise_for_error (env : Env) (rc : rc_value) (err : Z) :
  session_free (trace (_raise_for_error env rc err)).
Proof.
  destruct (raise_for_error_cases env rc err) as [H|[[e H]|[[e H]|[e H]]]];
    rewrite H; repeat constructor.
Qed.

Lemma check_init_inv_metric_trace (m : option ndarray) (n : Z) (ms : list Z) :
  trace (check_init_inv_metric m n ms) = [].
Proof.
  unfold check_init_inv_metric. destruct m as [m|]; [|reflexivity].
  destruct (shape_eqb _ _); [reflexivity|].
  destruct (shape_eqb _ _); reflexivity.
Qed.

Lemma preprocess_laplace_inputs_trace (env : Env) (mode : Mode) :
  trace (preprocess_laplace_inputs env mode) = [].
Proof.
  unfold preprocess_laplace_inputs. destruct mode as [o|m|d]; simpl.
  - destruct (len (shape (out_data o)) =? 1); reflexivity.
  - reflexivity.
  - pose proof (encode_stan_json_trace env d) as H.
    destruct (encode_stan_json env d) as [t [x|e]]; simpl in *; subst;
      reflexivity.
Qed.

(** Peels one layer of a session-free computation. *)
Ltac session_free_step :=
  first
    [ apply session_free_bind; [|intros]
    | apply session_free_raise_for_error
    | apply session_free_silent; apply encode_inits_trace
    | apply session_free_silent; apply check_init_inv_metric_trace
    | apply session_free_silent; apply encode_stan_json_trace
    | apply session_free_emit; reflexivity
    | apply session_free_nil
    | match goal with
      | |- session_free (trace (if ?b then _ else _)) => destruct b
      | |- session_free (trace (match ?x with _ => _ end)) => destruct x
      end
    | progress cbv zeta ].

Ltac session_free_tac := repeat session_free_step.

Lemma session_free_get_parameter_names (env : Env) (model : Z) :
  session_free (trace (_get_parameter_names env model)).
Proof. unfold _get_parameter_names. session_free_tac. Qed.

Lemma session_free_num_free_params (env : Env) (model : Z) :
  session_free (trace (_num_free_params env model)).
Proof. unfold _num_free_params. session_free_tac. Qed.

Lemma session_free_sample_body (env : Env) (a : SampleArgs) (seed model : Z) :
  session_free (trace (sample_body env a seed model)).
Proof.
  unfold sample_body.
  repeat first [ apply session_free_get_parameter_names
               | apply session_free_num_free_params
               | session_free_step ].
Qed.

Lemma session_free_pathfinder_body (env : Env) (a : PathfinderArgs)
    (n seed model : Z) :
  session_free (trace (pathfinder_body env a n seed model)).
Proof.
  unfold pathfinder_body.
  repeat first [ apply session_free_get_parameter_names
               | apply session_free_num_free_params
               | session_free_step ].
Qed.

Lemma session_free_optimize_body (env : Env) (a : OptimizeArgs)
    (seed model : Z) :
  session_free (trace (optimize_body env a seed model)).
Proof.
  unfold optimize_body.
  repeat first [ apply session_free_get_parameter_names
               | apply session_free_num_free_params
               | session_free_step ].
Qed.

Lemma session_free_laplace_body (env : Env) (a : LaplaceArgs)
    (ma : option ndarray) (mj : option string) (seed model : Z) :
  session_free (trace (laplace_body env a ma mj seed model)).
Proof.
  unfold laplace_body.
  repeat first [ apply session_free_get_parameter_names
               | apply session_free_num_free_params
               | session_free_step ].
Qed.

(** * The session bracket *)

Lemma get_model_cases (env : Env) {A} (data : StanData) (seed : Z)
    (body : Z -> M A) :
  (exists e,
      encode_stan_json env data = ([], Raise e)
      /\ _get_model env data seed body = ([], Raise e))
  \/ (exists payload err t e,
         encode_stan_json env data = ret payload
         /\ tinystan_create_model env payload seed = (NULL, err)
         /\ _raise_for_error env (RcBool true) err = (t, Raise e)
         /\ _get_model env data seed body
            = (EvCreateModel payload seed :: t, Raise e))
  \/ (exists payload model err,
         encode_stan_json env data = ret payload
         /\ tinystan_create_model env payload seed = (model, err)
         /\ model <> NULL
         /\ _get_model env data seed body
            = (EvCreateModel payload seed
                 :: trace (body model) ++ [EvDestroyModel model],
               result (body model))).
Proof.
  unfold _get_model.
  pose proof (encode_stan_json_trace env data) as Ht.
  destruct (encode_stan_json env data) as [t0 [payload|e]]; simpl in Ht; subst.
  - destruct (tinystan_create_model env payload seed) as [model err] eqn:Ec.
    destruct (model =? NULL) eqn:En.
    + apply Z.eqb_eq in En. subst model.
      destruct (raise_for_error_true env err) as (t & e & Hr).
      right; left. exists payload, err, t, e.
      repeat split; try reflexivity; try assumption.
      simpl. rewrite Ec. simpl. rewrite Hr. reflexivity.
    + apply Z.eqb_neq in En.
      right; right. exists payload, model, err.
      repeat split; try reflexivity; try assumption.
      simpl. rewrite Ec. apply Z.eqb_neq in En. rewrite En. simpl.
      destruct (body model) as [tb rb]. reflexivity.
  - left. exists e. split; reflexivity.
Qed.

Lemma get_model_held (env : Env) {A} (data : StanData) (seed : Z)
    (body : Z -> M A) (payload : string) (model err : Z) :
  encode_stan_json env data = ret payload ->
  tinystan_create_model env payload seed = (model, err) ->
  model <> NULL ->
  _get_model env data seed body
  = (EvCreateModel payload seed :: trace (body model) ++ [EvDestroyModel model],
     result (body model)).
Proof.
  intros He Hc Hn.
  destruct (get_model_cases env data seed body)
    as [(e & He' & _)|[(p & er & t & e & He' & Hc' & _)|
                       (p & m & er & He' & Hc' & _ & H)]].
  - rewrite He in He'. discriminate.
  - rewrite He in He'. injection He' as <-. rewrite Hc in Hc'. congruence.
  - rewrite He in He'. injection He' as <-. rewrite Hc in Hc'.
    injection Hc' as <- <-. exact H.
Qed.

Lemma get_model_bracket (env : Env) {A} (data : StanData) (seed : Z)
    (body : Z -> M A) :
  (forall model, session_free (trace (body model))) ->
  Bracket env (trace (_get_model env data seed body)).
Proof.
  intros Hb.
  destruct (get_model_cases env data seed body)
    as [(e & _ & H)|[(p & er & t & e & _ & Hc & Hr & H)|
                     (p & m & er & _ & Hc & Hn & H)]]; rewrite H; simpl.
  - apply Bracket_none, session_free_nil.
  - apply (Bracket_failed env [] p seed t).
    + apply session_free_nil.
    + change t with (trace (t, @Raise unit e)). rewrite <- Hr.
      apply session_free_raise_for_error.
    + now rewrite Hc.
  - replace m with (fst (tinystan_create_model env p seed)) at 2
      by now rewrite Hc.
    apply (Bracket_held env [] p seed (trace (body m)));
      [apply session_free_nil | apply Hb | now rewrite Hc].
Qed.

Lemma Bracket_prepend (env : Env) (pre tr : list Event) :
  session_free pre -> Bracket env tr -> Bracket env (pre ++ tr).
Proof.
  intros Hp [q Hq|q p s post Hq Hpost Hn|q p s mid Hq Hmid Hn].
  - apply Bracket_none, Forall_app; now split.
  - rewrite app_assoc. apply Bracket_failed; try assumption.
    apply Forall_app; now split.
  - rewrite app_assoc. apply Bracket_held; try assumption.
    apply Forall_app; now split.
Qed.

(** A method that draws a seed, runs a session and then only packs the
    result. *)
Lemma Bracket_invoker (env : Env) {A B} (seed : option Z) (data : StanData)
    (body : Z -> Z -> M A) (pack : A -> M B) :
  (forall s model, session_free (trace (body s model))) ->
  (forall r, trace (pack r) = []) ->
  Bracket env
    (trace (s <- seed_or_rand_u32 env seed ;;
            r <- _get_model env data s (body s) ;;
            pack r)).
Proof.
  intros Hb Hp.
  destruct (seed_or_rand_u32_total env seed) as (t & s & Hs & Hq).
  rewrite (bind_ok _ _ _ _ Hs). simpl fst.
  apply Bracket_prepend.
  - eapply Forall_impl; [|exact Hq]. now intros [].
  - rewrite trace_bind_silent by exact Hp.
    apply get_model_bracket, Hb.
Qed.

Lemma sample_bracket (env : Env) (a : SampleArgs) :
  Bracket env (trace (sample env a)).
Proof.
  unfold sample.
  destruct (_ <? _); [apply Bracket_none, session_free_nil|].
  destruct (_ <? _); [apply Bracket_none, session_free_nil|].
  destruct (_ <? _); [apply Bracket_none, session_free_nil|].
  apply (Bracket_invoker env (sa_seed a) (sa_data a) (sample_body env a)).
  - apply session_free_sample_body.
  - now intros [[names out] metric_out].
Qed.

Lemma pathfinder_bracket (env : Env) (a : PathfinderArgs) :
  Bracket env (trace (pathfinder env a)).
Proof.
  unfold pathfinder.
  destruct (_ <? _); [apply Bracket_none, session_free_nil|].
  destruct (_ <? _); [apply Bracket_none, session_free_nil|].
  destruct (_ <? _); [apply Bracket_none, session_free_nil|].
  apply (Bracket_invoker env (pa_seed a) (pa_data a)
           (pathfinder_body env a _)).
  - apply session_free_pathfinder_body.
  - reflexivity.
Qed.

Lemma optimize_bracket (env : Env) (a : OptimizeArgs) :
  Bracket env (trace (optimize env a)).
Proof.
  unfold optimize.
  apply (Bracket_invoker env (oa_seed a) (oa_data a) (optimize_body env a)).
  - apply session_free_optimize_body.
  - reflexivity.
Qed.

Lemma laplace_bracket (env : Env) (a : LaplaceArgs) :
  Bracket env (trace (laplace_sample env a)).
Proof.
  unfold laplace_sample.
  destruct (_ <? _); [apply Bracket_none, session_free_nil|].
  destruct (seed_or_rand_u32_total env (la_seed a)) as (t & s & Hs & Hq).
  rewrite (bind_ok _ _ _ _ Hs). simpl fst.
  apply Bracket_prepend; [eapply Forall_impl; [|exact Hq]; now intros []|].
  pose proof (preprocess_laplace_inputs_trace env (la_mode a)) as Hp.
  destruct (preprocess_laplace_inputs env (la_mode a)) as [tp [[ma mj]|e]];
    simpl in Hp; subst tp; [|apply Bracket_none, session_free_nil].
  rewrite trace_bind. cbn [trace result fst snd app].
  rewrite trace_bind_silent by now intros [[names out] hessian_out].
  apply get_model_bracket. intros model. apply session_free_laplace_body.
Qed.

Lemma invocation_bracket (env : Env) (i : Invocation) :
  Bracket env (invocation_trace env i).
Proof.
  destruct i; simpl.
  - apply sample_bracket.
  - apply pathfinder_bracket.
  - apply optimize_bracket.
  - apply laplace_bracket.
Qed.


Section Positions.

Variable p : Event -> bool.

Lemma count_app (l1 l2 : list Event) :
  count p (l1 ++ l2) = (count p l1 + count p l2)%nat.
Proof. unfold count. now rewrite filter_app, length_app. Qed.

Lemma count_cons (e : Event) (l : list Event) :
  count p (e :: l) = ((if p e then 1 else 0) + count p l)%nat.
Proof. unfold count. simpl. now destruct (p e). Qed.

Lemma count_none (l : list Event) :
  Forall (fun e => p e = false) l -> count p l = 0%nat.
Proof.
  unfold count. induction 1 as [|e l He _ IH]; simpl; [reflexivity|].
  now rewrite He.
Qed.

(** An event of a kind that occurs once in a trace sits at one place. *)
Lemma unique_position (l0 r0 l r : list Event) (e0 e : Event) :
  Forall (fun x => p x = false) l0 ->
  Forall (fun x => p x = false) r0 ->
  p e = true ->
  l0 ++ e0 :: r0 = l ++ e :: r ->
  l = l0 /\ e = e0 /\ r = r0.
Proof.
  intros Hl0 Hr0 He. revert l.
  induction Hl0 as [|x l0 Hx _ IH]; intros [|y l] H; simpl in H.
  - injection H as -> ->. auto.
  - injection H as -> ->.
    apply Forall_app in Hr0 as [_ Hr0]. inversion Hr0; congruence.
  - injection H as -> _. congruence.
  - injection H as -> H. destruct (IH _ H) as (-> & -> & ->). auto.
Qed.

End Positions.

Lemma session_free_no_create (l : list Event) :
  session_free l -> Forall (fun e => is_create e = false) l.
Proof. apply Forall_impl. now intros e []. Qed.

Lemma session_free_no_destroy (l : list Event) :
  session_free l -> Forall (fun e => is_destroy e = false) l.
Proof. apply Forall_impl. now intros e []. Qed.

(** C2: in every invocation of [sample], [pathfinder], [optimize] or
    [laplace_sample], a constructor call that returned a handle is followed
    by exactly one destructor call, on that handle, and that call is the
    last event of the invocation whether it returns or raises, so the handle
    is not used afterwards; a constructor call that returned [NULL] is
    followed by no destructor call. *)
Theorem session_released_exactly_once (env : Env) (i : Invocation)
    (pre post : list Event) (payload : string) (seed : Z) :
  invocation_trace env i = pre ++ EvCreateModel payload seed :: post ->
  let model := fst (tinystan_create_model env payload seed) in
  let tr := invocation_trace env i in
  count is_create tr = 1%nat
  /\ (model <> NULL ->
      count is_destroy tr = 1%nat
      /\ (exists mid, post = mid ++ [EvDestroyModel model]
                      /\ session_free mid)
      /\ (forall before m after,
            tr = before ++ EvDestroyModel m :: after ->
            m = model /\ after = []))
  /\ (model = NULL -> count is_destroy tr = 0%nat).
Proof.
  intros H model tr. subst tr.
  pose proof (invocation_bracket env i) as Hb. rewrite H in *.
  inversion Hb as [q Hq Eq|q p s t Hq Ht Hn Eq|q p s mid Hq Hmid Hn Eq].
  - apply session_free_no_create in Hq.
    apply Forall_app in Hq as [_ Hq]. inversion Hq; discriminate.
  - apply (unique_position is_create) in Eq as (<- & [= <- <-] & <-);
      try (now apply session_free_no_create); try reflexivity.
    fold model in Hn. split; [|split].
    + rewrite count_app, count_cons, !count_none
        by now apply session_free_no_create. reflexivity.
    + congruence.
    + intros _. rewrite count_app, count_cons, !count_none
        by now apply session_free_no_destroy. reflexivity.
  - apply (unique_position is_create) in Eq as (<- & [= <- <-] & ->);
      try (now apply session_free_no_create); try reflexivity;
      [|apply Forall_app; split;
        [now apply session_free_no_create | repeat constructor]].
    fold model in Hn |- *. split; [|split].
    + rewrite count_app, count_cons, count_app, count_cons, !count_none
        by first [now apply session_free_no_create | constructor].
      reflexivity.
    + intros _. split; [|split].
      * rewrite count_app, count_cons, count_app, count_cons, !count_none
          by first [now apply session_free_no_destroy | constructor].
        reflexivity.
      * exists mid. now split.
      * intros before m after E.
        change (pre ++ EvCreateModel payload seed
                    :: mid ++ [EvDestroyModel model])
          with (pre ++ (EvCreateModel payload seed :: mid)
                    ++ [EvDestroyModel model]) in E.
        rewrite app_assoc in E.
        apply (unique_position is_destroy) in E as (_ & [= ->] & ->);
          auto.
        apply Forall_app; split; [now apply session_free_no_destroy|].
        constructor; [reflexivity | now apply session_free_no_destroy].
    + congruence.
Qed.

Lemma session_released_exactly_once_witness :
  let env := demo_env "a,b" 0 5 in
  let i := CallPathfinder demo_pathfinder_args in
  invocation_raised env i = true
  /\ count is_destroy (invocation_trace env i) = 1%nat.
Proof.
  intros env i. split; [reflexivity|].
  destruct (session_released_exactly_once env i []
              [EvNumFreeParams 5; EvDestroyModel 5] "" 7 eq_refl)
    as (_ & Hheld & _).
  apply Hheld. discriminate.
Defined.

(** * Running a method up to the body of its [with] block *)

Lemma invoker_run (env : Env) {A B} (seed_arg : option Z) (data : StanData)
    (body : Z -> Z -> M A) (pack : A -> M B)
    (t0 : list Event) (seed : Z) (payload : string) (model err : Z) :
  seed_or_rand_u32 env seed_arg = (t0, Ok seed) ->
  encode_stan_json env data = ret payload ->
  tinystan_create_model env payload seed = (model, err) ->
  model <> NULL ->
  (s <- seed_or_rand_u32 env seed_arg ;;
   r <- _get_model env data s (body s) ;;
   pack r)
  = match body seed model with
    | (tb, Ok r) =>
        (t0 ++ (EvCreateModel payload seed :: tb ++ [EvDestroyModel model])
            ++ trace (pack r),
         result (pack r))
    | (tb, Raise e) =>
        (t0 ++ EvCreateModel payload seed :: tb ++ [EvDestroyModel model],
         Raise e)
    end.
Proof.
  intros Hs He Hc Hn.
  rewrite (bind_ok _ _ _ _ Hs).
  rewrite (get_model_held env data seed (body seed) payload model err He Hc Hn).
  destruct (body seed model) as [tb [r|e]]; simpl.
  - destruct (pack r) as [tp rp]. reflexivity.
  - reflexivity.
Qed.

(** * Pathfinder on a model without parameters *)

(** C10: when the size checks pass, the model is constructed and it reports
    zero free parameters, [pathfinder] raises [ValueError("Model has no
    parameters.")]; the native calls made are the constructor, the
    free-parameter query and the destructor, so the session is destroyed and
    the native pathfinder entry point is never reached. *)
Theorem pathfinder_no_parameters (env : Env) (a : PathfinderArgs)
    (t0 : list Event) (seed : Z) (payload : string) (model err : Z) :
  1 <= pa_num_draws a -> 1 <= pa_num_paths a -> 1 <= pa_num_multi_draws a ->
  seed_or_rand_u32 env (pa_seed a) = (t0, Ok seed) ->
  encode_stan_json env (pa_data a) = ret payload ->
  tinystan_create_model env payload seed = (model, err) ->
  model <> NULL ->
  tinystan_model_num_free_params env model = 0 ->
  pathfinder env a
  = (t0 ++ [EvCreateModel payload seed; EvNumFreeParams model;
            EvDestroyModel model],
     Raise (mkExn ValueError "Model has no parameters."))
  /\ filter is_native (trace (pathfinder env a))
     = [EvCreateModel payload seed; EvNumFreeParams model;
        EvDestroyModel model].
Proof.
  intros Hd Hp Hm Hs He Hc Hn H0.
  assert (E : pathfinder env a
              = (t0 ++ [EvCreateModel payload seed; EvNumFreeParams model;
                        EvDestroyModel model],
                 Raise (mkExn ValueError "Model has no parameters."))).
  { unfold pathfinder.
    apply Z.ltb_ge in Hd, Hp, Hm. rewrite Hd, Hp, Hm.
    rewrite (invoker_run env _ _ _ _ t0 seed payload model err Hs He Hc Hn).
    unfold pathfinder_body, _num_free_params. simpl. rewrite H0. reflexivity. }
  split; [exact E|]. rewrite E. simpl.
  rewrite filter_app, (filter_native_seed _ _ _ _ Hs). reflexivity.
Qed.

Lemma pathfinder_no_parameters_witness :
  pathfinder (demo_env "a,b" 0 5) demo_pathfinder_args
  = ([EvCreateModel "" 7; EvNumFreeParams 5; EvDestroyModel 5],
     Raise (mkExn ValueError "Model has no parameters.")).
Proof.
  apply (pathfinder_no_parameters (demo_env "a,b" 0 5) demo_pathfinder_args
           [] 7 "" 5 NULL);
    try reflexivity; simpl; try lia; discriminate.
Defined.

(** * The mode vector of [laplace_sample] *)

(** C4 (amended): when [num_draws >= 1], the mode is a numeric vector of
    length [n], the model is constructed and [n] differs from the number of
    parameter names minus the two fixed Laplace names, [laplace_sample]
    raises the size-mismatch [ValueError] before the native Laplace call:
    the native calls made are the constructor, the parameter-name query and
    the destructor. *)
Theorem laplace_mode_length_mismatch (env : Env) (a : LaplaceArgs)
    (m : ndarray) (n : Z) (t0 : list Event) (seed : Z) (payload : string)
    (model err : Z) (names : list string) :
  1 <= la_num_draws a ->
  preprocess_laplace_inputs env (la_mode a) = ret (Some m, None) ->
  np_len m = Some n ->
  seed_or_rand_u32 env (la_seed a) = (t0, Ok seed) ->
  encode_stan_json env (la_data a) = ret payload ->
  tinystan_create_model env payload seed = (model, err) ->
  model <> NULL ->
  result (_get_parameter_names env model) = Ok names ->
  n <> len (LAPLACE_VARIABLES ++ names) - 2 ->
  laplace_sample env a
  = (t0 ++ [EvCreateModel payload seed; EvParamNames model;
            EvDestroyModel model],
     Raise (mkExn ValueError
              ("Mode array has incorrect length. Expected "
               ++ str_int (len (LAPLACE_VARIABLES ++ names) - 2)
               ++ " but got " ++ str_int n)%string))
  /\ filter is_native (trace (laplace_sample env a))
     = [EvCreateModel payload seed; EvParamNames model; EvDestroyModel model].
Proof.
  intros Hd Hp Hl Hs He Hc Hn Hnames Hne.
  assert (E : laplace_sample env a
              = (t0 ++ [EvCreateModel payload seed; EvParamNames model;
                        EvDestroyModel model],
                 Raise (mkExn ValueError
                          ("Mode array has incorrect length. Expected "
                           ++ str_int (len (LAPLACE_VARIABLES ++ names) - 2)
                           ++ " but got " ++ str_int n)%string))).
  { unfold laplace_sample.
    apply Z.ltb_ge in Hd. rewrite Hd.
    rewrite (bind_ok _ _ _ _ Hs), (bind_ok _ _ _ _ Hp).
    cbn [trace result fst snd app].
    rewrite (get_model_held env (la_data a) seed _ payload model err He Hc Hn).
    unfold laplace_body.
    destruct (get_parameter_names_total env model) as (names' & Hg).
    rewrite Hg in Hnames. injection Hnames as ->.
    rewrite (bind_ok _ _ _ _ Hg). rewrite Hl.
    apply Z.eqb_neq in Hne.
    change (len LAPLACE_VARIABLES) with 2. rewrite Hne.
    simpl. reflexivity. }
  split; [exact E|]. rewrite E. simpl.
  rewrite filter_app, (filter_native_seed _ _ _ _ Hs). reflexivity.
Qed.

Lemma laplace_mode_length_mismatch_witness :
  laplace_sample (demo_env "a,b" 2 5)
    (demo_laplace_args (ModeArray (mkArray [3] [1; 2; 3]%float)) 2)
  = ([EvCreateModel "" 7; EvParamNames 5; EvDestroyModel 5],
     Raise (mkExn ValueError
              "Mode array has incorrect length. Expected 2 but got 3")).
Proof.
  apply (laplace_mode_length_mismatch (demo_env "a,b" 2 5)
           (demo_laplace_args (ModeArray (mkArray [3] [1; 2; 3]%float)) 2)
           (mkArray [3] [1; 2; 3]%float) 3 [] 7 "" 5 NULL ["a"; "b"]);
    try reflexivity; simpl; try lia; discriminate.
Defined.

(** C4, as worded: the size-mismatch error is raised inside the session,
    after the constructor and the name query have been called. *)
Lemma laplace_mismatch_counterexample :
  ~ fails_before_any_native_call
      (laplace_sample (demo_env "a,b" 2 5)
         (demo_laplace_args (ModeArray (mkArray [3] [1; 2; 3]%float)) 2)).
Proof.
  intros [_ H]. vm_compute in H. discriminate.
Qed.

(** * The result of [sample] *)

Lemma invoker_ok_inv (env : Env) {A B} (seed_arg : option Z) (data : StanData)
    (body : Z -> Z -> M A) (pack : A -> M B) (tr : list Event) (b : B) :
  (s <- seed_or_rand_u32 env seed_arg ;;
   r <- _get_model env data s (body s) ;;
   pack r) = (tr, Ok b) ->
  exists t0 seed payload model err tb r tp,
    seed_or_rand_u32 env seed_arg = (t0, Ok seed)
    /\ encode_stan_json env data = ret payload
    /\ tinystan_create_model env payload seed = (model, err)
    /\ model <> NULL
    /\ body seed model = (tb, Ok r)
    /\ pack r = (tp, Ok b)
    /\ tr = t0 ++ (EvCreateModel payload seed :: tb ++ [EvDestroyModel model])
            ++ tp.
Proof.
  intros H.
  apply bind_ok_inv in H as (t0 & seed & t1 & Hs & H & ->).
  apply bind_ok_inv in H as (tg & r & tp & Hg & Hp & ->).
  destruct (get_model_cases env data seed (body seed))
    as [(e & _ & E)|[(p & er & t & e & _ & _ & _ & E)|
                     (p & m & er & He & Hc & Hn & E)]];
    rewrite E in Hg; try discriminate.
  injection Hg as <- Hr.
  exists t0, seed, p, m, er, (trace (body seed m)), r, tp.
  repeat split; try assumption.
  destruct (body seed m) as [tb rb]. simpl in *. now subst.
Qed.

Lemma raise_for_error_ok_inv (env : Env) (rc : rc_value) (err : Z)
    (t : list Event) (u : unit) :
  _raise_for_error env rc err = (t, Ok u) -> t = [] /\ rc_nonzero rc = false.
Proof.
  destruct (rc_nonzero rc) eqn:Hrc.
  - destruct (raise_for_error_cases env rc err)
      as [H|[[x H]|[[x H]|[x H]]]]; rewrite H; try discriminate.
    unfold _raise_for_error in H. rewrite Hrc in H.
    destruct (err =? NULL); simpl in H; [discriminate|].
    unfold decode_utf8 in H.
    destruct (utf8_valid _); simpl in H; [|discriminate].
    destruct (py_index _ _); discriminate.
  - unfold _raise_for_error. rewrite Hrc. now intros [= <- _].
Qed.

Lemma sample_body_ok_inv (env : Env) (a : SampleArgs) (seed model : Z)
    (tb : list Event) (param_names : list string) (out : ndarray)
    (metric_out : option ndarray) :
  sample_body env a seed model = (tb, Ok (param_names, out, metric_out)) ->
  tinystan_model_num_free_params env model <> 0
  /\ In (EvNumFreeParams model) tb
  /\ exists names,
       _get_parameter_names env model = ([EvParamNames model], Ok names)
       /\ param_names = HMC_SAMPLER_VARIABLES ++ names
       /\ shape out
          = [sa_num_chains a;
             sa_num_samples a + sa_num_warmup a * bool_int (sa_save_warmup a);
             len (HMC_SAMPLER_VARIABLES ++ names)].
Proof.
  unfold sample_body. intros H.
  apply bind_ok_inv in H as (t1 & p & t2 & Hp & H & ->).
  unfold _num_free_params in Hp. simpl in Hp. injection Hp as <- <-.
  apply bind_ok_inv in H as (t1 & [] & t3 & Hz & H & ->).
  destruct (_ =? 0) eqn:Ez; [discriminate|]. apply Z.eqb_neq in Ez.
  split; [exact Ez|]. split; [now left|].
  apply bind_ok_inv in H as (t4 & names & t5 & Hg & H & ->).
  destruct (get_parameter_names_total env model) as (names' & Hg').
  rewrite Hg' in Hg. injection Hg as <- <-.
  exists names'. split; [exact Hg'|].
  apply bind_ok_inv in H as (t6 & iim & t7 & _ & H & ->).
  apply bind_ok_inv in H as (t8 & inits & t9 & _ & H & ->).
  apply bind_ok_inv in H as (t10 & [] & t11 & _ & H & ->).
  apply bind_ok_inv in H as (t12 & [] & t13 & _ & H & ->).
  injection H as _ <- <- _. split; reflexivity.
Qed.

(** A call with valid sizes, no initial values and no initial metric, on a
    model that is constructed and has parameters, returns a result as soon
    as the native sampler reports success. *)
Lemma sample_returns (env : Env) (a : SampleArgs) (t0 : list Event)
    (seed : Z) (payload : string) (model err : Z) :
  1 <= sa_num_chains a -> 0 <= sa_num_warmup a -> 1 <= sa_num_samples a ->
  sa_inits a = None -> sa_init_inv_metric a = None ->
  seed_or_rand_u32 env (sa_seed a) = (t0, Ok seed) ->
  encode_stan_json env (sa_data a) = ret payload ->
  tinystan_create_model env payload seed = (model, err) ->
  model <> NULL ->
  tinystan_model_num_free_params env model <> 0 ->
  (forall c, nr_rc (tinystan_sample env c) = 0) ->
  exists out, result (sample env a) = Ok out.
Proof.
  intros Hc Hw Hs Hi Hm Hseed He Hcr Hn Hp Hrc.
  unfold sample. apply Z.ltb_ge in Hc, Hw, Hs. rewrite Hc, Hw, Hs.
  rewrite (invoker_run env _ _ _ _ t0 seed payload model err Hseed He Hcr Hn).
  unfold sample_body, _num_free_params.
  rewrite (bind_ok _ _ [EvNumFreeParams model]
             (tinystan_model_num_free_params env model) eq_refl).
  apply Z.eqb_neq in Hp. rewrite Hp.
  destruct (get_parameter_names_total env model) as (names & Hg).
  rewrite (bind_ok _ _ [] tt eq_refl), (bind_ok _ _ _ _ Hg).
  cbv beta zeta. rewrite Hm, Hi. unfold _raise_for_error.
  cbn [check_init_inv_metric _encode_inits bind ret emit app trace result
       fst snd rc_nonzero].
  rewrite Hrc. simpl. destruct (sa_save_metric a); eexists; reflexivity.
Qed.

(** C1 (amended): whenever [sample] returns, its size checks have passed,
    the model reports at least one free parameter, the column names are the
    seven HMC names followed by the names of the model's parameter-name
    query (so the first is [lp__]), and the buffer has shape
    [(num_chains, num_warmup * save_warmup + num_samples, 7 + n)] with [n]
    the number of those names. *)
Theorem sample_result_shape (env : Env) (a : SampleArgs) (out : StanOutput) :
  result (sample env a) = Ok out ->
  exists model names,
    In (EvNumFreeParams model) (trace (sample env a))
    /\ tinystan_model_num_free_params env model <> 0
    /\ result (_get_parameter_names env model) = Ok names
    /\ out_parameters out = HMC_SAMPLER_VARIABLES ++ names
    /\ hd_error (out_parameters out) = Some "lp__"
    /\ len (out_parameters out) = 7 + len names
    /\ shape (out_data out)
       = [sa_num_chains a;
          sa_num_warmup a * bool_int (sa_save_warmup a) + sa_num_samples a;
          7 + len names]
    /\ 1 <= sa_num_chains a /\ 0 <= sa_num_warmup a /\ 1 <= sa_num_samples a.
Proof.
  intros H.
  destruct (sample env a) as [tr r] eqn:E. simpl in H. subst r.
  unfold sample in E.
  destruct (sa_num_chains a <? 1) eqn:Hc; [discriminate|].
  destruct (sa_num_warmup a <? 0) eqn:Hw; [discriminate|].
  destruct (sa_num_samples a <? 1) eqn:Hs; [discriminate|].
  apply Z.ltb_ge in Hc, Hw, Hs.
  apply invoker_ok_inv in E
    as (t0 & seed & payload & model & err & tb & [[pn o] mo] & tp
        & _ & _ & _ & _ & Hb & Hp & ->).
  apply sample_body_ok_inv in Hb as (Hfree & Hin & names & Hg & -> & Hshape).
  exists model, names.
  assert (Hout : out_parameters out = HMC_SAMPLER_VARIABLES ++ names
                 /\ out_data out = o).
  { destruct (sa_save_metric a); injection Hp as _ <-; split; reflexivity. }
  destruct Hout as [Hnames Hdata].
  split; [|split; [exact Hfree|split; [now rewrite Hg|]]].
  { simpl. apply in_or_app. right. right.
    apply in_or_app. left. apply in_or_app. now left. }
  split; [exact Hnames|]. rewrite Hnames, Hdata, Hshape.
  split; [reflexivity|].
  assert (Hlen : len (HMC_SAMPLER_VARIABLES ++ names) = 7 + len names).
  { unfold len. rewrite length_app. simpl List.length. lia. }
  rewrite Hlen. split; [reflexivity|].
  split; [f_equal; f_equal; lia | auto].
Qed.

Lemma sample_result_shape_witness :
  let env := demo_env "a,b" 2 5 in
  let a := demo_sample_args 2 100 100 (Some 1) DIAGONAL None in
  exists out,
    result (sample env a) = Ok out
    /\ shape (out_data out) = [2; 100; 9]
    /\ hd_error (out_parameters out) = Some "lp__".
Proof.
  intros env a.
  assert (E : exists out, result (sample env a) = Ok out)
    by (eexists; vm_compute; reflexivity).
  destruct E as [out E]. exists out. split; [exact E|].
  destruct (sample_result_shape env a out E)
    as (model & names & _ & _ & Hn & _ & Hhd & _ & Hshape & _).
  split; [|exact Hhd].
  rewrite Hshape. vm_compute in Hn. injection Hn as <-. reflexivity.
Defined.

(** C1, as worded: a model with two free parameters and three parameter
    names (a three-element simplex, say) gets ten columns, not nine. *)
Lemma sample_columns_counterexample :
  ~ columns_by_free_parameter_count
      (demo_env "theta.1,theta.2,theta.3" 2 5)
      (demo_sample_args 1 0 1 (Some 1) DIAGONAL None).
Proof.
  intros H.
  specialize (H _ 5 eq_refl). cbv beta in H.
  assert (I : In (EvNumFreeParams 5)
                (trace (sample (demo_env "theta.1,theta.2,theta.3" 2 5)
                          (demo_sample_args 1 0 1 (Some 1) DIAGONAL None))))
    by (vm_compute; auto).
  specialize (H I). vm_compute in H. discriminate.
Qed.


(** * The initial inverse metric of [sample] *)

Lemma shape_eqb_eq (s t : list Z) : shape_eqb s t = true <-> s = t.
Proof.
  unfold shape_eqb. destruct (list_eq_dec Z.eq_dec s t); split; congruence.
Qed.

Lemma shape_eqb_neq (s t : list Z) : shape_eqb s t = false <-> s <> t.
Proof.
  unfold shape_eqb. destruct (list_eq_dec Z.eq_dec s t); split; congruence.
Qed.

Lemma np_repeat_newaxis_spec (m : ndarray) (n : Z) :
  shape (np_repeat_newaxis m n) = n :: shape m
  /\ flat (np_repeat_newaxis m n) = List.concat (repeat (flat m) (Z.to_nat n))
  /\ (0 <= n ->
      len (flat (np_repeat_newaxis m n)) = n * len (flat m)).
Proof.
  split; [reflexivity|]. split; [reflexivity|].
  intros Hn. unfold len. simpl.
  rewrite <- (Z2Nat.id n) at 2 by assumption.
  induction (Z.to_nat n) as [|k IH]; [reflexivity|].
  cbn [repeat List.concat]. rewrite length_app, Nat2Z.inj_add, IH. lia.
Qed.

(** An inference call in the trace of a method was made from the body of
    its [with] block, on the handle the constructor returned. *)
Lemma invoker_inference_inv (env : Env) {A B} (seed_arg : option Z)
    (data : StanData) (body : Z -> Z -> M A) (pack : A -> M B) (e : Event) :
  (forall r, trace (pack r) = []) ->
  is_inference e = true ->
  In e (trace (s <- seed_or_rand_u32 env seed_arg ;;
               r <- _get_model env data s (body s) ;;
               pack r)) ->
  exists t0 seed payload model err,
    seed_or_rand_u32 env seed_arg = (t0, Ok seed)
    /\ encode_stan_json env data = ret payload
    /\ tinystan_create_model env payload seed = (model, err)
    /\ model <> NULL
    /\ In e (trace (body seed model)).
Proof.
  intros Hpack Hinf Hin.
  destruct (seed_or_rand_u32_total env seed_arg) as (t0 & seed & Hs & Hq).
  rewrite (bind_ok _ _ _ _ Hs) in Hin. simpl fst in Hin.
  apply in_app_or in Hin as [Hin|Hin].
  { rewrite Forall_forall in Hq. apply Hq in Hin. now destruct e. }
  rewrite trace_bind_silent in Hin by exact Hpack.
  destruct (get_model_cases env data seed (body seed))
    as [(x & _ & E)|[(p & er & t & x & _ & _ & Hr & E)|
                     (p & m & er & He & Hc & Hn & E)]];
    rewrite E in Hin; simpl in Hin.
  - contradiction.
  - destruct Hin as [<-|Hin]; [discriminate|].
    change t with (trace (t, @Raise unit x)) in Hin. rewrite <- Hr in Hin.
    apply raise_for_error_events in Hin. congruence.
  - destruct Hin as [<-|Hin]; [discriminate|].
    apply in_app_or in Hin as [Hin|[<-|[]]]; [|discriminate].
    exists t0, seed, p, m, er. auto.
Qed.

(** What [sample] hands to [tinystan_sample]. *)
Lemma sample_body_call (env : Env) (a : SampleArgs) (seed model : Z)
    (c : SampleCall) :
  In (EvSample c) (trace (sample_body env a seed model)) ->
  sc_model c = model
  /\ sc_num_chains c = sa_num_chains a
  /\ sc_seed c = seed
  /\ tinystan_model_num_free_params env model <> 0
  /\ check_init_inv_metric (sa_init_inv_metric a) (sa_num_chains a)
       (metric_shape (sa_metric a)
          (tinystan_model_num_free_params env model))
     = ret (sc_init_inv_metric c).
Proof.
  unfold sample_body. intros H.
  apply in_trace_bind in H as [H|(t & p & Hp & H)].
  { simpl in H. destruct H as [H|[]]; discriminate. }
  unfold _num_free_params in Hp. simpl in Hp. injection Hp as <- <-.
  apply in_trace_bind in H as [H|(t & [] & Hz & H)].
  { destruct (_ =? 0); simpl in H; contradiction. }
  destruct (_ =? 0) eqn:Ez; [discriminate|]. apply Z.eqb_neq in Ez.
  apply in_trace_bind in H as [H|(t1 & names & Hg & H)].
  { destruct (get_parameter_names_total env model) as (names' & Hg').
    rewrite Hg' in H. simpl in H. destruct H as [H|[]]; discriminate. }
  apply in_trace_bind in H as [H|(t2 & iim & Hm & H)].
  { rewrite check_init_inv_metric_trace in H. contradiction. }
  apply in_trace_bind in H as [H|(t3 & inits & Hi & H)].
  { rewrite encode_inits_trace in H. contradiction. }
  apply in_trace_bind in H as [H|(t4 & [] & _ & H)].
  - simpl in H. destruct H as [H|[]]. injection H as <-. simpl.
    repeat split; try assumption.
    pose proof (check_init_inv_metric_trace (sa_init_inv_metric a)
                  (sa_num_chains a)
                  (metric_shape (sa_metric a)
                     (tinystan_model_num_free_params env model))) as Ht.
    rewrite Hm in Ht. simpl in Ht. subst t2. exact Hm.
  - apply in_trace_bind in H as [H|(t5 & [] & _ & H)].
    + apply raise_for_error_events in H. discriminate.
    + simpl in H. contradiction.
Qed.

(** A call that passes every check before the native call does make it. *)
Lemma sample_reaches_call (env : Env) (a : SampleArgs) (t0 : list Event)
    (seed : Z) (payload : string) (model err : Z)
    (init_inv_metric : option ndarray) (inits : option string) :
  1 <= sa_num_chains a -> 0 <= sa_num_warmup a -> 1 <= sa_num_samples a ->
  seed_or_rand_u32 env (sa_seed a) = (t0, Ok seed) ->
  encode_stan_json env (sa_data a) = ret payload ->
  tinystan_create_model env payload seed = (model, err) ->
  model <> NULL ->
  tinystan_model_num_free_params env model <> 0 ->
  check_init_inv_metric (sa_init_inv_metric a) (sa_num_chains a)
    (metric_shape (sa_metric a) (tinystan_model_num_free_params env model))
  = ret init_inv_metric ->
  _encode_inits env (sa_inits a) (sa_num_chains a) seed = ret inits ->
  exists c,
    In (EvSample c) (trace (sample env a))
    /\ sc_model c = model
    /\ sc_init_inv_metric c = init_inv_metric
    /\ sc_inits c = inits.
Proof.
  intros Hc Hw Hs Hseed He Hcr Hn Hp Hm Hi.
  destruct (get_parameter_names_total env model) as (names & Hg).
  set (c := mkSampleCall model (sa_num_chains a) inits seed (sa_tuning a)
              (sa_num_warmup a) (sa_num_samples a)
              (HMCMetric_value (sa_metric a)) init_inv_metric
              (sa_save_warmup a)
              (np_zeros [sa_num_chains a;
                         sa_num_samples a
                         + sa_num_warmup a * bool_int (sa_save_warmup a);
                         len (HMC_SAMPLER_VARIABLES ++ names)])
              (size (np_zeros
                       [sa_num_chains a;
                        sa_num_samples a
                        + sa_num_warmup a * bool_int (sa_save_warmup a);
                        len (HMC_SAMPLER_VARIABLES ++ names)]))
              (if sa_save_metric a
               then Some (np_zeros
                            (sa_num_chains a
                             :: metric_shape (sa_metric a)
                                  (tinystan_model_num_free_params env model)))
               else None)).
  exists c. split; [|repeat split].
  assert (Hb : In (EvSample c) (trace (sample_body env a seed model))).
  { unfold sample_body, _num_free_params.
    rewrite (bind_ok _ _ [EvNumFreeParams model]
               (tinystan_model_num_free_params env model) eq_refl).
    apply Z.eqb_neq in Hp. rewrite Hp.
    rewrite (bind_ok _ _ [] tt eq_refl), (bind_ok _ _ _ _ Hg).
    cbv beta zeta. rewrite (bind_ok _ _ _ _ Hm), (bind_ok _ _ _ _ Hi).
    fold c. rewrite trace_bind. cbn [trace fst app].
    rewrite ?in_app_iff. simpl. tauto. }
  unfold sample. apply Z.ltb_ge in Hc, Hw, Hs. rewrite Hc, Hw, Hs.
  rewrite (invoker_run env _ _ _ _ t0 seed payload model err Hseed He Hcr Hn).
  destruct (sample_body env a seed model) as [tb [[[pn o] mo]|x]];
    cbn [trace fst] in Hb |- *; rewrite ?in_app_iff; simpl;
    rewrite ?in_app_iff; tauto.
Qed.

Lemma shape_cons_neq (n : Z) (ms : list Z) : n :: ms <> ms.
Proof.
  intros H. apply (f_equal (@List.length Z)) in H. simpl in H. lia.
Qed.

(** C5: the native sampler is handed, as initial inverse metric: null when
    the argument is null; the argument repeated [num_chains] times along a
    new leading axis when its shape is that of one chain's metric; the
    argument itself when its shape is [(num_chains, ...)].  This holds of
    every sampler call in a trace, and a call that passes the checks made
    before the metric (sizes, construction, a model with parameters) and
    whose initial values serialize does make the sampler call in each of
    the three cases.  With any other shape such a call raises the
    validation error, and the native sampler is not called. *)
Theorem sample_init_inv_metric (env : Env) (a : SampleArgs) :
  (forall c,
      In (EvSample c) (trace (sample env a)) ->
      let ms := metric_shape (sa_metric a)
                  (tinystan_model_num_free_params env (sc_model c)) in
      match sa_init_inv_metric a with
      | None => sc_init_inv_metric c = None
      | Some m =>
          (shape m = ms
           /\ exists b,
               sc_init_inv_metric c = Some b
               /\ shape b = sa_num_chains a :: ms
               /\ flat b = List.concat
                             (repeat (flat m) (Z.to_nat (sa_num_chains a))))
          \/ (shape m = sa_num_chains a :: ms
              /\ sc_init_inv_metric c = Some m)
      end)
  /\ (forall t0 seed payload model err inits,
        1 <= sa_num_chains a -> 0 <= sa_num_warmup a ->
        1 <= sa_num_samples a ->
        seed_or_rand_u32 env (sa_seed a) = (t0, Ok seed) ->
        encode_stan_json env (sa_data a) = ret payload ->
        tinystan_create_model env payload seed = (model, err) ->
        model <> NULL ->
        tinystan_model_num_free_params env model <> 0 ->
        _encode_inits env (sa_inits a) (sa_num_chains a) seed = ret inits ->
        let ms := metric_shape (sa_metric a)
                    (tinystan_model_num_free_params env model) in
        (sa_init_inv_metric a = None ->
         exists c, In (EvSample c) (trace (sample env a))
                   /\ sc_model c = model
                   /\ sc_init_inv_metric c = None)
        /\ (forall m, sa_init_inv_metric a = Some m -> shape m = ms ->
            exists c, In (EvSample c) (trace (sample env a))
                      /\ sc_model c = model
                      /\ sc_init_inv_metric c
                         = Some (mkArray (sa_num_chains a :: shape m)
                                   (List.concat
                                      (repeat (flat m)
                                         (Z.to_nat (sa_num_chains a))))))
        /\ (forall m, sa_init_inv_metric a = Some m ->
            shape m = sa_num_chains a :: ms ->
            exists c, In (EvSample c) (trace (sample env a))
                      /\ sc_model c = model
                      /\ sc_init_inv_metric c = Some m))
  /\ (forall m t0 seed payload model err,
        sa_init_inv_metric a = Some m ->
        1 <= sa_num_chains a -> 0 <= sa_num_warmup a ->
        1 <= sa_num_samples a ->
        seed_or_rand_u32 env (sa_seed a) = (t0, Ok seed) ->
        encode_stan_json env (sa_data a) = ret payload ->
        tinystan_create_model env payload seed = (model, err) ->
        model <> NULL ->
        tinystan_model_num_free_params env model <> 0 ->
        let ms := metric_shape (sa_metric a)
                    (tinystan_model_num_free_params env model) in
        shape m <> ms ->
        shape m <> sa_num_chains a :: ms ->
        sample env a
        = (t0 ++ [EvCreateModel payload seed; EvNumFreeParams model;
                  EvParamNames model; EvDestroyModel model],
           Raise (mkExn ValueError
                    ("Invalid initial metric size. Expected a "
                     ++ repr_tuple ms ++ " or "
                     ++ repr_tuple (sa_num_chains a :: ms)
                     ++ " matrix.")%string))
        /\ count is_inference (trace (sample env a)) = 0%nat)
  /\ (forall p, metric_shape DENSE p = [p; p]
                /\ metric_shape DIAGONAL p = [p]
                /\ metric_shape UNIT p = [p]).
Proof.
  split; [|split; [|split]].
  - intros c Hin ms. unfold sample in Hin.
    destruct (_ <? 1); [contradiction|].
    destruct (_ <? 0); [contradiction|].
    destruct (_ <? 1); [contradiction|].
    apply invoker_inference_inv in Hin
      as (t0 & seed & payload & model & err & _ & _ & _ & _ & Hin);
      [| intros [[pn o] mo]; reflexivity | reflexivity].
    apply sample_body_call in Hin as (Hm & _ & _ & _ & Hcheck).
    subst ms. rewrite Hm. unfold check_init_inv_metric in Hcheck.
    destruct (sa_init_inv_metric a) as [m|]; [|now injection Hcheck].
    destruct (shape_eqb (shape m) _) eqn:E1.
    + apply shape_eqb_eq in E1. left. split; [exact E1|].
      injection Hcheck as <-. eexists. split; [reflexivity|].
      destruct (np_repeat_newaxis_spec m (sa_num_chains a)) as (Hs & Hf & _).
      rewrite Hs, Hf, E1. split; reflexivity.
    + destruct (shape_eqb (shape m) (sa_num_chains a :: _)) eqn:E2;
        [|unfold raise, ret in Hcheck; discriminate].
      apply shape_eqb_eq in E2. right. split; [exact E2|].
      now injection Hcheck.
  - intros t0 seed payload model err inits Hc Hw Hs Hseed He Hcr Hn Hp Hi ms.
    assert (K : forall iim,
               check_init_inv_metric (sa_init_inv_metric a) (sa_num_chains a)
                 ms = ret iim ->
               exists c, In (EvSample c) (trace (sample env a))
                         /\ sc_model c = model
                         /\ sc_init_inv_metric c = iim).
    { intros iim Hchk.
      destruct (sample_reaches_call env a t0 seed payload model err iim inits
                  Hc Hw Hs Hseed He Hcr Hn Hp Hchk Hi)
        as (c & Hin & Hmodel & Hiim & _).
      exists c. auto. }
    split; [|split].
    + intros Hnone. apply K. rewrite Hnone. reflexivity.
    + intros m Hsome Hshape. apply K. rewrite Hsome.
      unfold check_init_inv_metric.
      apply shape_eqb_eq in Hshape. rewrite Hshape. reflexivity.
    + intros m Hsome Hshape. apply K. rewrite Hsome.
      unfold check_init_inv_metric.
      assert (Hne : shape_eqb (shape m) ms = false).
      { apply shape_eqb_neq. rewrite Hshape. apply shape_cons_neq. }
      apply shape_eqb_eq in Hshape. rewrite Hne, Hshape. reflexivity.
  - intros m t0 seed payload model err Hm Hc Hw Hs Hseed He Hcr Hn Hp ms H1 H2.
    assert (E : sample env a
                = (t0 ++ [EvCreateModel payload seed; EvNumFreeParams model;
                          EvParamNames model; EvDestroyModel model],
                   Raise (mkExn ValueError
                            ("Invalid initial metric size. Expected a "
                             ++ repr_tuple ms ++ " or "
                             ++ repr_tuple (sa_num_chains a :: ms)
                             ++ " matrix.")%string))).
    { unfold sample. apply Z.ltb_ge in Hc, Hw, Hs. rewrite Hc, Hw, Hs.
      rewrite (invoker_run env _ _ _ _ t0 seed payload model err
                 Hseed He Hcr Hn).
      assert (Hb : sample_body env a seed model
                   = ([EvNumFreeParams model; EvParamNames model],
                      Raise (mkExn ValueError
                               ("Invalid initial metric size. Expected a "
                                ++ repr_tuple ms ++ " or "
                                ++ repr_tuple (sa_num_chains a :: ms)
                                ++ " matrix.")%string))).
      { unfold sample_body, _num_free_params.
        rewrite (bind_ok _ _ [EvNumFreeParams model]
                   (tinystan_model_num_free_params env model) eq_refl).
        apply Z.eqb_neq in Hp. rewrite Hp.
        destruct (get_parameter_names_total env model) as (names & Hg).
        rewrite (bind_ok _ _ [] tt eq_refl), (bind_ok _ _ _ _ Hg).
        cbv beta zeta. unfold check_init_inv_metric. rewrite Hm.
        apply shape_eqb_neq in H1, H2. unfold ms in *. rewrite H1, H2.
        reflexivity. }
      rewrite Hb. reflexivity. }
    split; [exact E|]. rewrite E. unfold trace, fst.
    rewrite count_app. unfold count at 2. simpl. rewrite Nat.add_0_r.
    apply count_none.
    destruct (seed_or_rand_u32_total env (sa_seed a)) as (t & s0 & Hs' & Hq).
    rewrite Hseed in Hs'. injection Hs' as <- <-.
    eapply Forall_impl; [|exact Hq]. now intros [].
  - intros p. repeat split.
Qed.

Lemma sample_init_inv_metric_witness :
  let env := demo_env "a,b" 2 5 in
  let one_chain := mkArray [2; 2] [1; 0; 0; 1]%float in
  let all_chains :=
    mkArray [2; 2; 2] [1; 0; 0; 1; 2; 0; 0; 2]%float in
  let vector := mkArray [3] [1; 1; 1]%float in
  (exists c,
      In (EvSample c)
        (trace (sample env
                  (demo_sample_args 2 0 1 (Some 1) DENSE (Some all_chains))))
      /\ sc_init_inv_metric c = Some all_chains)
  /\ (exists c,
        In (EvSample c)
          (trace (sample env
                    (demo_sample_args 2 0 1 (Some 1) DENSE (Some one_chain))))
        /\ sc_init_inv_metric c
           = Some (mkArray [2; 2; 2] [1; 0; 0; 1; 1; 0; 0; 1]%float))
  /\ (exists c,
        In (EvSample c)
          (trace (sample env (demo_sample_args 2 0 1 (Some 1) DENSE None)))
        /\ sc_init_inv_metric c = None)
  /\ sample env (demo_sample_args 4 0 1 (Some 1) DENSE (Some vector))
     = ([EvCreateModel "" 1; EvNumFreeParams 5; EvParamNames 5;
         EvDestroyModel 5],
        Raise (mkExn ValueError
                 "Invalid initial metric size. Expected a (2, 2) or (4, 2, 2) matrix.")).
Proof.
  intros env one_chain all_chains vector.
  split; [|split; [|split]].
  - destruct (sample_init_inv_metric env
                (demo_sample_args 2 0 1 (Some 1) DENSE (Some all_chains)))
      as (_ & Hcall & _).
    destruct (Hcall [] 1 "" 5 NULL None) as (_ & _ & H);
      try reflexivity; try (simpl; lia); try discriminate.
    destruct (H all_chains eq_refl eq_refl) as (c & Hin & _ & Hc).
    exists c. auto.
  - destruct (sample_init_inv_metric env
                (demo_sample_args 2 0 1 (Some 1) DENSE (Some one_chain)))
      as (_ & Hcall & _).
    destruct (Hcall [] 1 "" 5 NULL None) as (_ & H & _);
      try reflexivity; try (simpl; lia); try discriminate.
    destruct (H one_chain eq_refl eq_refl) as (c & Hin & _ & Hc).
    exists c. auto.
  - destruct (sample_init_inv_metric env
                (demo_sample_args 2 0 1 (Some 1) DENSE None))
      as (_ & Hcall & _).
    destruct (Hcall [] 1 "" 5 NULL None) as (H & _);
      try reflexivity; try (simpl; lia); try discriminate.
    destruct (H eq_refl) as (c & Hin & _ & Hc).
    exists c. auto.
  - destruct (sample_init_inv_metric env
                (demo_sample_args 4 0 1 (Some 1) DENSE (Some vector)))
      as (_ & _ & Hbad & _).
    apply (Hbad vector [] 1 "" 5 NULL);
      try reflexivity; simpl; try lia; discriminate.
Defined.

(** * Further properties of the module *)

(** ** Size checks made before anything else *)

(** X1: with at least one chain, a negative [num_warmup] and then a
    [num_samples] below one are rejected with their own [ValueError] before
    a seed is drawn or the library is called. *)
Theorem sample_rejects_warmup_and_samples (env : Env) (a : SampleArgs) :
  1 <= sa_num_chains a ->
  (sa_num_warmup a < 0 ->
   sample env a
   = ([], Raise (mkExn ValueError "num_warmup must be non-negative")))
  /\ (0 <= sa_num_warmup a -> sa_num_samples a < 1 ->
      sample env a
      = ([], Raise (mkExn ValueError "num_samples must be at least 1"))).
Proof.
  intros Hc. apply Z.ltb_ge in Hc. unfold sample. rewrite Hc. split.
  - intros Hw. apply Z.ltb_lt in Hw. now rewrite Hw.
  - intros Hw Hs. apply Z.ltb_ge in Hw. apply Z.ltb_lt in Hs.
    now rewrite Hw, Hs.
Qed.

Lemma sample_rejects_warmup_and_samples_witness :
  sample (demo_env "a,b" 2 5) (demo_sample_args 4 (-1) 0 None DIAGONAL None)
  = ([], Raise (mkExn ValueError "num_warmup must be non-negative"))
  /\ sample (demo_env "a,b" 2 5) (demo_sample_args 4 0 0 None DIAGONAL None)
     = ([], Raise (mkExn ValueError "num_samples must be at least 1")).
Proof.
  split.
  - apply (sample_rejects_warmup_and_samples (demo_env "a,b" 2 5)
             (demo_sample_args 4 (-1) 0 None DIAGONAL None));
      simpl; lia.
  - apply (sample_rejects_warmup_and_samples (demo_env "a,b" 2 5)
             (demo_sample_args 4 0 0 None DIAGONAL None));
      simpl; lia.
Defined.

(** X2: [pathfinder] checks [num_draws], then [num_paths], then
    [num_multi_draws], each against one, and raises the first failure with
    an empty trace; [num_multi_draws] is checked even when the output size
    does not depend on it. *)
Theorem pathfinder_rejects_sizes (env : Env) (a : PathfinderArgs) :
  pa_num_draws a < 1 \/ pa_num_paths a < 1 \/ pa_num_multi_draws a < 1 ->
  pathfinder env a
  = ([], Raise (mkExn ValueError
                  (if pa_num_draws a <? 1
                   then "num_draws must be at least 1"
                   else if pa_num_paths a <? 1
                        then "num_paths must be at least 1"
                        else "num_multi_draws must be at least 1"))).
Proof.
  intros H. unfold pathfinder.
  destruct (pa_num_draws a <? 1) eqn:Hd; [reflexivity|].
  destruct (pa_num_paths a <? 1) eqn:Hp; [reflexivity|].
  destruct (pa_num_multi_draws a <? 1) eqn:Hm; [reflexivity|].
  apply Z.ltb_ge in Hd, Hp, Hm. lia.
Qed.

Lemma pathfinder_rejects_sizes_witness :
  pathfinder (demo_env "a,b" 2 5)
    (mkPathfinderArgs (DataStr "") 4 None None 10 0 false false
       (pa_tuning demo_pathfinder_args))
  = ([], Raise (mkExn ValueError "num_multi_draws must be at least 1")).
Proof.
  apply (pathfinder_rejects_sizes (demo_env "a,b" 2 5)
           (mkPathfinderArgs (DataStr "") 4 None None 10 0 false false
              (pa_tuning demo_pathfinder_args))).
  simpl. lia.
Defined.

(** ** Laplace: what is decided before the session opens *)

(** X3: [preprocess_laplace_inputs] calls nothing native and returns exactly
    one of a mode array and a mode payload: an array is passed as it is, a
    one-dimensional result of length [k] loses its first entry ([lp__]) and
    becomes an array of length [k - 1], a result with any other number of
    axes raises [ValueError], and any other value is serialized. *)
Theorem preprocess_laplace_inputs_cases (env : Env) (mode : Mode) :
  trace (preprocess_laplace_inputs env mode) = []
  /\ (forall ma mj,
        result (preprocess_laplace_inputs env mode) = Ok (ma, mj) ->
        (ma = None /\ mj <> None) \/ (ma <> None /\ mj = None))
  /\ (forall m, mode = ModeArray m ->
        result (preprocess_laplace_inputs env mode) = Ok (Some m, None))
  /\ (forall o k, mode = ModeOutput o -> shape (out_data o) = [k] ->
        result (preprocess_laplace_inputs env mode)
        = Ok (Some (mkArray [Z.max 0 (k - 1)] (tl (flat (out_data o)))),
              None))
  /\ (forall o, mode = ModeOutput o ->
        List.length (shape (out_data o)) <> 1%nat ->
        result (preprocess_laplace_inputs env mode)
        = Raise (mkExn ValueError
                   "Laplace can only be used with Optimization output"))
  /\ (forall d, mode = ModeData d ->
        result (preprocess_laplace_inputs env mode)
        = match result (encode_stan_json env d) with
          | Ok s => Ok (None, Some s)
          | Raise e => Raise e
          end).
Proof.
  split; [apply preprocess_laplace_inputs_trace|].
  split; [|split; [|split; [|split]]].
  - intros ma mj. unfold preprocess_laplace_inputs.
    destruct mode as [o|m|d]; simpl.
    + destruct (len (shape (out_data o)) =? 1); simpl; [|discriminate].
      intros [= <- <-]. right. split; congruence.
    + intros [= <- <-]. right. split; congruence.
    + destruct (encode_stan_json env d) as [t [x|e]]; simpl; [|discriminate].
      intros [= <- <-]. left. split; congruence.
  - intros m ->. reflexivity.
  - intros o k -> Hk. unfold preprocess_laplace_inputs, np_tail.
    rewrite Hk. reflexivity.
  - intros o -> Hk. unfold preprocess_laplace_inputs.
    destruct (len (shape (out_data o)) =? 1) eqn:E; [|reflexivity].
    apply Z.eqb_eq in E. unfold len in E. lia.
  - intros d ->. unfold preprocess_laplace_inputs. simpl.
    destruct (encode_stan_json env d) as [t [x|e]]; reflexivity.
Qed.

(** X4: [laplace_sample] rejects [num_draws < 1] with an empty trace; with
    [num_draws >= 1] and a mode that is a result with other than one axis
    (the output of [sample], say) it raises the mode [ValueError] without
    any call into the library. *)
Theorem laplace_rejects_before_session (env : Env) (a : LaplaceArgs) :
  (la_num_draws a < 1 ->
   laplace_sample env a
   = ([], Raise (mkExn ValueError "num_draws must be at least 1")))
  /\ (forall o,
        1 <= la_num_draws a ->
        la_mode a = ModeOutput o ->
        List.length (shape (out_data o)) <> 1%nat ->
        result (laplace_sample env a)
        = Raise (mkExn ValueError
                   "Laplace can only be used with Optimization output")
        /\ filter is_native (trace (laplace_sample env a)) = []).
Proof.
  split.
  - intros H. apply Z.ltb_lt in H. unfold laplace_sample. now rewrite H.
  - intros o Hd Hm Hk. apply Z.ltb_ge in Hd. unfold laplace_sample.
    rewrite Hd.
    destruct (seed_or_rand_u32_total env (la_seed a)) as (t0 & s & Hs & _).
    rewrite (bind_ok _ _ _ _ Hs).
    assert (Hp : preprocess_laplace_inputs env (la_mode a)
                 = ([], Raise (mkExn ValueError
                      "Laplace can only be used with Optimization output"))).
    { rewrite Hm. unfold preprocess_laplace_inputs.
      destruct (len (shape (out_data o)) =? 1) eqn:E; [|reflexivity].
      apply Z.eqb_eq in E. unfold len in E. lia. }
    rewrite (bind_raise _ _ _ _ Hp). simpl.
    split; [reflexivity|].
    rewrite app_nil_r. apply (filter_native_seed _ _ _ _ Hs).
Qed.

Lemma laplace_rejects_before_session_witness :
  let env := demo_env "a,b" 2 5 in
  let draws := mkOutput (HMC_SAMPLER_VARIABLES ++ ["a"; "b"])
                 (np_zeros [2; 3; 9]) None None in
  laplace_sample env (demo_laplace_args (ModeOutput draws) 0)
  = ([], Raise (mkExn ValueError "num_draws must be at least 1"))
  /\ result (laplace_sample env (demo_laplace_args (ModeOutput draws) 10))
     = Raise (mkExn ValueError
                "Laplace can only be used with Optimization output").
Proof.
  intros env draws. split.
  - apply (laplace_rejects_before_session env
             (demo_laplace_args (ModeOutput draws) 0)).
    simpl. lia.
  - destruct (laplace_rejects_before_session env
                (demo_laplace_args (ModeOutput draws) 10)) as (_ & H).
    apply (H draws); [simpl; lia | reflexivity | simpl; lia].
Defined.

(** ** The error bridge on unlisted category codes *)

(** X5: when the native message decodes, the error object is freed exactly
    once whatever category code the library reports.  The table of
    exception classes is indexed the Python way: the codes -3, -2 and -1
    select [RuntimeError], [ValueError] and [KeyboardInterrupt] like 0, 1
    and 2, and every other code ends in [IndexError], the native message
    being dropped. *)
Theorem raise_for_error_category_index (env : Env) (rc : rc_value) (err : Z) :
  rc_nonzero rc = true -> err <> NULL ->
  utf8_valid (tinystan_get_error_message env err) = true ->
  let code := tinystan_get_error_type env err in
  let msg := tinystan_get_error_message env err in
  let m := _raise_for_error env rc err in
  count is_free_error (trace m) = 1%nat
  /\ (code = 0 \/ code = -3 -> result m = Raise (mkExn RuntimeError msg))
  /\ (code = 1 \/ code = -2 -> result m = Raise (mkExn ValueError msg))
  /\ (code = 2 \/ code = -1 ->
      result m = Raise (mkExn KeyboardInterrupt msg))
  /\ (code < -3 \/ 3 <= code ->
      result m = Raise (mkExn IndexError "list index out of range")).
Proof.
  intros Hrc Hne Hv code msg m. subst m.
  rewrite (raise_for_error_decoded env rc err Hrc Hne Hv). fold code msg.
  cbn [trace result fst snd].
  split; [reflexivity|].
  split; [|split; [|split]].
  - intros [H|H]; rewrite H; reflexivity.
  - intros [H|H]; rewrite H; reflexivity.
  - intros [H|H]; rewrite H; reflexivity.
  - intros H.
    assert (I : py_index _exception_types code = None).
    { unfold py_index. simpl List.length.
      destruct H as [H|H].
      - replace (0 <=? code) with false by (symmetry; apply Z.leb_gt; lia).
        replace (- Z.of_nat 3 <=? code) with false
          by (symmetry; apply Z.leb_gt; lia).
        reflexivity.
      - replace (code <? Z.of_nat 3) with false
          by (symmetry; apply Z.ltb_ge; lia).
        replace (code <? 0) with false by (symmetry; apply Z.ltb_ge; lia).
        rewrite !andb_false_r. reflexivity. }
    rewrite I. reflexivity.
Qed.

Lemma raise_for_error_category_index_witness :
  let env := mkEnv "028"%char (fun _ _ => (NULL, 9))
               (fun _ => "") (fun _ => 0) (fun _ => "stopped") (fun _ => -1)
               (fun _ => quiet_return) (fun _ => quiet_return)
               (fun _ => quiet_return) (fun _ => quiet_return)
               (fun _ => "{}") (fun _ => None)
               (fun _ _ _ => InitsOne (DataStr "{}")) 0 in
  result (_raise_for_error env (RcInt 1) 9)
  = Raise (mkExn KeyboardInterrupt "stopped").
Proof.
  intros env.
  destruct (raise_for_error_category_index env (RcInt 1) 9 eq_refl
              ltac:(discriminate) eq_refl) as (_ & _ & _ & H & _).
  apply H. right. reflexivity.
Defined.

(** ** Failures around the session *)

(** X6: when the constructor returns [NULL], the body of the [with] block
    is not run and the destructor is not called.  With an error object
    whose message decodes, the trace is the constructor call followed by
    message, category and free, and the exception is the one the category
    selects; with one whose message does not decode, the trace stops after
    the message was fetched and the exception is [UnicodeDecodeError];
    without an error object the exception is [RuntimeError] whose message
    quotes the code as [True]. *)
Theorem get_model_null_handle (env : Env) {A} (data : StanData) (seed : Z)
    (body : Z -> M A) (payload : string) (err : Z) :
  encode_stan_json env data = ret payload ->
  tinystan_create_model env payload seed = (NULL, err) ->
  (err = NULL ->
   _get_model env data seed body
   = ([EvCreateModel payload seed],
      Raise (mkExn RuntimeError "Unknown error, function returned code True")))
  /\ (err <> NULL ->
      utf8_valid (tinystan_get_error_message env err) = true ->
      trace (_get_model env data seed body)
      = [EvCreateModel payload seed; EvGetErrorMsg err; EvGetErrorType err;
         EvFreeError err]
      /\ forall cat,
           tinystan_get_error_type env err = category_code cat ->
           result (_get_model env data seed body)
           = Raise (mkExn (category_exception cat)
                      (tinystan_get_error_message env err)))
  /\ (err <> NULL ->
      utf8_valid (tinystan_get_error_message env err) = false ->
      trace (_get_model env data seed body)
      = [EvCreateModel payload seed; EvGetErrorMsg err]
      /\ exists text,
           result (_get_model env data seed body)
           = Raise (mkExn UnicodeDecodeError text)).
Proof.
  intros He Hc. unfold _get_model.
  rewrite (bind_ok _ _ _ _ He). cbn [trace result fst snd app].
  rewrite (bind_ok _ _ [EvCreateModel payload seed] tt eq_refl).
  cbn [trace result fst snd app]. rewrite Hc. cbn [Z.eqb NULL].
  split; [|split].
  - intros ->. reflexivity.
  - intros Hne Hv.
    rewrite (bind_raise _ _ _ _
               (raise_for_error_decoded env (RcBool true) err eq_refl Hne Hv)).
    cbn [trace result fst snd]. split; [reflexivity|].
    intros cat Hcat. rewrite Hcat. destruct cat; reflexivity.
  - intros Hne Hv.
    rewrite (bind_raise _ _ _ _
               (raise_for_error_undecoded env (RcBool true) err eq_refl
                  Hne Hv)).
    cbn [trace result fst snd]. split; [reflexivity|].
    eexists. reflexivity.
Qed.

Lemma get_model_null_handle_witness :
  sample (demo_env "a,b" 2 NULL)
    (demo_sample_args 4 10 10 (Some 3) DIAGONAL None)
  = ([EvCreateModel "" 3; EvGetErrorMsg 77; EvGetErrorType 77;
      EvFreeError 77],
     Raise (mkExn ValueError "bad data")).
Proof.
  pose proof (get_model_null_handle (demo_env "a,b" 2 NULL) (DataStr "") 3
                (sample_body (demo_env "a,b" 2 NULL)
                   (demo_sample_args 4 10 10 (Some 3) DIAGONAL None) 3)
                "" 77 eq_refl eq_refl) as (_ & H & _).
  destruct (H ltac:(discriminate) eq_refl) as (Ht & Hr).
  specialize (Hr InvalidArgument eq_refl).
  unfold sample. simpl Z.ltb. cbv iota.
  rewrite (bind_ok _ _ [] 3 eq_refl).
  change (sa_data (demo_sample_args 4 10 10 (Some 3) DIAGONAL None))
    with (DataStr "").
  destruct (_get_model (demo_env "a,b" 2 NULL) (DataStr "") 3
              (sample_body (demo_env "a,b" 2 NULL)
                 (demo_sample_args 4 10 10 (Some 3) DIAGONAL None) 3))
    as [t r].
  simpl in Ht, Hr. subst t r. reflexivity.
Defined.

(** X7: [sample] on a model that reports zero free parameters raises
    [ValueError("Model has no parameters to sample.")]; the native calls
    made are the constructor, the free-parameter query and the destructor:
    neither the names nor the sampler are asked for. *)
Theorem sample_no_parameters (env : Env) (a : SampleArgs)
    (t0 : list Event) (seed : Z) (payload : string) (model err : Z) :
  1 <= sa_num_chains a -> 0 <= sa_num_warmup a -> 1 <= sa_num_samples a ->
  seed_or_rand_u32 env (sa_seed a) = (t0, Ok seed) ->
  encode_stan_json env (sa_data a) = ret payload ->
  tinystan_create_model env payload seed = (model, err) ->
  model <> NULL ->
  tinystan_model_num_free_params env model = 0 ->
  sample env a
  = (t0 ++ [EvCreateModel payload seed; EvNumFreeParams model;
            EvDestroyModel model],
     Raise (mkExn ValueError "Model has no parameters to sample.")).
Proof.
  intros Hc Hw Hs Hseed He Hcr Hn H0.
  unfold sample. apply Z.ltb_ge in Hc, Hw, Hs. rewrite Hc, Hw, Hs.
  rewrite (invoker_run env _ _ _ _ t0 seed payload model err Hseed He Hcr Hn).
  unfold sample_body, _num_free_params. simpl. rewrite H0. reflexivity.
Qed.

Lemma sample_no_parameters_witness :
  sample (demo_env "" 0 5) (demo_sample_args 4 10 10 None DIAGONAL None)
  = ([EvRandU32; EvCreateModel "" 12345; EvNumFreeParams 5;
      EvDestroyModel 5],
     Raise (mkExn ValueError "Model has no parameters to sample.")).
Proof.
  apply (sample_no_parameters (demo_env "" 0 5)
           (demo_sample_args 4 10 10 None DIAGONAL None)
           [EvRandU32] 12345 "" 5 NULL);
    try reflexivity; simpl; try lia; discriminate.
Defined.

(** ** Initial values that do not serialize *)

Lemma mapM_encode_first_failure (env : Env) (l1 l2 : list StanData)
    (segs : list string) (d : StanData) (e : PyExn) :
  Forall2 (fun x s => encode_stan_json env x = ret s) l1 segs ->
  result (encode_stan_json env d) = Raise e ->
  mapM (encode_stan_json env) (l1 ++ d :: l2) = ([], Raise e).
Proof.
  intros H Hd. induction H as [|x s l1 segs Hx _ IH]; simpl.
  - pose proof (encode_stan_json_trace env d) as Ht.
    destruct (encode_stan_json env d) as [t r]. simpl in *. now subst.
  - rewrite Hx, IH. reflexivity.
Qed.

(** X8: in a list of initial values the first element that fails to
    serialize decides the outcome: its exception is raised and there is no
    payload, whatever follows it.  In [sample] this happens inside the
    session, after the two model queries: the session is destroyed and the
    native sampler is not called. *)
Theorem inits_failure_propagates (env : Env) (l1 l2 : list StanData)
    (segs : list string) (d : StanData) (e : PyExn) :
  Forall2 (fun x s => encode_stan_json env x = ret s) l1 segs ->
  result (encode_stan_json env d) = Raise e ->
  (forall chains seed,
      _encode_inits env (Some (InitsPlain (InitsList (l1 ++ d :: l2))))
        chains seed = ([], Raise e))
  /\ (forall a t0 seed payload model err,
        sa_inits a = Some (InitsPlain (InitsList (l1 ++ d :: l2))) ->
        sa_init_inv_metric a = None ->
        1 <= sa_num_chains a -> 0 <= sa_num_warmup a ->
        1 <= sa_num_samples a ->
        seed_or_rand_u32 env (sa_seed a) = (t0, Ok seed) ->
        encode_stan_json env (sa_data a) = ret payload ->
        tinystan_create_model env payload seed = (model, err) ->
        model <> NULL ->
        tinystan_model_num_free_params env model <> 0 ->
        sample env a
        = (t0 ++ [EvCreateModel payload seed; EvNumFreeParams model;
                  EvParamNames model; EvDestroyModel model],
           Raise e)).
Proof.
  intros Hl Hd.
  assert (Hi : forall chains seed,
             _encode_inits env (Some (InitsPlain (InitsList (l1 ++ d :: l2))))
               chains seed = ([], Raise e)).
  { intros chains seed. unfold _encode_inits.
    rewrite (mapM_encode_first_failure env l1 l2 segs d e Hl Hd).
    reflexivity. }
  split; [exact Hi|].
  intros a t0 seed payload model err Ha Hm Hc Hw Hs Hseed He Hcr Hn Hp.
  unfold sample. apply Z.ltb_ge in Hc, Hw, Hs. rewrite Hc, Hw, Hs.
  rewrite (invoker_run env _ _ _ _ t0 seed payload model err Hseed He Hcr Hn).
  assert (Hb : sample_body env a seed model
               = ([EvNumFreeParams model; EvParamNames model], Raise e)).
  { unfold sample_body, _num_free_params.
    rewrite (bind_ok _ _ [EvNumFreeParams model]
               (tinystan_model_num_free_params env model) eq_refl).
    apply Z.eqb_neq in Hp. rewrite Hp.
    destruct (get_parameter_names_total env model) as (names & Hg).
    rewrite (bind_ok _ _ [] tt eq_refl), (bind_ok _ _ _ _ Hg).
    cbv beta zeta. rewrite Hm, Ha.
    rewrite (bind_ok (check_init_inv_metric None _ _) _ [] None eq_refl).
    rewrite (bind_raise _ _ _ _ (Hi (sa_num_chains a) seed)).
    reflexivity. }
  rewrite Hb. reflexivity.
Qed.

Lemma inits_failure_propagates_witness :
  let env :=
    mkEnv "028"%char (fun _ _ => (5, NULL)) (fun _ => "a,b") (fun _ => 2)
      (fun _ => "") (fun _ => 0)
      (fun _ => quiet_return) (fun _ => quiet_return)
      (fun _ => quiet_return) (fun _ => quiet_return)
      (fun _ => "{}")
      (fun p => if String.eqb p "missing.json"
                then Some (mkExn OtherError "File does not exist")
                else None)
      (fun _ _ _ => InitsOne (DataStr "{}")) 0 in
  _encode_inits env
    (Some (InitsPlain
             (InitsList [DataStr "{}"; DataPath "missing.json";
                         DataStr "{}"]))) 3 1
  = ([], Raise (mkExn OtherError "File does not exist")).
Proof.
  intros env.
  apply (inits_failure_propagates env [DataStr "{}"] [DataStr "{}"] ["{}"]
           (DataPath "missing.json")
           (mkExn OtherError "File does not exist")).
  - repeat constructor.
  - reflexivity.
Defined.

(** ** What each method hands to its inference entry point *)

Lemma in_emit_inv (e x : Event) : In x (trace (emit e)) -> x = e.
Proof. simpl. intros [H|[]]. now symmetry. Qed.

Lemma sample_body_call_record (env : Env) (a : SampleArgs) (seed model : Z)
    (c : SampleCall) :
  In (EvSample c) (trace (sample_body env a seed model)) ->
  exists names init_inv_metric inits,
    _get_parameter_names env model = ([EvParamNames model], Ok names)
    /\ tinystan_model_num_free_params env model <> 0
    /\ c = mkSampleCall model (sa_num_chains a) inits seed (sa_tuning a)
             (sa_num_warmup a) (sa_num_samples a)
             (HMCMetric_value (sa_metric a)) init_inv_metric
             (sa_save_warmup a)
             (np_zeros [sa_num_chains a;
                        sa_num_samples a
                        + sa_num_warmup a * bool_int (sa_save_warmup a);
                        len (HMC_SAMPLER_VARIABLES ++ names)])
             (size (np_zeros
                      [sa_num_chains a;
                       sa_num_samples a
                       + sa_num_warmup a * bool_int (sa_save_warmup a);
                       len (HMC_SAMPLER_VARIABLES ++ names)]))
             (if sa_save_metric a
              then Some (np_zeros
                           (sa_num_chains a
                            :: metric_shape (sa_metric a)
                                 (tinystan_model_num_free_params env model)))
              else None).
Proof.
  unfold sample_body. intros H.
  apply in_trace_bind in H as [H|(t & p & Hp & H)].
  { apply in_emit_inv in H. discriminate. }
  unfold _num_free_params in Hp. simpl in Hp. injection Hp as <- <-.
  apply in_trace_bind in H as [H|(t & [] & Hz & H)].
  { destruct (_ =? 0); simpl in H; contradiction. }
  destruct (_ =? 0) eqn:Ez; [discriminate|]. apply Z.eqb_neq in Ez.
  destruct (get_parameter_names_total env model) as (names' & Hg').
  apply in_trace_bind in H as [H|(t1 & names & Hg & H)].
  { rewrite Hg' in H. apply in_emit_inv in H. discriminate. }
  rewrite Hg' in Hg. injection Hg as <- <-.
  apply in_trace_bind in H as [H|(t2 & iim & Hm & H)].
  { rewrite check_init_inv_metric_trace in H. contradiction. }
  apply in_trace_bind in H as [H|(t3 & inits & Hi & H)].
  { rewrite encode_inits_trace in H. contradiction. }
  apply in_trace_bind in H as [H|(t4 & [] & _ & H)].
  - apply in_emit_inv in H. injection H as ->.
    exists names', iim, inits. auto.
  - apply in_trace_bind in H as [H|(t5 & [] & _ & H)].
    + apply raise_for_error_events in H. discriminate.
    + simpl in H. contradiction.
Qed.

Lemma pathfinder_body_call_record (env : Env) (a : PathfinderArgs)
    (n seed model : Z) (c : PathfinderCall) :
  In (EvPathfinder c) (trace (pathfinder_body env a n seed model)) ->
  exists names inits,
    _get_parameter_names env model = ([EvParamNames model], Ok names)
    /\ tinystan_model_num_free_params env model <> 0
    /\ c = mkPathfinderCall model (pa_num_paths a) inits seed (pa_tuning a)
             (pa_num_draws a) (pa_num_multi_draws a) (pa_calculate_lp a)
             (pa_psis_resample a)
             (np_zeros [n; len (PATHFINDER_VARIABLES ++ names)])
             (size (np_zeros [n; len (PATHFINDER_VARIABLES ++ names)])).
Proof.
  unfold pathfinder_body. intros H.
  apply in_trace_bind in H as [H|(t & p & Hp & H)].
  { apply in_emit_inv in H. discriminate. }
  unfold _num_free_params in Hp. simpl in Hp. injection Hp as <- <-.
  apply in_trace_bind in H as [H|(t & [] & Hz & H)].
  { destruct (_ =? 0); simpl in H; contradiction. }
  destruct (_ =? 0) eqn:Ez; [discriminate|]. apply Z.eqb_neq in Ez.
  destruct (get_parameter_names_total env model) as (names' & Hg').
  apply in_trace_bind in H as [H|(t1 & names & Hg & H)].
  { rewrite Hg' in H. apply in_emit_inv in H. discriminate. }
  rewrite Hg' in Hg. injection Hg as <- <-.
  apply in_trace_bind in H as [H|(t3 & inits & Hi & H)].
  { rewrite encode_inits_trace in H. contradiction. }
  apply in_trace_bind in H as [H|(t4 & [] & _ & H)].
  - apply in_emit_inv in H. injection H as ->.
    exists names', inits. auto.
  - apply in_trace_bind in H as [H|(t5 & [] & _ & H)].
    + apply raise_for_error_events in H. discriminate.
    + simpl in H. contradiction.
Qed.

Lemma optimize_body_call_record (env : Env) (a : OptimizeArgs)
    (seed model : Z) (c : OptimizeCall) :
  In (EvOptimize c) (trace (optimize_body env a seed model)) ->
  exists names inits,
    _get_parameter_names env model = ([EvParamNames model], Ok names)
    /\ c = mkOptimizeCall model inits seed
             (OptimizationAlgorithm_value (oa_algorithm a)) (oa_tuning a)
             (np_zeros [len (OPTIMIZE_VARIABLES ++ names)])
             (size (np_zeros [len (OPTIMIZE_VARIABLES ++ names)])).
Proof.
  unfold optimize_body. intros H.
  destruct (get_parameter_names_total env model) as (names' & Hg').
  apply in_trace_bind in H as [H|(t1 & names & Hg & H)].
  { rewrite Hg' in H. apply in_emit_inv in H. discriminate. }
  rewrite Hg' in Hg. injection Hg as <- <-.
  apply in_trace_bind in H as [H|(t3 & inits & Hi & H)].
  { rewrite encode_inits_trace in H. contradiction. }
  apply in_trace_bind in H as [H|(t4 & [] & _ & H)].
  - apply in_emit_inv in H. injection H as ->.
    exists names', inits. auto.
  - apply in_trace_bind in H as [H|(t5 & [] & _ & H)].
    + apply raise_for_error_events in H. discriminate.
    + simpl in H. contradiction.
Qed.

Lemma laplace_body_call_record (env : Env) (a : LaplaceArgs)
    (ma : option ndarray) (mj : option string) (seed model : Z)
    (c : LaplaceCall) :
  In (EvLaplace c) (trace (laplace_body env a ma mj seed model)) ->
  exists names,
    _get_parameter_names env model = ([EvParamNames model], Ok names)
    /\ (forall m, ma = Some m -> np_len m = Some (len names))
    /\ c = mkLaplaceCall model ma mj seed (la_num_draws a) (la_jacobian a)
             (la_calculate_lp a) (la_refresh a) (la_num_threads a)
             (np_zeros [la_num_draws a; len (LAPLACE_VARIABLES ++ names)])
             (size (np_zeros
                      [la_num_draws a; len (LAPLACE_VARIABLES ++ names)]))
             (if la_save_hessian a
              then Some (np_zeros
                           [tinystan_model_num_free_params env model;
                            tinystan_model_num_free_params env model])
              else None).
Proof.
  unfold laplace_body. intros H.
  destruct (get_parameter_names_total env model) as (names' & Hg').
  apply in_trace_bind in H as [H|(t1 & names & Hg & H)].
  { rewrite Hg' in H. apply in_emit_inv in H. discriminate. }
  rewrite Hg' in Hg. injection Hg as <- <-.
  apply in_trace_bind in H as [H|(t2 & [] & Hchk & H)].
  { destruct ma as [m|]; [|contradiction].
    destruct (np_len m) as [k|]; [|contradiction].
    destruct (negb _); contradiction. }
  apply in_trace_bind in H as [H|(t3 & p & Hp & H)].
  { apply in_emit_inv in H. discriminate. }
  unfold _num_free_params in Hp. simpl in Hp. injection Hp as <- <-.
  apply in_trace_bind in H as [H|(t4 & [] & _ & H)].
  - apply in_emit_inv in H. injection H as ->.
    exists names'. split; [exact Hg'|]. split; [|reflexivity].
    intros m ->. destruct (np_len m) as [k|]; [|discriminate].
    destruct (k =? _) eqn:E; [|discriminate].
    apply Z.eqb_eq in E. f_equal. rewrite E. unfold len.
    rewrite length_app. simpl List.length. lia.
  - apply in_trace_bind in H as [H|(t5 & [] & _ & H)].
    + apply raise_for_error_events in H. discriminate.
    + simpl in H. contradiction.
Qed.

Lemma sample_call_inv (env : Env) (a : SampleArgs) (c : SampleCall) :
  In (EvSample c) (trace (sample env a)) ->
  1 <= sa_num_chains a /\ 0 <= sa_num_warmup a /\ 1 <= sa_num_samples a
  /\ exists t0 seed payload model err,
      seed_or_rand_u32 env (sa_seed a) = (t0, Ok seed)
      /\ encode_stan_json env (sa_data a) = ret payload
      /\ tinystan_create_model env payload seed = (model, err)
      /\ model <> NULL
      /\ In (EvSample c) (trace (sample_body env a seed model)).
Proof.
  unfold sample. intros H.
  destruct (sa_num_chains a <? 1) eqn:Hc; [simpl in H; contradiction|].
  destruct (sa_num_warmup a <? 0) eqn:Hw; [simpl in H; contradiction|].
  destruct (sa_num_samples a <? 1) eqn:Hs; [simpl in H; contradiction|].
  apply Z.ltb_ge in Hc, Hw, Hs. repeat (split; [assumption|]).
  apply invoker_inference_inv in H;
    [exact H | intros [[pn o] mo]; reflexivity | reflexivity].
Qed.

Lemma pathfinder_call_inv (env : Env) (a : PathfinderArgs)
    (c : PathfinderCall) :
  In (EvPathfinder c) (trace (pathfinder env a)) ->
  1 <= pa_num_draws a /\ 1 <= pa_num_paths a /\ 1 <= pa_num_multi_draws a
  /\ exists t0 seed payload model err,
      seed_or_rand_u32 env (pa_seed a) = (t0, Ok seed)
      /\ encode_stan_json env (pa_data a) = ret payload
      /\ tinystan_create_model env payload seed = (model, err)
      /\ model <> NULL
      /\ In (EvPathfinder c)
           (trace (pathfinder_body env a
                     (if pa_calculate_lp a && pa_psis_resample a
                      then pa_num_multi_draws a
                      else pa_num_draws a * pa_num_paths a) seed model)).
Proof.
  unfold pathfinder. intros H.
  destruct (pa_num_draws a <? 1) eqn:Hd; [simpl in H; contradiction|].
  destruct (pa_num_paths a <? 1) eqn:Hp; [simpl in H; contradiction|].
  destruct (pa_num_multi_draws a <? 1) eqn:Hm; [simpl in H; contradiction|].
  apply Z.ltb_ge in Hd, Hp, Hm. repeat (split; [assumption|]).
  apply invoker_inference_inv in H; [exact H | reflexivity | reflexivity].
Qed.

Lemma optimize_call_inv (env : Env) (a : OptimizeArgs) (c : OptimizeCall) :
  In (EvOptimize c) (trace (optimize env a)) ->
  exists t0 seed payload model err,
    seed_or_rand_u32 env (oa_seed a) = (t0, Ok seed)
    /\ encode_stan_json env (oa_data a) = ret payload
    /\ tinystan_create_model env payload seed = (model, err)
    /\ model <> NULL
    /\ In (EvOptimize c) (trace (optimize_body env a seed model)).
Proof.
  unfold optimize. intros H.
  apply invoker_inference_inv in H; [exact H | reflexivity | reflexivity].
Qed.

Lemma laplace_call_inv (env : Env) (a : LaplaceArgs) (c : LaplaceCall) :
  In (EvLaplace c) (trace (laplace_sample env a)) ->
  1 <= la_num_draws a
  /\ exists t0 seed ma mj payload model err,
      seed_or_rand_u32 env (la_seed a) = (t0, Ok seed)
      /\ preprocess_laplace_inputs env (la_mode a) = ret (ma, mj)
      /\ encode_stan_json env (la_data a) = ret payload
      /\ tinystan_create_model env payload seed = (model, err)
      /\ model <> NULL
      /\ In (EvLaplace c) (trace (laplace_body env a ma mj seed model)).
Proof.
  unfold laplace_sample. intros H.
  destruct (la_num_draws a <? 1) eqn:Hd; [simpl in H; contradiction|].
  apply Z.ltb_ge in Hd. split; [assumption|].
  destruct (seed_or_rand_u32_total env (la_seed a)) as (t0 & seed & Hs & Hq).
  rewrite (bind_ok _ _ _ _ Hs) in H. simpl fst in H.
  apply in_app_or in H as [H|H].
  { rewrite Forall_forall in Hq. apply Hq in H. discriminate. }
  pose proof (preprocess_laplace_inputs_trace env (la_mode a)) as Hp.
  destruct (preprocess_laplace_inputs env (la_mode a)) as [tp [[ma mj]|e]]
    eqn:Ep; simpl in Hp; subst tp; [|contradiction].
  rewrite trace_bind in H. cbn [trace result fst snd app] in H.
  rewrite trace_bind_silent in H by now intros [[pn o] ho].
  destruct (get_model_cases env (la_data a) seed
              (laplace_body env a ma mj seed))
    as [(x & _ & E)|[(p & er & t & x & _ & _ & Hr & E)|
                     (p & m & er & He & Hc & Hn & E)]];
    rewrite E in H; simpl in H.
  - contradiction.
  - destruct H as [H|H]; [discriminate|].
    change t with (trace (t, @Raise unit x)) in H. rewrite <- Hr in H.
    apply raise_for_error_events in H. discriminate.
  - destruct H as [H|H]; [discriminate|].
    apply in_app_or in H as [H|[H|[]]]; [|discriminate].
    exists t0, seed, ma, mj, p, m, er. auto 10.
Qed.

(** ** Output buffers *)

Lemma np_zeros_spec (sh : list Z) :
  0 <= fold_right Z.mul 1 sh ->
  shape (np_zeros sh) = sh
  /\ size (np_zeros sh) = len (flat (np_zeros sh))
  /\ Forall (fun x => x = 0%float) (flat (np_zeros sh)).
Proof.
  intros H. unfold np_zeros, size, len. simpl.
  split; [reflexivity|]. split.
  - rewrite repeat_length. now rewrite Z2Nat.id.
  - apply Forall_forall. intros x Hx. now apply repeat_spec in Hx.
Qed.

Lemma len_app_fixed (fixed names : list string) :
  len (fixed ++ names) = len fixed + len names.
Proof. unfold len. rewrite length_app. lia. Qed.

Lemma len_nonneg {A} (l : list A) : 0 <= len l.
Proof. unfold len. lia. Qed.

(** X9: every inference entry point is handed a zero-filled output buffer
    together with an element count that is the product of the buffer's
    shape and the true length of its memory, and that is at least one. *)
Theorem output_buffer_sized (env : Env) :
  (forall a c, In (EvSample c) (trace (sample env a)) ->
     sc_out_size c = size (sc_out c)
     /\ sc_out_size c = len (flat (sc_out c))
     /\ 1 <= sc_out_size c
     /\ Forall (fun x => x = 0%float) (flat (sc_out c)))
  /\ (forall a c, In (EvPathfinder c) (trace (pathfinder env a)) ->
     pc_out_size c = size (pc_out c)
     /\ pc_out_size c = len (flat (pc_out c))
     /\ 1 <= pc_out_size c
     /\ Forall (fun x => x = 0%float) (flat (pc_out c)))
  /\ (forall a c, In (EvOptimize c) (trace (optimize env a)) ->
     oc_out_size c = size (oc_out c)
     /\ oc_out_size c = len (flat (oc_out c))
     /\ 1 <= oc_out_size c
     /\ Forall (fun x => x = 0%float) (flat (oc_out c)))
  /\ (forall a c, In (EvLaplace c) (trace (laplace_sample env a)) ->
     lc_out_size c = size (lc_out c)
     /\ lc_out_size c = len (flat (lc_out c))
     /\ 1 <= lc_out_size c
     /\ Forall (fun x => x = 0%float) (flat (lc_out c))).
Proof.
  split; [|split; [|split]].
  - intros a c H.
    apply sample_call_inv in H
      as (Hc & Hw & Hs & t0 & seed & p & m & er & _ & _ & _ & _ & H).
    apply sample_body_call_record in H as (names & iim & inits & _ & _ & ->).
    cbn [sc_out sc_out_size].
    pose proof (len_nonneg names) as Hn.
    assert (Hb : 0 <= bool_int (sa_save_warmup a) <= 1)
      by (destruct (sa_save_warmup a); simpl; lia).
    assert (Hpos : 1 <= size (np_zeros
                     [sa_num_chains a;
                      sa_num_samples a
                      + sa_num_warmup a * bool_int (sa_save_warmup a);
                      len (HMC_SAMPLER_VARIABLES ++ names)])).
    { unfold size. cbn [np_zeros shape fold_right].
      rewrite len_app_fixed. change (len HMC_SAMPLER_VARIABLES) with 7.
      nia. }
    destruct (np_zeros_spec
                [sa_num_chains a;
                 sa_num_samples a
                 + sa_num_warmup a * bool_int (sa_save_warmup a);
                 len (HMC_SAMPLER_VARIABLES ++ names)]) as (_ & Hsz & Hz).
    { unfold size in Hpos. cbn [np_zeros shape] in Hpos. lia. }
    auto.
  - intros a c H.
    apply pathfinder_call_inv in H
      as (Hd & Hp & Hm & t0 & seed & p & m & er & _ & _ & _ & _ & H).
    apply pathfinder_body_call_record in H as (names & inits & _ & _ & ->).
    cbn [pc_out pc_out_size].
    pose proof (len_nonneg names) as Hn.
    set (n := if pa_calculate_lp a && pa_psis_resample a
              then pa_num_multi_draws a
              else pa_num_draws a * pa_num_paths a) in *.
    assert (Hn1 : 1 <= n)
      by (subst n; destruct (_ && _); nia).
    assert (Hpos : 1 <= size (np_zeros
                                [n; len (PATHFINDER_VARIABLES ++ names)])).
    { unfold size. cbn [np_zeros shape fold_right].
      rewrite len_app_fixed. change (len PATHFINDER_VARIABLES) with 2.
      nia. }
    destruct (np_zeros_spec [n; len (PATHFINDER_VARIABLES ++ names)])
      as (_ & Hsz & Hz).
    { unfold size in Hpos. cbn [np_zeros shape] in Hpos. lia. }
    auto.
  - intros a c H.
    apply optimize_call_inv in H
      as (t0 & seed & p & m & er & _ & _ & _ & _ & H).
    apply optimize_body_call_record in H as (names & inits & _ & ->).
    cbn [oc_out oc_out_size].
    pose proof (len_nonneg names) as Hn.
    assert (Hpos : 1 <= size (np_zeros
                                [len (OPTIMIZE_VARIABLES ++ names)])).
    { unfold size. cbn [np_zeros shape fold_right].
      rewrite len_app_fixed. change (len OPTIMIZE_VARIABLES) with 1.
      lia. }
    destruct (np_zeros_spec [len (OPTIMIZE_VARIABLES ++ names)])
      as (_ & Hsz & Hz).
    { unfold size in Hpos. cbn [np_zeros shape] in Hpos. lia. }
    auto.
  - intros a c H.
    apply laplace_call_inv in H
      as (Hd & t0 & seed & ma & mj & p & m & er & _ & _ & _ & _ & _ & H).
    apply laplace_body_call_record in H as (names & _ & _ & ->).
    cbn [lc_out lc_out_size].
    pose proof (len_nonneg names) as Hn.
    assert (Hpos : 1 <= size (np_zeros
                     [la_num_draws a; len (LAPLACE_VARIABLES ++ names)])).
    { unfold size. cbn [np_zeros shape fold_right].
      rewrite len_app_fixed. change (len LAPLACE_VARIABLES) with 2.
      nia. }
    destruct (np_zeros_spec
                [la_num_draws a; len (LAPLACE_VARIABLES ++ names)])
      as (_ & Hsz & Hz).
    { unfold size in Hpos. cbn [np_zeros shape] in Hpos. lia. }
    auto.
Qed.

Lemma output_buffer_sized_witness :
  exists c,
    In (EvSample c)
      (trace (sample (demo_env "a,b" 2 5)
                (demo_sample_args 1 0 1 (Some 1) DIAGONAL None)))
    /\ sc_out_size c = 9 /\ len (flat (sc_out c)) = 9.
Proof.
  assert (Hin : exists c,
             In (EvSample c)
               (trace (sample (demo_env "a,b" 2 5)
                         (demo_sample_args 1 0 1 (Some 1) DIAGONAL None))))
    by (eexists; vm_compute; do 3 right; left; reflexivity).
  destruct Hin as [c Hin]. exists c. split; [exact Hin|].
  destruct (output_buffer_sized (demo_env "a,b" 2 5)) as (Hs & _).
  destruct (Hs _ c Hin) as (_ & Hlen & _).
  apply sample_call_inv in Hin as (_ & _ & _ & t0 & seed & p & m & er
                                   & _ & _ & _ & _ & Hin).
  apply sample_body_call_record in Hin
    as (names & iim & inits & Hn & _ & Hc).
  vm_compute in Hn. injection Hn as <-.
  rewrite <- Hlen. rewrite Hc. split; reflexivity.
Defined.

(** ** The session around the sampler call *)

Lemma last_app_single {A} (l : list A) (x d : A) : last (l ++ [x]) d = x.
Proof. apply last_last. Qed.

Lemma c_uint_small (z : Z) : 0 <= z < 2 ^ 32 -> c_uint z = z.
Proof. intros H. unfold c_uint. now apply Z.mod_small. Qed.

Lemma c_size_t_small (z : Z) : 0 <= z < 2 ^ 64 -> c_size_t z = z.
Proof. intros H. unfold c_size_t. now apply Z.mod_small. Qed.

Lemma c_int_small (z : Z) : - 2 ^ 31 <= z < 2 ^ 31 -> c_int z = z.
Proof. intros H. unfold c_int. rewrite Z.mod_small; lia. Qed.

(** X10: the call to the native sampler is made on the handle that the
    constructor returned for the same seed, and the destructor call on that
    handle is the last event of the invocation.  Python passes
    [num_chains], [num_warmup], [num_samples], the metric's number,
    [save_warmup] and the tuning arguments as given, and a supplied
    non-zero seed as the seed.  The C function receives them through the
    conversions of [argtypes], which keep the low bits: the seed modulo
    2^32, [num_chains] modulo 2^64, [num_warmup] and [num_samples] as
    two's-complement 32-bit values; so it receives the given value exactly
    when that value is in the range of the C type, and the metric's number
    always. *)
Theorem sample_call_context (env : Env) (a : SampleArgs) (c : SampleCall) :
  In (EvSample c) (trace (sample env a)) ->
  (exists payload err,
      In (EvCreateModel payload (sc_seed c)) (trace (sample env a))
      /\ tinystan_create_model env payload (sc_seed c) = (sc_model c, err))
  /\ sc_model c <> NULL
  /\ last (trace (sample env a)) EvRandU32 = EvDestroyModel (sc_model c)
  /\ (sc_num_chains c = sa_num_chains a
      /\ sc_num_warmup c = sa_num_warmup a
      /\ sc_num_samples c = sa_num_samples a
      /\ sc_metric c = HMCMetric_value (sa_metric a)
      /\ sc_save_warmup c = sa_save_warmup a
      /\ sc_tuning c = sa_tuning a
      /\ (forall s, sa_seed a = Some s -> s <> 0 -> sc_seed c = s))
  /\ (let r := received_sample c in
      sc_model r = sc_model c
      /\ sc_num_chains r = sa_num_chains a mod 2 ^ 64
      /\ sc_num_warmup r = c_int (sa_num_warmup a)
      /\ sc_num_samples r = c_int (sa_num_samples a)
      /\ sc_metric r = HMCMetric_value (sa_metric a)
      /\ sc_save_warmup r = sa_save_warmup a
      /\ sc_tuning r = received_hmc (sa_tuning a)
      /\ (forall s, sa_seed a = Some s -> s <> 0 ->
          sc_seed r = s mod 2 ^ 32)
      /\ (forall s, sa_seed a = Some s -> 0 < s < 2 ^ 32 -> sc_seed r = s)
      /\ (sa_num_chains a < 2 ^ 64 -> sc_num_chains r = sa_num_chains a)
      /\ (sa_num_warmup a < 2 ^ 31 -> sc_num_warmup r = sa_num_warmup a)
      /\ (sa_num_samples a < 2 ^ 31 -> sc_num_samples r = sa_num_samples a)).
Proof.
  intros H.
  destruct (sample_call_inv env a c H)
    as (Hc & Hw & Hs & t0 & seed & p & m & er & Hseed & He & Hcr & Hn & Hb).
  apply sample_body_call_record in Hb as (names & iim & inits & _ & _ & ->).
  cbn [received_sample sc_seed sc_model sc_num_chains sc_num_warmup
       sc_num_samples sc_metric sc_save_warmup sc_tuning].
  assert (E : trace (sample env a)
              = (t0 ++ EvCreateModel p seed
                   :: trace (sample_body env a seed m))
                ++ [EvDestroyModel m]).
  { unfold sample. apply Z.ltb_ge in Hc, Hw, Hs. rewrite Hc, Hw, Hs.
    rewrite (invoker_run env _ _ _ _ t0 seed p m er Hseed He Hcr Hn).
    destruct (sample_body env a seed m) as [tb [[[pn o] mo]|x]];
      cbn [trace fst result snd];
      [rewrite app_nil_r|]; rewrite <- app_assoc; reflexivity. }
  assert (Hsup : forall s, sa_seed a = Some s -> s <> 0 -> seed = s).
  { intros s Hsome Hnz. rewrite Hsome in Hseed.
    rewrite (seed_or_rand_u32_supplied env s Hnz) in Hseed. congruence. }
  split; [|split; [exact Hn|split; [|split]]].
  - exists p, er. split; [|exact Hcr].
    rewrite E. apply in_or_app. left. apply in_or_app. right. now left.
  - rewrite E. apply last_app_single.
  - repeat split. exact Hsup.
  - repeat split.
    + destruct (sa_metric a); reflexivity.
    + intros s Hsome Hnz. rewrite (Hsup s Hsome Hnz). reflexivity.
    + intros s Hsome Hr. rewrite (Hsup s Hsome) by lia.
      apply c_uint_small. lia.
    + intros Hr. apply c_size_t_small. lia.
    + intros Hr. apply c_int_small. lia.
    + intros Hr. apply c_int_small. lia.
Qed.

Lemma sample_call_context_witness :
  (exists c,
      In (EvSample c)
        (trace (sample (demo_env "a,b" 2 5)
                  (demo_sample_args 1 0 1 (Some 9) DIAGONAL None)))
      /\ sc_seed (received_sample c) = 9 /\ sc_model c <> NULL)
  /\ (exists c,
        In (EvSample c)
          (trace (sample (demo_env "a,b" 2 5)
                    (demo_sample_args 1 0 1 (Some (2 ^ 32 + 9)) DIAGONAL
                       None)))
        /\ sc_seed c = 2 ^ 32 + 9
        /\ sc_seed (received_sample c) = 9).
Proof.
  split.
  - assert (Hin : exists c,
               In (EvSample c)
                 (trace (sample (demo_env "a,b" 2 5)
                           (demo_sample_args 1 0 1 (Some 9) DIAGONAL None))))
      by (eexists; vm_compute; do 3 right; left; reflexivity).
    destruct Hin as [c Hin]. exists c. split; [exact Hin|].
    destruct (sample_call_context _ _ c Hin)
      as (_ & Hn & _ & _ & _ & _ & _ & _ & _ & _ & _ & _ & Hs & _).
    split; [|exact Hn]. apply Hs; [reflexivity | lia].
  - assert (Hin : exists c,
               In (EvSample c)
                 (trace (sample (demo_env "a,b" 2 5)
                           (demo_sample_args 1 0 1 (Some (2 ^ 32 + 9))
                              DIAGONAL None))))
      by (eexists; vm_compute; do 3 right; left; reflexivity).
    destruct Hin as [c Hin]. exists c. split; [exact Hin|].
    destruct (sample_call_context _ _ c Hin)
      as (_ & _ & _ & (_ & _ & _ & _ & _ & _ & Hp)
          & _ & _ & _ & _ & _ & _ & _ & Hs & _).
    split.
    + apply Hp; [reflexivity | discriminate].
    + rewrite (Hs (2 ^ 32 + 9)); [reflexivity | reflexivity | discriminate].
Defined.

(** ** Results of the other methods *)

Lemma written_shape (a : ndarray) (w : nat -> float) :
  shape (written a w) = shape a
  /\ List.length (flat (written a w)) = List.length (flat a).
Proof.
  split; [reflexivity|]. unfold written. simpl.
  now rewrite length_map, length_seq.
Qed.

Lemma pathfinder_body_ok_inv (env : Env) (a : PathfinderArgs)
    (n seed model : Z) (tb : list Event) (param_names : list string)
    (out : ndarray) :
  pathfinder_body env a n seed model = (tb, Ok (param_names, out)) ->
  tinystan_model_num_free_params env model <> 0
  /\ exists names,
       _get_parameter_names env model = ([EvParamNames model], Ok names)
       /\ In (EvParamNames model) tb
       /\ param_names = PATHFINDER_VARIABLES ++ names
       /\ shape out = [n; len (PATHFINDER_VARIABLES ++ names)].
Proof.
  unfold pathfinder_body. intros H.
  apply bind_ok_inv in H as (t1 & p & t2 & Hp & H & ->).
  unfold _num_free_params in Hp. simpl in Hp. injection Hp as <- <-.
  apply bind_ok_inv in H as (t1 & [] & t3 & Hz & H & ->).
  destruct (_ =? 0) eqn:Ez; [discriminate|]. apply Z.eqb_neq in Ez.
  injection Hz as <-.
  split; [exact Ez|].
  apply bind_ok_inv in H as (t4 & names & t5 & Hg & H & ->).
  destruct (get_parameter_names_total env model) as (names' & Hg').
  rewrite Hg' in Hg. injection Hg as <- <-.
  exists names'. split; [exact Hg'|]. split; [simpl; auto|].
  apply bind_ok_inv in H as (t8 & inits & t9 & _ & H & ->).
  apply bind_ok_inv in H as (t10 & [] & t11 & _ & H & ->).
  apply bind_ok_inv in H as (t12 & [] & t13 & _ & H & ->).
  injection H as _ <- <-. split; reflexivity.
Qed.

Lemma optimize_body_ok_inv (env : Env) (a : OptimizeArgs) (seed model : Z)
    (tb : list Event) (param_names : list string) (out : ndarray) :
  optimize_body env a seed model = (tb, Ok (param_names, out)) ->
  exists names,
    _get_parameter_names env model = ([EvParamNames model], Ok names)
    /\ In (EvParamNames model) tb
    /\ param_names = OPTIMIZE_VARIABLES ++ names
    /\ shape out = [len (OPTIMIZE_VARIABLES ++ names)]
    /\ len (flat out) = len (OPTIMIZE_VARIABLES ++ names).
Proof.
  unfold optimize_body. intros H.
  apply bind_ok_inv in H as (t4 & names & t5 & Hg & H & ->).
  destruct (get_parameter_names_total env model) as (names' & Hg').
  rewrite Hg' in Hg. injection Hg as <- <-.
  exists names'. split; [exact Hg'|]. split; [simpl; auto|].
  apply bind_ok_inv in H as (t8 & inits & t9 & _ & H & ->).
  apply bind_ok_inv in H as (t10 & [] & t11 & _ & H & ->).
  apply bind_ok_inv in H as (t12 & [] & t13 & _ & H & ->).
  injection H as _ <- <-. split; [reflexivity|]. split; [reflexivity|].
  pose proof (len_nonneg (OPTIMIZE_VARIABLES ++ names')) as Hn.
  destruct (np_zeros_spec [len (OPTIMIZE_VARIABLES ++ names')])
    as (_ & Hsz & _); [cbn [fold_right]; lia|].
  unfold size in Hsz. cbn [np_zeros shape fold_right] in Hsz.
  unfold len in Hsz, Hn |- *. rewrite (proj2 (written_shape _ _)).
  cbn [np_zeros flat] in Hsz |- *.
  transitivity (Z.of_nat (List.length (OPTIMIZE_VARIABLES ++ names')) * 1);
    [symmetry; exact Hsz | lia].
Qed.

Lemma laplace_body_ok_inv (env : Env) (a : LaplaceArgs)
    (ma : option ndarray) (mj : option string) (seed model : Z)
    (tb : list Event) (param_names : list string) (out : ndarray)
    (hessian_out : option ndarray) :
  laplace_body env a ma mj seed model
  = (tb, Ok (param_names, out, hessian_out)) ->
  exists names,
    _get_parameter_names env model = ([EvParamNames model], Ok names)
    /\ In (EvParamNames model) tb
    /\ param_names = LAPLACE_VARIABLES ++ names
    /\ shape out = [la_num_draws a; len (LAPLACE_VARIABLES ++ names)]
    /\ (forall m, ma = Some m -> np_len m = Some (len names))
    /\ (la_save_hessian a = false -> hessian_out = None)
    /\ (la_save_hessian a = true ->
        exists h, hessian_out = Some h
                  /\ shape h = [tinystan_model_num_free_params env model;
                                tinystan_model_num_free_params env model]).
Proof.
  unfold laplace_body. intros H.
  apply bind_ok_inv in H as (t4 & names & t5 & Hg & H & ->).
  destruct (get_parameter_names_total env model) as (names' & Hg').
  rewrite Hg' in Hg. injection Hg as <- <-.
  exists names'. split; [exact Hg'|]. split; [simpl; auto|].
  apply bind_ok_inv in H as (t6 & [] & t7 & Hchk & H & ->).
  apply bind_ok_inv in H as (t8 & p & t9 & Hp & H & ->).
  unfold _num_free_params in Hp. simpl in Hp. injection Hp as <- <-.
  apply bind_ok_inv in H as (t10 & [] & t11 & _ & H & ->).
  apply bind_ok_inv in H as (t12 & [] & t13 & _ & H & ->).
  injection H as _ <- <- <-.
  split; [reflexivity|]. split; [reflexivity|]. split; [|split].
  - intros m ->. destruct (np_len m) as [k|]; [|discriminate].
    destruct (k =? _) eqn:E; [|discriminate].
    apply Z.eqb_eq in E. f_equal. rewrite E, len_app_fixed.
    change (len LAPLACE_VARIABLES) with 2. lia.
  - intros ->. reflexivity.
  - intros ->. eexists. split; reflexivity.
Qed.

(** X11: whenever [pathfinder] returns, its three size checks have passed,
    the model reports at least one free parameter, the column names are
    [lp_approx__], [lp__] and then the model's parameter names, and the
    buffer has [num_multi_draws] rows when both [calculate_lp] and
    [psis_resample] are set and [num_draws * num_paths] rows otherwise. *)
Theorem pathfinder_result_shape (env : Env) (a : PathfinderArgs)
    (out : StanOutput) :
  result (pathfinder env a) = Ok out ->
  exists model names,
    In (EvParamNames model) (trace (pathfinder env a))
    /\ tinystan_model_num_free_params env model <> 0
    /\ result (_get_parameter_names env model) = Ok names
    /\ out_parameters out = "lp_approx__" :: "lp__" :: names
    /\ shape (out_data out)
       = [if pa_calculate_lp a && pa_psis_resample a
          then pa_num_multi_draws a
          else pa_num_draws a * pa_num_paths a;
          2 + len names]
    /\ out_metric out = None /\ out_hessian out = None
    /\ 1 <= pa_num_draws a /\ 1 <= pa_num_paths a
    /\ 1 <= pa_num_multi_draws a.
Proof.
  intros H.
  destruct (pathfinder env a) as [tr r] eqn:E. simpl in H. subst r.
  unfold pathfinder in E.
  destruct (pa_num_draws a <? 1) eqn:Hd; [discriminate|].
  destruct (pa_num_paths a <? 1) eqn:Hp; [discriminate|].
  destruct (pa_num_multi_draws a <? 1) eqn:Hm; [discriminate|].
  apply Z.ltb_ge in Hd, Hp, Hm.
  apply invoker_ok_inv in E
    as (t0 & seed & payload & model & err & tb & [pn o] & tp
        & _ & _ & _ & _ & Hb & Hpack & ->).
  apply pathfinder_body_ok_inv in Hb
    as (Hfree & names & Hg & Hin & -> & Hshape).
  injection Hpack as <- <-. exists model, names.
  split; [|split; [exact Hfree|split; [now rewrite Hg|]]].
  { simpl. apply in_or_app. right. right.
    apply in_or_app. left. apply in_or_app. now left. }
  cbn [out_parameters out_data out_metric out_hessian new_StanOutput fst snd].
  rewrite Hshape, len_app_fixed. change (len PATHFINDER_VARIABLES) with 2.
  repeat split; assumption.
Qed.

Lemma pathfinder_result_shape_witness :
  let env := demo_env "a,b" 2 5 in
  let a := mkPathfinderArgs (DataStr "") 4 None (Some 7) 3 5 true false
             (pa_tuning demo_pathfinder_args) in
  exists out,
    result (pathfinder env a) = Ok out
    /\ shape (out_data out) = [12; 4].
Proof.
  intros env a.
  assert (E : exists out, result (pathfinder env a) = Ok out)
    by (eexists; vm_compute; reflexivity).
  destruct E as [out E]. exists out. split; [exact E|].
  destruct (pathfinder_result_shape env a out E)
    as (model & names & _ & _ & Hn & _ & Hshape & _).
  rewrite Hshape. vm_compute in Hn. injection Hn as <-. reflexivity.
Defined.

(** X12: whenever [optimize] returns, the result is one vector: [lp__]
    followed by one entry per parameter name of the model. *)
Theorem optimize_result_shape (env : Env) (a : OptimizeArgs)
    (out : StanOutput) :
  result (optimize env a) = Ok out ->
  exists model names,
    In (EvParamNames model) (trace (optimize env a))
    /\ result (_get_parameter_names env model) = Ok names
    /\ out_parameters out = "lp__" :: names
    /\ shape (out_data out) = [1 + len names]
    /\ len (flat (out_data out)) = 1 + len names
    /\ out_metric out = None /\ out_hessian out = None.
Proof.
  intros H.
  destruct (optimize env a) as [tr r] eqn:E. simpl in H. subst r.
  unfold optimize in E.
  apply invoker_ok_inv in E
    as (t0 & seed & payload & model & err & tb & [pn o] & tp
        & _ & _ & _ & _ & Hb & Hpack & ->).
  apply optimize_body_ok_inv in Hb as (names & Hg & Hin & -> & Hshape & Hlen).
  injection Hpack as <- <-. exists model, names.
  split; [|split; [now rewrite Hg|]].
  { simpl. apply in_or_app. right. right.
    apply in_or_app. left. apply in_or_app. now left. }
  cbn [out_parameters out_data out_metric out_hessian new_StanOutput fst snd].
  rewrite Hshape, Hlen, len_app_fixed. change (len OPTIMIZE_VARIABLES) with 1.
  repeat split.
Qed.

Lemma optimize_result_shape_witness :
  let env := demo_env "a,b" 2 5 in
  exists out,
    result (optimize env (demo_optimize_args (Some 3))) = Ok out
    /\ shape (out_data out) = [3].
Proof.
  intros env.
  assert (E : exists out,
             result (optimize env (demo_optimize_args (Some 3))) = Ok out)
    by (eexists; vm_compute; reflexivity).
  destruct E as [out E]. exists out. split; [exact E|].
  destruct (optimize_result_shape env _ out E)
    as (model & names & _ & Hn & _ & Hshape & _).
  rewrite Hshape. vm_compute in Hn. injection Hn as <-. reflexivity.
Defined.

(** X13: whenever [laplace_sample] returns, the buffer has [num_draws] rows
    and a column for [log_p__], [log_q__] and each parameter name; a numeric
    mode had exactly one entry per parameter name; the Hessian is attached,
    with shape [(P, P)] for [P] free parameters, exactly when
    [save_hessian] is set. *)
Theorem laplace_result_shape (env : Env) (a : LaplaceArgs)
    (out : StanOutput) :
  result (laplace_sample env a) = Ok out ->
  exists model names,
    In (EvParamNames model) (trace (laplace_sample env a))
    /\ result (_get_parameter_names env model) = Ok names
    /\ out_parameters out = "log_p__" :: "log_q__" :: names
    /\ shape (out_data out) = [la_num_draws a; 2 + len names]
    /\ 1 <= la_num_draws a
    /\ (forall m, la_mode a = ModeArray m -> np_len m = Some (len names))
    /\ out_metric out = None
    /\ (la_save_hessian a = false -> out_hessian out = None)
    /\ (la_save_hessian a = true ->
        exists h, out_hessian out = Some h
                  /\ shape h = [tinystan_model_num_free_params env model;
                                tinystan_model_num_free_params env model]).
Proof.
  intros H.
  destruct (laplace_sample env a) as [tr r] eqn:E. simpl in H. subst r.
  unfold laplace_sample in E.
  destruct (la_num_draws a <? 1) eqn:Hd; [discriminate|].
  apply Z.ltb_ge in Hd.
  apply bind_ok_inv in E as (t0 & seed & t1 & Hs & E & ->).
  apply bind_ok_inv in E as (tp & [ma mj] & t2 & Hp & E & ->).
  apply bind_ok_inv in E as (tg & [[pn o] ho] & t3 & Hg & Hpack & ->).
  destruct (get_model_cases env (la_data a) seed
              (laplace_body env a ma mj seed))
    as [(x & _ & E)|[(p & er & t & x & _ & _ & _ & E)|
                     (p & model & er & _ & _ & _ & E)]];
    rewrite E in Hg; try discriminate.
  injection Hg as <- Hr.
  destruct (laplace_body env a ma mj seed model) as [tb rb] eqn:Eb.
  simpl in Hr. subst rb.
  apply laplace_body_ok_inv in Eb
    as (names & Hn & Hin & -> & Hshape & Hlen & Hno & Hyes).
  exists model, names.
  split; [|split; [now rewrite Hn|]].
  { cbn [trace fst]. rewrite ?in_app_iff. simpl. rewrite ?in_app_iff.
    tauto. }
  assert (Hout : out_parameters out = LAPLACE_VARIABLES ++ names
                 /\ out_data out = o /\ out_metric out = None
                 /\ out_hessian out
                    = if la_save_hessian a then ho else None).
  { destruct (la_save_hessian a); injection Hpack as _ <-;
      repeat split; reflexivity. }
  destruct Hout as (Hpn & Hdata & Hmet & Hhes).
  rewrite Hpn, Hdata, Hmet, Hhes, Hshape, len_app_fixed.
  change (len LAPLACE_VARIABLES) with 2.
  split; [reflexivity|]. split; [reflexivity|]. split; [exact Hd|].
  split; [|split; [reflexivity|split]].
  - intros m Hm. apply Hlen.
    rewrite Hm in Hp. unfold preprocess_laplace_inputs in Hp. simpl in Hp.
    now injection Hp as _ <- _.
  - intros Hf. now rewrite Hf.
  - intros Ht. rewrite Ht. apply Hyes, Ht.
Qed.

Lemma laplace_result_shape_witness :
  let env := demo_env "a,b" 2 5 in
  let a := demo_laplace_args (ModeArray (mkArray [2] [1; 2]%float)) 3 in
  exists out,
    result (laplace_sample env a) = Ok out
    /\ shape (out_data out) = [3; 4].
Proof.
  intros env a.
  assert (E : exists out, result (laplace_sample env a) = Ok out)
    by (eexists; vm_compute; reflexivity).
  destruct E as [out E]. exists out. split; [exact E|].
  destruct (laplace_result_shape env a out E)
    as (model & names & _ & Hn & _ & Hshape & _).
  rewrite Hshape. vm_compute in Hn. injection Hn as <-. reflexivity.
Defined.

(** ** The metric returned by [sample] *)

Lemma sample_body_ok_metric (env : Env) (a : SampleArgs) (seed model : Z)
    (tb : list Event) (param_names : list string) (out : ndarray)
    (metric_out : option ndarray) :
  sample_body env a seed model = (tb, Ok (param_names, out, metric_out)) ->
  (sa_save_metric a = false -> metric_out = None)
  /\ (sa_save_metric a = true ->
      exists mo, metric_out = Some mo
                 /\ shape mo
                    = sa_num_chains a
                      :: metric_shape (sa_metric a)
                           (tinystan_model_num_free_params env model)).
Proof.
  unfold sample_body. intros H.
  apply bind_ok_inv in H as (t1 & p & t2 & Hp & H & ->).
  unfold _num_free_params in Hp. simpl in Hp. injection Hp as <- <-.
  apply bind_ok_inv in H as (t1 & [] & t3 & _ & H & ->).
  apply bind_ok_inv in H as (t4 & names & t5 & _ & H & ->).
  apply bind_ok_inv in H as (t6 & iim & t7 & _ & H & ->).
  apply bind_ok_inv in H as (t8 & inits & t9 & _ & H & ->).
  apply bind_ok_inv in H as (t10 & [] & t11 & _ & H & ->).
  apply bind_ok_inv in H as (t12 & [] & t13 & _ & H & ->).
  injection H as _ _ _ <-. split.
  - intros ->. reflexivity.
  - intros ->. eexists. split; reflexivity.
Qed.

(** X14: whenever [sample] returns, the result carries a metric exactly
    when [save_metric] is set, and then its shape is [num_chains] followed
    by the shape of one chain's metric: [(P, P)] for the dense metric and
    [(P,)] otherwise, [P] being the model's free-parameter count.  It never
    carries a Hessian. *)
Theorem sample_result_metric (env : Env) (a : SampleArgs) (out : StanOutput) :
  result (sample env a) = Ok out ->
  out_hessian out = None
  /\ (sa_save_metric a = false -> out_metric out = None)
  /\ (sa_save_metric a = true ->
      exists model mo,
        In (EvNumFreeParams model) (trace (sample env a))
        /\ out_metric out = Some mo
        /\ shape mo
           = sa_num_chains a
             :: metric_shape (sa_metric a)
                  (tinystan_model_num_free_params env model)).
Proof.
  intros H.
  destruct (sample env a) as [tr r] eqn:E. simpl in H. subst r.
  unfold sample in E.
  destruct (sa_num_chains a <? 1); [discriminate|].
  destruct (sa_num_warmup a <? 0); [discriminate|].
  destruct (sa_num_samples a <? 1); [discriminate|].
  apply invoker_ok_inv in E
    as (t0 & seed & payload & model & err & tb & [[pn o] mo] & tp
        & _ & _ & _ & _ & Hb & Hp & ->).
  pose proof (sample_body_ok_inv _ _ _ _ _ _ _ _ Hb) as (_ & Hin & _).
  apply sample_body_ok_metric in Hb as (Hno & Hyes).
  destruct (sa_save_metric a) eqn:Es; injection Hp as _ <-;
    cbn [out_hessian out_metric new_StanOutput].
  - split; [reflexivity|]. split; [discriminate|]. intros _.
    destruct (Hyes eq_refl) as (m & -> & Hm).
    exists model, m. split; [|auto].
    cbn [trace fst]. rewrite ?in_app_iff. simpl. rewrite ?in_app_iff. tauto.
  - split; [reflexivity|]. split; [reflexivity|discriminate].
Qed.

Lemma sample_result_metric_witness :
  let env := demo_env "a,b" 2 5 in
  let a := mkSampleArgs (DataStr "") 3 None (Some 1) 0 1 DENSE None true false
             demo_tuning in
  exists out mo,
    result (sample env a) = Ok out
    /\ out_metric out = Some mo /\ shape mo = [3; 2; 2].
Proof.
  intros env a.
  assert (E : exists out, result (sample env a) = Ok out)
    by (eexists; vm_compute; reflexivity).
  destruct E as [out E]. exists out.
  destruct (sample_result_metric env a out E) as (_ & _ & H).
  destruct (H eq_refl) as (model & mo & _ & Hm & Hs).
  exists mo. split; [exact E|]. split; [exact Hm|]. exact Hs.
Defined.

(** ** [optimize] has no check on the parameter count *)

(** X15: [optimize] never asks the model for its free-parameter count: with
    a constructed model and no initial values, the native calls are the
    constructor, the name query and the optimizer (on a zero-filled vector
    of one entry per name plus one), then whatever the error bridge does,
    then the destructor.  A model that reports zero free parameters is
    therefore optimized, where [sample] and [pathfinder] refuse it. *)
Theorem optimize_skips_parameter_check (env : Env) (a : OptimizeArgs)
    (t0 : list Event) (seed : Z) (payload : string) (model err : Z) :
  oa_init a = None ->
  seed_or_rand_u32 env (oa_seed a) = (t0, Ok seed) ->
  encode_stan_json env (oa_data a) = ret payload ->
  tinystan_create_model env payload seed = (model, err) ->
  model <> NULL ->
  exists names c,
    result (_get_parameter_names env model) = Ok names
    /\ c = mkOptimizeCall model None seed
             (OptimizationAlgorithm_value (oa_algorithm a)) (oa_tuning a)
             (np_zeros [len (OPTIMIZE_VARIABLES ++ names)])
             (size (np_zeros [len (OPTIMIZE_VARIABLES ++ names)]))
    /\ oc_out_size c = 1 + len names
    /\ trace (optimize env a)
       = t0 ++ [EvCreateModel payload seed; EvParamNames model; EvOptimize c]
            ++ trace (_raise_for_error env
                        (RcInt (nr_rc (tinystan_optimize env c)))
                        (nr_err (tinystan_optimize env c)))
            ++ [EvDestroyModel model]
    /\ (forall m, ~ In (EvNumFreeParams m) (trace (optimize env a))).
Proof.
  intros Hi Hseed He Hcr Hn.
  destruct (get_parameter_names_total env model) as (names & Hg).
  set (c := mkOptimizeCall model None seed
              (OptimizationAlgorithm_value (oa_algorithm a)) (oa_tuning a)
              (np_zeros [len (OPTIMIZE_VARIABLES ++ names)])
              (size (np_zeros [len (OPTIMIZE_VARIABLES ++ names)]))).
  exists names, c. split; [now rewrite Hg|]. split; [reflexivity|].
  split.
  { unfold c, size. cbn [oc_out_size np_zeros shape fold_right].
    rewrite len_app_fixed. change (len OPTIMIZE_VARIABLES) with 1. lia. }
  assert (Hb : trace (optimize_body env a seed model)
               = [EvParamNames model; EvOptimize c]
                 ++ trace (_raise_for_error env
                             (RcInt (nr_rc (tinystan_optimize env c)))
                             (nr_err (tinystan_optimize env c)))).
  { unfold optimize_body. rewrite (bind_ok _ _ _ _ Hg). cbv beta zeta.
    rewrite Hi.
    rewrite (bind_ok (_encode_inits env None 1 seed) _ [] None eq_refl).
    fold c. rewrite (bind_ok _ _ [EvOptimize c] tt eq_refl).
    cbn [trace fst app]. do 2 f_equal.
    rewrite trace_bind_silent by reflexivity. reflexivity. }
  assert (E : trace (optimize env a)
              = t0 ++ [EvCreateModel payload seed; EvParamNames model;
                       EvOptimize c]
                   ++ trace (_raise_for_error env
                               (RcInt (nr_rc (tinystan_optimize env c)))
                               (nr_err (tinystan_optimize env c)))
                   ++ [EvDestroyModel model]).
  { unfold optimize.
    rewrite (invoker_run env _ _ _ _ t0 seed payload model err
               Hseed He Hcr Hn).
    destruct (optimize_body env a seed model) as [tb [r|x]];
      cbn [trace fst result snd] in Hb |- *; subst tb;
      [rewrite app_nil_r|]; reflexivity. }
  split; [exact E|].
  intros m Hin. rewrite E in Hin.
  apply in_app_or in Hin as [Hin|Hin].
  - destruct (seed_or_rand_u32_total env (oa_seed a)) as (t & s & Hs & Hq).
    rewrite Hseed in Hs. injection Hs as <- <-.
    rewrite Forall_forall in Hq. apply Hq in Hin. discriminate.
  - simpl in Hin. destruct Hin as [Hin|[Hin|[Hin|Hin]]]; try discriminate.
    apply in_app_or in Hin as [Hin|[Hin|[]]]; [|discriminate].
    destruct (raise_for_error_cases env
                (RcInt (nr_rc (tinystan_optimize env c)))
                (nr_err (tinystan_optimize env c)))
      as [R|[[x R]|[[x R]|[x R]]]]; rewrite R in Hin; simpl in Hin;
      repeat (destruct Hin as [Hin|Hin]; [discriminate|]); contradiction.
Qed.

Lemma optimize_skips_parameter_check_witness :
  map is_inference
    (trace (optimize (demo_env "" 0 5) (demo_optimize_args (Some 3))))
  = [false; false; true; false].
Proof.
  destruct (optimize_skips_parameter_check (demo_env "" 0 5)
              (demo_optimize_args (Some 3)) [] 3 "" 5 NULL
              eq_refl eq_refl eq_refl eq_refl ltac:(discriminate))
    as (names & c & _ & _ & _ & E & _).
  rewrite E. rewrite !map_app. simpl. reflexivity.
Defined.

(** ** From [optimize] to [laplace_sample] *)

(** X16: the result of an invocation of [optimize] is accepted as the
    mode of a later invocation of [laplace_sample], which meets a world of
    its own (another state of the random generator, another handle): when
    that invocation's session opens and the library reports the parameter
    names of the optimization result, the leading [lp__] entry of the
    result is dropped, the rest has one entry per parameter name, so the
    length check passes and the native Laplace entry point is called on the
    new handle with the new seed, that vector as the mode array and no mode
    payload. *)
Theorem optimize_result_is_a_laplace_mode (env env' : Env)
    (oa : OptimizeArgs) (la : LaplaceArgs) (o : StanOutput)
    (t0 : list Event) (seed : Z) (payload : string) (model err : Z)
    (names : list string) :
  result (optimize env oa) = Ok o ->
  la_mode la = ModeOutput o ->
  1 <= la_num_draws la ->
  seed_or_rand_u32 env' (la_seed la) = (t0, Ok seed) ->
  encode_stan_json env' (la_data la) = ret payload ->
  tinystan_create_model env' payload seed = (model, err) ->
  model <> NULL ->
  result (_get_parameter_names env' model) = Ok names ->
  out_parameters o = OPTIMIZE_VARIABLES ++ names ->
  exists c m,
    In (EvLaplace c) (trace (laplace_sample env' la))
    /\ lc_model c = model
    /\ lc_seed c = seed
    /\ lc_mode_array c = Some m
    /\ lc_mode_json c = None
    /\ flat m = tl (flat (out_data o))
    /\ shape m = [len (out_parameters o) - 1]
    /\ len (out_parameters o) - 1 = len names.
Proof.
  intros H Hmode Hd Hs' He' Hcr' Hn' Hnames Hsame.
  destruct (optimize env oa) as [tr r] eqn:E. simpl in H. subst r.
  unfold optimize in E.
  apply invoker_ok_inv in E
    as (t1 & seed0 & payload0 & model0 & err0 & tb & [pn ob] & tp
        & _ & _ & _ & _ & Hb & Hpack & _).
  apply optimize_body_ok_inv in Hb as (names0 & _ & _ & -> & Hshape & _).
  injection Hpack as _ <-.
  cbn [new_StanOutput out_data out_parameters fst snd] in *.
  cbn [OPTIMIZE_VARIABLES app] in Hsame. injection Hsame as ->.
  destruct (get_parameter_names_total env' model) as (names' & Hg).
  rewrite Hg in Hnames. cbn [result snd] in Hnames.
  injection Hnames as ->.
  rewrite len_app_fixed in *. change (len OPTIMIZE_VARIABLES) with 1 in *.
  pose proof (len_nonneg names) as Hlen.
  set (m := mkArray [Z.max 0 (1 + len names - 1)] (tl (flat ob))).
  assert (Hp : preprocess_laplace_inputs env' (la_mode la)
               = ret (Some m, None)).
  { rewrite Hmode. unfold preprocess_laplace_inputs, np_tail.
    cbn [out_data new_StanOutput fst snd]. rewrite Hshape. reflexivity. }
  set (c := mkLaplaceCall model (Some m) None seed (la_num_draws la)
              (la_jacobian la) (la_calculate_lp la) (la_refresh la)
              (la_num_threads la)
              (np_zeros [la_num_draws la; len (LAPLACE_VARIABLES ++ names)])
              (size (np_zeros
                       [la_num_draws la; len (LAPLACE_VARIABLES ++ names)]))
              (if la_save_hessian la
               then Some (np_zeros
                            [tinystan_model_num_free_params env' model;
                             tinystan_model_num_free_params env' model])
               else None)).
  exists c, m.
  split; [|repeat split].
  - assert (Hbody : In (EvLaplace c)
                      (trace (laplace_body env' la (Some m) None seed model))).
    { unfold laplace_body. rewrite (bind_ok _ _ _ _ Hg). cbv beta zeta.
      cbn [np_len m shape].
      rewrite len_app_fixed. change (len LAPLACE_VARIABLES) with 2.
      replace (Z.max 0 (1 + len names - 1) =? 2 + len names - 2) with true
        by (symmetry; apply Z.eqb_eq; lia).
      cbn [negb].
      rewrite (bind_ok (ret tt) _ [] tt eq_refl).
      unfold _num_free_params.
      rewrite (bind_ok _ _ [EvNumFreeParams model]
                 (tinystan_model_num_free_params env' model) eq_refl).
      cbv beta zeta. unfold c. rewrite ?len_app_fixed.
      change (len LAPLACE_VARIABLES) with 2.
      rewrite trace_bind. cbn [trace fst app].
      rewrite ?in_app_iff. simpl. tauto. }
    unfold laplace_sample. apply Z.ltb_ge in Hd. rewrite Hd.
    rewrite (bind_ok _ _ _ _ Hs'), (bind_ok _ _ _ _ Hp).
    cbn [trace result fst snd app].
    rewrite (get_model_held env' (la_data la) seed _ payload model err
               He' Hcr' Hn').
    rewrite trace_bind. cbn [trace fst].
    rewrite ?in_app_iff. simpl. rewrite ?in_app_iff. tauto.
  - unfold m. cbn [shape]. f_equal. unfold len in *.
    cbn [List.length]. lia.
  - unfold len in *. cbn [List.length]. lia.
Qed.

Lemma optimize_result_is_a_laplace_mode_witness :
  let env := demo_env "a,b" 2 5 in
  let env' :=
    mkEnv (sep env) (fun _ _ => (6, NULL)) (tinystan_model_param_names env)
      (tinystan_model_num_free_params env) (tinystan_get_error_message env)
      (tinystan_get_error_type env) (tinystan_sample env)
      (tinystan_pathfinder env) (tinystan_optimize env)
      (tinystan_laplace_sample env) (dump_stan_json env)
      (validate_readable env) (create_inits env) 99 in
  exists o c,
    result (optimize env (demo_optimize_args None)) = Ok o
    /\ In (EvCreateModel "" 12345)
         (trace (optimize env (demo_optimize_args None)))
    /\ In (EvLaplace c)
         (trace (laplace_sample env'
                   (mkLaplaceArgs (ModeOutput o) (DataStr "") 2 true true
                      false None 0 (-1))))
    /\ lc_model c = 6 /\ lc_seed c = 99 /\ lc_mode_json c = None.
Proof.
  intros env env'.
  assert (E : exists o,
             result (optimize env (demo_optimize_args None)) = Ok o
             /\ out_parameters o = OPTIMIZE_VARIABLES ++ ["a"; "b"])
    by (eexists; vm_compute; split; reflexivity).
  destruct E as (o & E & Hpar). exists o.
  destruct (optimize_result_is_a_laplace_mode env env'
              (demo_optimize_args None)
              (mkLaplaceArgs (ModeOutput o) (DataStr "") 2 true true
                 false None 0 (-1))
              o [EvRandU32] 99 "" 6 NULL ["a"; "b"] E
              eq_refl ltac:(simpl; lia) eq_refl eq_refl eq_refl
              ltac:(discriminate) eq_refl Hpar)
    as (c & m & Hin & Hm & Hs & _ & Hj & _).
  exists c. repeat split; try assumption.
  vm_compute. tauto.
Defined.

(** ** One inference call per invocation *)

Lemma avoids_call_or_free (tr : list Event) :
  avoids is_call_or_free tr ->
  count is_inference tr = 0%nat /\ count is_free_error tr = 0%nat.
Proof.
  intros H. split; apply count_none; eapply Forall_impl; try exact H;
    intros e He; unfold is_call_or_free in He;
    apply orb_false_iff in He; tauto.
Qed.

Lemma one_call_bind_plain {A B} (m : M A) (f : A -> M B) :
  avoids is_call_or_free (trace m) ->
  (forall a, one_call (f a)) ->
  one_call (bind m f).
Proof.
  intros Hm Hf. apply avoids_call_or_free in Hm as [Hi Hfree].
  unfold one_call. rewrite trace_bind, !count_app, Hi, Hfree.
  destruct m as [t [a|e]]; cbn [result snd trace fst] in *.
  - destruct (Hf a) as [Hle Hok]. cbn [Nat.add]. split; [exact Hle|].
    intros b Hb. apply (Hok b).
    unfold bind in Hb. destruct (f a) as [t' r]. exact Hb.
  - split; [unfold count; simpl; lia|]. intros b Hb. discriminate.
Qed.

Lemma one_call_emit (env : Env) {A} (e : Event) (rc : rc_value) (err : Z)
    (x : A) :
  is_inference e = true -> is_free_error e = false ->
  one_call (emit e ;;; _raise_for_error env rc err ;;; ret x).
Proof.
  intros He Hf. unfold one_call.
  destruct (raise_for_error_cases env rc err) as [R|[[y R]|[[y R]|[y R]]]];
    rewrite R; unfold count; simpl; rewrite He, Hf; simpl;
    (split; [lia|]); intros b Hb; try discriminate; auto.
Qed.

Ltac plain_step :=
  first
    [ apply one_call_emit; reflexivity
    | apply one_call_bind_plain; [|intros; cbv beta zeta] ].

Lemma avoids_silent {A} (p : Event -> bool) (m : M A) :
  trace m = [] -> avoids p (trace m).
Proof. intros ->. constructor. Qed.

Lemma avoids_num_free_params (env : Env) (model : Z) :
  avoids is_call_or_free (trace (_num_free_params env model)).
Proof. repeat constructor. Qed.

Lemma avoids_get_parameter_names (env : Env) (model : Z) :
  avoids is_call_or_free (trace (_get_parameter_names env model)).
Proof.
  destruct (get_parameter_names_total env model) as (names & ->).
  repeat constructor.
Qed.

Lemma one_call_sample_body (env : Env) (a : SampleArgs) (seed model : Z) :
  one_call (sample_body env a seed model).
Proof.
  unfold sample_body.
  plain_step; [apply avoids_num_free_params|].
  plain_step; [destruct (_ =? 0); constructor|].
  plain_step; [apply avoids_get_parameter_names|].
  plain_step; [apply avoids_silent, check_init_inv_metric_trace|].
  plain_step; [apply avoids_silent, encode_inits_trace|].
  plain_step.
Qed.

Lemma one_call_pathfinder_body (env : Env) (a : PathfinderArgs)
    (n seed model : Z) :
  one_call (pathfinder_body env a n seed model).
Proof.
  unfold pathfinder_body.
  plain_step; [apply avoids_num_free_params|].
  plain_step; [destruct (_ =? 0); constructor|].
  plain_step; [apply avoids_get_parameter_names|].
  plain_step; [apply avoids_silent, encode_inits_trace|].
  plain_step.
Qed.

Lemma one_call_optimize_body (env : Env) (a : OptimizeArgs) (seed model : Z) :
  one_call (optimize_body env a seed model).
Proof.
  unfold optimize_body.
  plain_step; [apply avoids_get_parameter_names|].
  plain_step; [apply avoids_silent, encode_inits_trace|].
  plain_step.
Qed.

Lemma one_call_laplace_body (env : Env) (a : LaplaceArgs)
    (ma : option ndarray) (mj : option string) (seed model : Z) :
  one_call (laplace_body env a ma mj seed model).
Proof.
  unfold laplace_body.
  plain_step; [apply avoids_get_parameter_names|].
  plain_step.
  { destruct ma as [m|]; [|constructor].
    destruct (np_len m); [|constructor].
    destruct (negb _); constructor. }
  plain_step; [apply avoids_num_free_params|].
  plain_step.
Qed.

Lemma one_call_get_model (env : Env) {A} (data : StanData) (seed : Z)
    (body : Z -> M A) :
  (forall model, one_call (body model)) ->
  one_call (_get_model env data seed body).
Proof.
  intros Hb. unfold one_call.
  destruct (get_model_cases env data seed body)
    as [(x & _ & E)|[(p & er & t & x & _ & _ & Hr & E)|
                     (p & m & er & _ & _ & _ & E)]]; rewrite E;
    cbn [trace fst result snd].
  - split; [unfold count; simpl; lia|]. discriminate.
  - split; [|discriminate].
    rewrite count_cons. simpl.
    rewrite count_none; [lia|].
    apply Forall_forall. intros e He.
    change t with (trace (t, @Raise unit x)) in He. rewrite <- Hr in He.
    now apply raise_for_error_events in He.
  - destruct (Hb m) as [Hle Hok].
    rewrite !count_cons, !count_app, !count_cons. simpl.
    unfold count at 2 4. simpl. rewrite !Nat.add_0_r.
    split; [exact Hle|]. intros b Hres. exact (Hok b Hres).
Qed.

Lemma one_call_invoker (env : Env) {A B} (seed_arg : option Z)
    (data : StanData) (body : Z -> Z -> M A) (pack : A -> M B) :
  (forall s model, one_call (body s model)) ->
  (forall r, exists b, pack r = ([], Ok b)) ->
  one_call (s <- seed_or_rand_u32 env seed_arg ;;
            r <- _get_model env data s (body s) ;;
            pack r).
Proof.
  intros Hb Hp.
  apply one_call_bind_plain.
  - destruct (seed_or_rand_u32_total env seed_arg) as (t & s & -> & Hq).
    eapply Forall_impl; [|exact Hq]. now intros [].
  - intros s.
    pose proof (one_call_get_model env data s (body s) (Hb s)) as [Hle Hok].
    unfold one_call. rewrite trace_bind_silent
      by (intros r; destruct (Hp r) as [b ->]; reflexivity).
    split; [exact Hle|]. intros b Hres. 
    destruct (_get_model env data s (body s)) as [t [r|x]];
      [|discriminate].
    apply (Hok r). reflexivity.
Qed.

(** X17: an invocation of any of the four methods calls an inference entry
    point at most once; when it returns rather than raises, it called one
    exactly once and released no error object. *)
Theorem one_inference_call (env : Env) (i : Invocation) :
  (count is_inference (invocation_trace env i) <= 1)%nat
  /\ (invocation_raised env i = false ->
      count is_inference (invocation_trace env i) = 1%nat
      /\ count is_free_error (invocation_trace env i) = 0%nat).
Proof.
  assert (H : forall {A} (m : M A),
             one_call m ->
             (count is_inference (trace m) <= 1)%nat
             /\ (match result m with Ok _ => false | Raise _ => true end
                 = false ->
                 count is_inference (trace m) = 1%nat
                 /\ count is_free_error (trace m) = 0%nat)).
  { intros A m [Hle Hok]. split; [exact Hle|].
    destruct (result m) as [b|x] eqn:E; [|discriminate].
    intros _. now apply (Hok b). }
  destruct i as [a|a|a|a]; cbn [invocation_trace invocation_raised]; apply H.
  - unfold sample.
    destruct (_ <? 1); [split; [unfold count; simpl; lia | discriminate]|].
    destruct (_ <? 0); [split; [unfold count; simpl; lia | discriminate]|].
    destruct (_ <? 1); [split; [unfold count; simpl; lia | discriminate]|].
    apply one_call_invoker; [apply one_call_sample_body|].
    intros [[pn o] mo]. eexists. reflexivity.
  - unfold pathfinder.
    destruct (_ <? 1); [split; [unfold count; simpl; lia | discriminate]|].
    destruct (_ <? 1); [split; [unfold count; simpl; lia | discriminate]|].
    destruct (_ <? 1); [split; [unfold count; simpl; lia | discriminate]|].
    apply one_call_invoker; [intros; apply one_call_pathfinder_body|].
    intros r. eexists. reflexivity.
  - unfold optimize.
    apply one_call_invoker; [apply one_call_optimize_body|].
    intros r. eexists. reflexivity.
  - unfold laplace_sample.
    destruct (_ <? 1); [split; [unfold count; simpl; lia | discriminate]|].
    apply one_call_bind_plain.
    { destruct (seed_or_rand_u32_total env (la_seed a)) as (t & s & -> & Hq).
      eapply Forall_impl; [|exact Hq]. now intros []. }
    intros seed.
    apply one_call_bind_plain;
      [apply avoids_silent, preprocess_laplace_inputs_trace|].
    intros [ma mj].
    pose proof (one_call_get_model env (la_data a) seed
                  (laplace_body env a ma mj seed)
                  (one_call_laplace_body env a ma mj seed)) as [Hle Hok].
    unfold one_call.
    rewrite trace_bind_silent by now intros [[pn o] ho].
    split; [exact Hle|]. intros b Hres.
    destruct (_get_model env (la_data a) seed (laplace_body env a ma mj seed))
      as [t [r|x]]; [|discriminate].
    apply (Hok r). reflexivity.
Qed.

Lemma one_inference_call_witness :
  count is_inference
    (invocation_trace (demo_env "a,b" 2 5)
       (CallSample (demo_sample_args 1 0 1 (Some 1) DIAGONAL None)))
  = 1%nat.
Proof.
  destruct (one_inference_call (demo_env "a,b" 2 5)
              (CallSample (demo_sample_args 1 0 1 (Some 1) DIAGONAL None)))
    as (_ & H).
  apply H. reflexivity.
Defined.

(** ** What [sample] does with the sampler's return code *)

Lemma sample_body_after_call (env : Env) (a : SampleArgs) (seed model : Z)
    (c : SampleCall) :
  In (EvSample c) (trace (sample_body env a seed model)) ->
  exists names,
    _get_parameter_names env model = ([EvParamNames model], Ok names)
    /\ sample_body env a seed model
       = (r <- (emit (EvNumFreeParams model) ;;;
                emit (EvParamNames model) ;;;
                emit (EvSample c) ;;;
                _raise_for_error env (RcInt (nr_rc (tinystan_sample env c)))
                  (nr_err (tinystan_sample env c))) ;;
          ret (HMC_SAMPLER_VARIABLES ++ names,
               written (sc_out c) (nr_out (tinystan_sample env c)),
               option_map
                 (fun m => written m (nr_aux (tinystan_sample env c)))
                 (sc_metric_out c))).
Proof.
  intros H. unfold sample_body in H |- *.
  apply in_trace_bind in H as [H|(t & p & Hp & H)].
  { apply in_emit_inv in H. discriminate. }
  rewrite (bind_ok _ _ _ _ Hp).
  unfold _num_free_params in Hp. simpl in Hp. injection Hp as <- <-.
  apply in_trace_bind in H as [H|(t & [] & Hz & H)].
  { destruct (_ =? 0); simpl in H; contradiction. }
  rewrite (bind_ok _ _ _ _ Hz).
  destruct (_ =? 0) eqn:Ez; [discriminate|]. injection Hz as <-.
  destruct (get_parameter_names_total env model) as (names' & Hg').
  apply in_trace_bind in H as [H|(t1 & names & Hg & H)].
  { rewrite Hg' in H. apply in_emit_inv in H. discriminate. }
  rewrite (bind_ok _ _ _ _ Hg).
  rewrite Hg' in Hg. injection Hg as <- <-.
  exists names'. split; [exact Hg'|].
  cbv beta zeta in H |- *.
  apply in_trace_bind in H as [H|(t2 & iim & Hm & H)].
  { rewrite check_init_inv_metric_trace in H. contradiction. }
  rewrite (bind_ok _ _ _ _ Hm).
  pose proof (check_init_inv_metric_trace (sa_init_inv_metric a)
                (sa_num_chains a)
                (metric_shape (sa_metric a)
                   (tinystan_model_num_free_params env model))) as Ht2.
  rewrite Hm in Ht2. simpl in Ht2. subst t2.
  apply in_trace_bind in H as [H|(t3 & inits & Hi & H)].
  { rewrite encode_inits_trace in H. contradiction. }
  rewrite (bind_ok _ _ _ _ Hi).
  pose proof (encode_inits_trace env (sa_inits a) (sa_num_chains a) seed)
    as Ht3.
  rewrite Hi in Ht3. simpl in Ht3. subst t3.
  apply in_trace_bind in H as [H|(t4 & [] & _ & H)].
  - apply in_emit_inv in H. injection H as ->.
    cbn [sc_out sc_metric_out app HMC_SAMPLER_VARIABLES].
    match goal with
    | |- context [_raise_for_error env ?rc ?err] =>
        destruct (_raise_for_error env rc err) as [tr [[]|x]]
    end; reflexivity.
  - apply in_trace_bind in H as [H|(t5 & [] & _ & H)].
    + apply raise_for_error_events in H. discriminate.
    + simpl in H. contradiction.
Qed.

(** X18: once [sample] has called the native sampler, the return code
    decides the outcome.  With code 0 the result holds what the sampler
    wrote into the buffer; with any other code [sample] raises and returns
    nothing: the unknown-error [RuntimeError] quoting the code when the
    error slot is empty; the category's exception with the native message,
    after freeing the error object exactly once, when the message decodes;
    [UnicodeDecodeError], the error object not freed, when it does not. *)
Theorem sample_return_code (env : Env) (a : SampleArgs) (c : SampleCall) :
  In (EvSample c) (trace (sample env a)) ->
  let r := tinystan_sample env c in
  (nr_rc r = 0 ->
   exists out,
     result (sample env a) = Ok out
     /\ out_data out = written (sc_out c) (nr_out r)
     /\ count is_free_error (trace (sample env a)) = 0%nat)
  /\ (nr_rc r <> 0 ->
      (exists e, result (sample env a) = Raise e)
      /\ (nr_err r = NULL ->
          result (sample env a)
          = Raise (mkExn RuntimeError
                     ("Unknown error, function returned code "
                      ++ str_int (nr_rc r))%string)
          /\ count is_free_error (trace (sample env a)) = 0%nat)
      /\ (nr_err r <> NULL ->
          utf8_valid (tinystan_get_error_message env (nr_err r)) = true ->
          count is_free_error (trace (sample env a)) = 1%nat
          /\ forall cat,
               tinystan_get_error_type env (nr_err r) = category_code cat ->
               result (sample env a)
               = Raise (mkExn (category_exception cat)
                          (tinystan_get_error_message env (nr_err r))))
      /\ (nr_err r <> NULL ->
          utf8_valid (tinystan_get_error_message env (nr_err r)) = false ->
          count is_free_error (trace (sample env a)) = 0%nat
          /\ exists text,
               result (sample env a)
               = Raise (mkExn UnicodeDecodeError text))).
Proof.
  intros H r.
  destruct (sample_call_inv env a c H)
    as (Hc & Hw & Hs & t0 & seed & p & m & er & Hseed & He & Hcr & Hn & Hb).
  apply sample_body_after_call in Hb as (names & _ & Hb).
  assert (Ht0 : count is_free_error t0 = 0%nat).
  { apply count_none.
    destruct (seed_or_rand_u32_total env (sa_seed a)) as (t & s & Hs' & Hq).
    rewrite Hseed in Hs'. injection Hs' as <- <-.
    eapply Forall_impl; [|exact Hq]. now intros []. }
  assert (E : sample env a
              = match sample_body env a seed m with
                | (tb, Ok x) =>
                    (t0 ++ (EvCreateModel p seed :: tb ++ [EvDestroyModel m])
                        ++ [],
                     let '(param_names, out, metric_out) := x in
                     Ok (if sa_save_metric a
                         then mkOutput param_names out metric_out None
                         else new_StanOutput param_names out))
                | (tb, Raise e) =>
                    (t0 ++ EvCreateModel p seed :: tb ++ [EvDestroyModel m],
                     Raise e)
                end).
  { unfold sample. apply Z.ltb_ge in Hc, Hw, Hs. rewrite Hc, Hw, Hs.
    rewrite (invoker_run env _ _ _ _ t0 seed p m er Hseed He Hcr Hn).
    destruct (sample_body env a seed m) as [tb [[[pn o] mo]|x]];
      reflexivity. }
  rewrite E, Hb. fold r. clear E Hb H.
  assert (Hraise : forall tR x,
             _raise_for_error env (RcInt (nr_rc r)) (nr_err r)
             = (tR, Raise x) ->
             forall P : M StanOutput -> Prop,
               P (t0 ++ EvCreateModel p seed
                     :: (EvNumFreeParams m :: EvParamNames m :: EvSample c
                           :: tR) ++ [EvDestroyModel m],
                  Raise x) ->
               P (match
                    (r0 <- (emit (EvNumFreeParams m);;;
                            emit (EvParamNames m);;;
                            emit (EvSample c);;;
                            _raise_for_error env (RcInt (nr_rc r))
                              (nr_err r));;
                     ret (HMC_SAMPLER_VARIABLES ++ names,
                          written (sc_out c) (nr_out r),
                          option_map (fun m0 => written m0 (nr_aux r))
                            (sc_metric_out c)))
                  with
                  | (tb, Ok x0) =>
                      (t0 ++ (EvCreateModel p seed
                                :: tb ++ [EvDestroyModel m]) ++ [],
                       let '(param_names, out, metric_out) := x0 in
                       Ok (if sa_save_metric a
                           then mkOutput param_names out metric_out None
                           else new_StanOutput param_names out))
                  | (tb, Raise e) =>
                      (t0 ++ EvCreateModel p seed
                          :: tb ++ [EvDestroyModel m], Raise e)
                  end)).
  { intros tR x R P HP. rewrite R. exact HP. }
  split.
  - intros Hz.
    assert (R : _raise_for_error env (RcInt (nr_rc r)) (nr_err r)
                = ([], Ok tt))
      by (unfold _raise_for_error; cbn [rc_nonzero]; rewrite Hz; reflexivity).
    rewrite R. cbn [bind emit ret app].
    eexists. split; [reflexivity|]. split.
    + destruct (sa_save_metric a); reflexivity.
    + cbn [trace fst]. rewrite !count_app, Ht0. reflexivity.
  - intros Hnz.
    assert (Hrc : rc_nonzero (RcInt (nr_rc r)) = true)
      by (cbn [rc_nonzero]; apply Z.eqb_neq in Hnz; now rewrite Hnz).
    split; [|split; [|split]].
    + destruct (raise_for_error_cases env (RcInt (nr_rc r)) (nr_err r))
        as [R|[[x R]|[[x R]|[x R]]]].
      * apply raise_for_error_ok_inv in R as [_ R]. congruence.
      * apply (Hraise _ _ R). eexists. reflexivity.
      * apply (Hraise _ _ R). eexists. reflexivity.
      * apply (Hraise _ _ R). eexists. reflexivity.
    + intros Hnull.
      assert (R : _raise_for_error env (RcInt (nr_rc r)) (nr_err r)
                  = ([], Raise (mkExn RuntimeError
                                  ("Unknown error, function returned code "
                                   ++ str_int (nr_rc r))%string))).
      { unfold _raise_for_error. rewrite Hrc, Hnull. reflexivity. }
      apply (Hraise _ _ R). split; [reflexivity|].
      cbn [trace fst]. rewrite !count_app, Ht0. reflexivity.
    + intros Hne Hv.
      apply (Hraise _ _ (raise_for_error_decoded env _ _ Hrc Hne Hv)).
      split.
      * cbn [trace fst]. rewrite !count_app, Ht0. reflexivity.
      * intros cat Hcat. cbn [result snd]. rewrite Hcat.
        destruct cat; reflexivity.
    + intros Hne Hv.
      apply (Hraise _ _ (raise_for_error_undecoded env _ _ Hrc Hne Hv)).
      split.
      * cbn [trace fst]. rewrite !count_app, Ht0. reflexivity.
      * eexists. reflexivity.
Qed.

Lemma sample_return_code_witness :
  let env :=
    mkEnv "028"%char (fun _ _ => (5, NULL)) (fun _ => "a,b") (fun _ => 2)
      (fun _ => "divergence") (fun _ => 0)
      (fun _ => mkNativeReturn 1 33 (fun _ => 0%float) (fun _ => 0%float))
      (fun _ => quiet_return) (fun _ => quiet_return) (fun _ => quiet_return)
      (fun _ => "{}") (fun _ => None)
      (fun _ _ _ => InitsOne (DataStr "{}")) 0 in
  let a := demo_sample_args 1 0 1 (Some 1) DIAGONAL None in
  result (sample env a) = Raise (mkExn RuntimeError "divergence")
  /\ count is_free_error (trace (sample env a)) = 1%nat.
Proof.
  intros env a.
  assert (Hin : exists c, In (EvSample c) (trace (sample env a)))
    by (eexists; vm_compute; do 3 right; left; reflexivity).
  destruct Hin as [c Hin].
  destruct (sample_return_code env a c Hin) as (_ & H).
  destruct (H ltac:(discriminate)) as (_ & _ & Hf & _).
  destruct (Hf ltac:(discriminate) eq_refl) as (Hcount & Hcat).
  split; [exact (Hcat RecoverableRuntime eq_refl) | exact Hcount].
Defined.

(** ** A supplied seed *)

Lemma avoids_bind {A B} (p : Event -> bool) (m : M A) (f : A -> M B) :
  avoids p (trace m) ->
  (forall a, avoids p (trace (f a))) ->
  avoids p (trace (bind m f)).
Proof.
  intros Hm Hf. rewrite trace_bind. apply Forall_app. split; [assumption|].
  destruct (result m); [apply Hf | constructor].
Qed.

Lemma avoids_rand_raise_for_error (env : Env) (rc : rc_value) (err : Z) :
  avoids is_rand (trace (_raise_for_error env rc err)).
Proof.
  destruct (raise_for_error_cases env rc err) as [H|[[e H]|[[e H]|[e H]]]];
    rewrite H; repeat constructor.
Qed.

Ltac no_rand_step :=
  first
    [ apply avoids_bind; [|intros; cbv beta zeta]
    | apply avoids_rand_raise_for_error
    | apply avoids_silent; apply encode_inits_trace
    | apply avoids_silent; apply check_init_inv_metric_trace
    | apply avoids_silent; apply encode_stan_json_trace
    | solve [repeat constructor]
    | match goal with
      | |- avoids _ (trace (if ?b then _ else _)) => destruct b
      | |- avoids _ (trace (match ?x with _ => _ end)) => destruct x
      end ].

Lemma avoids_rand_get_parameter_names (env : Env) (model : Z) :
  avoids is_rand (trace (_get_parameter_names env model)).
Proof.
  destruct (get_parameter_names_total env model) as (names & ->).
  repeat constructor.
Qed.

Lemma avoids_rand_sample_body (env : Env) (a : SampleArgs) (seed model : Z) :
  avoids is_rand (trace (sample_body env a seed model)).
Proof.
  unfold sample_body, _num_free_params.
  repeat first [apply avoids_rand_get_parameter_names | no_rand_step].
Qed.

Lemma avoids_rand_pathfinder_body (env : Env) (a : PathfinderArgs)
    (n seed model : Z) :
  avoids is_rand (trace (pathfinder_body env a n seed model)).
Proof.
  unfold pathfinder_body, _num_free_params.
  repeat first [apply avoids_rand_get_parameter_names | no_rand_step].
Qed.

Lemma avoids_rand_optimize_body (env : Env) (a : OptimizeArgs)
    (seed model : Z) :
  avoids is_rand (trace (optimize_body env a seed model)).
Proof.
  unfold optimize_body, _num_free_params.
  repeat first [apply avoids_rand_get_parameter_names | no_rand_step].
Qed.

Lemma avoids_rand_laplace_body (env : Env) (a : LaplaceArgs)
    (ma : option ndarray) (mj : option string) (seed model : Z) :
  avoids is_rand (trace (laplace_body env a ma mj seed model)).
Proof.
  unfold laplace_body, _num_free_params.
  repeat first [apply avoids_rand_get_parameter_names | no_rand_step].
Qed.

(** Inside a session nothing is drawn, and the only constructor call is the
    one that opened it. *)
Lemma get_model_seed (env : Env) {A} (data : StanData) (seed : Z)
    (body : Z -> M A) :
  (forall model, avoids is_rand (trace (body model))) ->
  (forall model, session_free (trace (body model))) ->
  avoids is_rand (trace (_get_model env data seed body))
  /\ forall p s, In (EvCreateModel p s) (trace (_get_model env data seed body))
                 -> s = seed.
Proof.
  intros Hr Hf.
  destruct (get_model_cases env data seed body)
    as [(x & _ & E)|[(p & er & t & x & _ & _ & Hrfe & E)|
                     (p & m & er & _ & _ & _ & E)]]; rewrite E;
    cbn [trace fst].
  - split; [constructor|]. intros q s [].
  - assert (Ht : t = trace (_raise_for_error env (RcBool true) er))
      by now rewrite Hrfe.
    split.
    + constructor; [reflexivity|]. rewrite Ht.
      apply avoids_rand_raise_for_error.
    + intros q s [H|H]; [now injection H|].
      rewrite Ht in H.
      pose proof (session_free_raise_for_error env (RcBool true) er) as Hs.
      unfold session_free in Hs.
      rewrite Forall_forall in Hs. apply Hs in H as [H _]. discriminate.
  - split.
    + constructor; [reflexivity|]. apply Forall_app. split; [apply Hr|].
      repeat constructor.
    + intros q s [H|H]; [now injection H|].
      apply in_app_or in H as [H|[H|[]]]; [|discriminate].
      pose proof (Hf m) as Hs. unfold session_free in Hs.
      rewrite Forall_forall in Hs. apply Hs in H as [H _]. discriminate.
Qed.

(** X19: when the caller supplies a seed other than zero, the invocation
    draws no random number and passes exactly that seed to every
    constructor call it makes; the constructor, whose seed parameter is a
    [c_uint], receives it modulo 2^32, so it receives exactly the supplied
    seed when that seed is below 2^32.  This holds for all four methods. *)
Theorem supplied_seed_is_used (env : Env) (i : Invocation) (s : Z) :
  invocation_seed i = Some s -> s <> 0 ->
  ~ In EvRandU32 (invocation_trace env i)
  /\ forall payload s',
       In (EvCreateModel payload s') (invocation_trace env i) ->
       s' = s
       /\ received_seed s' = s mod 2 ^ 32
       /\ (0 < s < 2 ^ 32 -> received_seed s' = s).
Proof.
  intros Hseed Hnz.
  assert (R : forall tr : list Event,
             (~ In EvRandU32 tr
              /\ forall payload s', In (EvCreateModel payload s') tr -> s' = s)
             -> ~ In EvRandU32 tr
                /\ forall payload s',
                     In (EvCreateModel payload s') tr ->
                     s' = s
                     /\ received_seed s' = s mod 2 ^ 32
                     /\ (0 < s < 2 ^ 32 -> received_seed s' = s)).
  { intros tr [Hr Hc]. split; [exact Hr|].
    intros payload s' Hin. rewrite (Hc payload s' Hin).
    split; [reflexivity|split; [reflexivity|]].
    intros Hrange. apply c_uint_small. lia. }
  apply R.
  assert (K : forall {A B} (data : StanData) (body : Z -> Z -> M A)
                     (pack : A -> M B),
             (forall x model, avoids is_rand (trace (body x model))) ->
             (forall x model, session_free (trace (body x model))) ->
             (forall r, trace (pack r) = []) ->
             let tr := trace (x <- seed_or_rand_u32 env (Some s) ;;
                              r <- _get_model env data x (body x) ;;
                              pack r) in
             ~ In EvRandU32 tr
             /\ forall payload s', In (EvCreateModel payload s') tr -> s' = s).
  { intros A B data body pack Hr Hf Hp tr. subst tr.
    rewrite (bind_ok _ _ _ _ (seed_or_rand_u32_supplied env s Hnz)).
    cbn [trace fst app]. rewrite trace_bind_silent by exact Hp.
    destruct (get_model_seed env data s (body s) (Hr s) (Hf s)) as [Ha Hc].
    split; [|exact Hc].
    intros Hin. unfold avoids in Ha. rewrite Forall_forall in Ha.
    apply Ha in Hin. discriminate. }
  assert (N : forall {A} (x : PyExn),
             ~ In EvRandU32 (trace (@pair (list Event) (Result A) [] (Raise x)))
             /\ forall payload s',
                  In (EvCreateModel payload s')
                    (trace (@pair (list Event) (Result A) [] (Raise x))) ->
                  s' = s).
  { intros A x. split; [intros []|intros p q []]. }
  destruct i as [a|a|a|a]; cbn [invocation_seed invocation_trace] in *.
  - unfold sample. rewrite Hseed.
    destruct (_ <? 1); [apply N|].
    destruct (_ <? 0); [apply N|].
    destruct (_ <? 1); [apply N|].
    apply (K _ _ (sa_data a) (sample_body env a)).
    + apply avoids_rand_sample_body.
    + apply session_free_sample_body.
    + now intros [[pn o] mo].
  - unfold pathfinder. rewrite Hseed.
    destruct (_ <? 1); [apply N|].
    destruct (_ <? 1); [apply N|].
    destruct (_ <? 1); [apply N|].
    apply (K _ _ (pa_data a) (pathfinder_body env a _)).
    + intros; apply avoids_rand_pathfinder_body.
    + intros; apply session_free_pathfinder_body.
    + reflexivity.
  - unfold optimize. rewrite Hseed.
    apply (K _ _ (oa_data a) (optimize_body env a)).
    + apply avoids_rand_optimize_body.
    + apply session_free_optimize_body.
    + reflexivity.
  - unfold laplace_sample. rewrite Hseed.
    destruct (_ <? 1); [apply N|].
    rewrite (bind_ok _ _ _ _ (seed_or_rand_u32_supplied env s Hnz)).
    cbn [trace fst app].
    pose proof (preprocess_laplace_inputs_trace env (la_mode a)) as Hp.
    destruct (preprocess_laplace_inputs env (la_mode a)) as [tp [[ma mj]|x]];
      simpl in Hp; subst tp; [|apply N].
    rewrite trace_bind. cbn [trace result fst snd app].
    rewrite trace_bind_silent by now intros [[pn o] ho].
    destruct (get_model_seed env (la_data a) s
                (laplace_body env a ma mj s)
                (avoids_rand_laplace_body env a ma mj s)
                (session_free_laplace_body env a ma mj s)) as [Ha Hc].
    split; [|exact Hc].
    intros Hin. unfold avoids in Ha. rewrite Forall_forall in Ha.
    apply Ha in Hin. discriminate.
Qed.

Lemma supplied_seed_is_used_witness :
  (~ In EvRandU32
       (invocation_trace (demo_env "a,b" 2 5)
          (CallOptimize (demo_optimize_args (Some 42))))
   /\ received_seed 42 = 42)
  /\ (In (EvCreateModel "" (2 ^ 32))
         (invocation_trace (demo_env "a,b" 2 5)
            (CallOptimize (demo_optimize_args (Some (2 ^ 32)))))
      /\ received_seed (2 ^ 32) = 0).
Proof.
  split.
  - destruct (supplied_seed_is_used (demo_env "a,b" 2 5)
                (CallOptimize (demo_optimize_args (Some 42))) 42
                eq_refl ltac:(discriminate)) as [Hr Hc].
    split; [exact Hr|].
    apply (Hc "" 42); [vm_compute; tauto | lia].
  - assert (Hin : In (EvCreateModel "" (2 ^ 32))
                    (invocation_trace (demo_env "a,b" 2 5)
                       (CallOptimize (demo_optimize_args (Some (2 ^ 32))))))
      by (vm_compute; tauto).
    split; [exact Hin|].
    destruct (supplied_seed_is_used (demo_env "a,b" 2 5)
                (CallOptimize (demo_optimize_args (Some (2 ^ 32)))) (2 ^ 32)
                eq_refl ltac:(discriminate)) as [_ Hc].
    destruct (Hc "" _ Hin) as (_ & Hm & _). rewrite Hm. reflexivity.
Defined.
